(** * Metro Manila traffic incident dashboard: the cleaning and aggregation core

    A shallow embedding of [Fernandez_MP3.py].  The script is a pandas
    pipeline: [load_and_clean_data] reads every CSV file of the dataset into
    one frame and repairs it, the sidebar turns a date range and a city
    selection into a row mask, and the page computes four metrics and four
    chart tables from the masked frame.

    A frame is a list of column labels and a list of rows; a row maps a label
    to the value of its cell and has no entry where pandas holds NaN / NaT.
    Library calls are modelled by what they do to such frames.  Three of
    them are Section variables: [str.title] and [pd.to_datetime] on the Date
    column, whose behaviour is a matter of Unicode tables and of format
    guessing, and the sort inside [value_counts], which fixes no order among
    equal counts.

    Part I holds the model, Part II the facts proved about it, Part III the
    facts about the rest of the page. *)

From Stdlib Require Import Ascii String DecimalString List Arith Lia.
From Stdlib Require Import Sorting.Permutation Sorting.Sorted.
From stdpp Require Import base decidable option list sorting strings gmap.

(** * Part I: the model *)

(** ** Text: digits, fixed-width numbers, white space *)

Module Text.

Definition digit_char (n : nat) : ascii := ascii_of_nat (48 + n).

(** [f"{n:02d}"] for [n < 100]. *)
Definition two_digits (n : nat) : string :=
  String (digit_char (n / 10)) (String (digit_char (n mod 10)) "").

(** [f"{n:04d}"] for [n < 10000]. *)
Definition four_digits (n : nat) : string :=
  String (digit_char (n / 10 / 10 / 10))
    (String (digit_char ((n / 10 / 10) mod 10))
       (String (digit_char ((n / 10) mod 10))
          (String (digit_char (n mod 10)) ""))).

(** [str(n)] for a natural number. *)
Definition decimal (n : nat) : string :=
  NilEmpty.string_of_uint (Nat.to_uint n).

(** The code points below 256 on which Python's [str.isspace] holds; the
    same set is what [\s] matches in a [str] pattern. *)
Definition is_space (a : ascii) : bool :=
  let n := nat_of_ascii a in
  ((9 <=? n) && (n <=? 13)) || ((28 <=? n) && (n <=? 32))
  || (n =? 133) || (n =? 160).

Fixpoint lstrip (s : string) : string :=
  match s with
  | String a s' => if is_space a then lstrip s' else s
  | EmptyString => EmptyString
  end.

(** [s.strip()]: white space removed at both ends. *)
Definition strip (s : string) : string :=
  String.rev (lstrip (String.rev (lstrip s))).

(** [s.endswith(suffix)] *)
Fixpoint ends_with (suffix s : string) : bool :=
  if String.eqb s suffix then true
  else match s with
       | String _ s' => ends_with suffix s'
       | EmptyString => false
       end.

(** The leading decimal digits of a text and what follows them. *)
Fixpoint span_digits (s : string) : list nat * string :=
  match s with
  | String a s' =>
      match Ascii.is_nat a with
      | Some d => let '(ds, rest) := span_digits s' in (d :: ds, rest)
      | None => ([], s)
      end
  | EmptyString => ([], EmptyString)
  end.

Definition lower (a : ascii) : ascii :=
  let n := nat_of_ascii a in
  if (65 <=? n) && (n <=? 90) then ascii_of_nat (n + 32) else a.

End Text.

(** ** Wall-clock times ([datetime.time]) *)

Module Clock.
Import Text.

Record t := mk { hour : nat; minute : nat; second : nat }.

Definition ok (c : t) : Prop := hour c < 24 /\ minute c < 60 /\ second c < 60.

(** [str(c)], i.e. [c.isoformat()] for a time without a sub-second part. *)
Definition to_text (c : t) : string :=
  two_digits (hour c) +:+ ":" +:+ two_digits (minute c) +:+ ":"
    +:+ two_digits (second c).

(** The group [%I]: [1[0-2]|0[1-9]|[1-9]], followed by the colon. *)
Definition hour12 (ds : list nat) : option nat :=
  match ds with
  | [d] => if 1 <=? d then Some d else None
  | [d1; d2] =>
      if (d1 =? 1) && (d2 <=? 2) then Some (10 + d2)
      else if (d1 =? 0) && (1 <=? d2) then Some d2
      else None
  | _ => None
  end.

(** The group [%M]: [[0-5]\d|\d], followed by white space. *)
Definition minute60 (ds : list nat) : option nat :=
  match ds with
  | [d] => Some d
  | [d1; d2] => if d1 <=? 5 then Some (10 * d1 + d2) else None
  | _ => None
  end.

(** The group [%p], matched without regard to case, up to the end of the
    text: [Some true] for PM. *)
Definition meridiem (s : string) : option bool :=
  match s with
  | String a (String b EmptyString) =>
      if Ascii.eqb (lower b) "m"%char then
        if Ascii.eqb (lower a) "a"%char then Some false
        else if Ascii.eqb (lower a) "p"%char then Some true
        else None
      else None
  | _ => None
  end.

(** [pd.to_datetime(text, format='%I:%M %p', errors='coerce')] on one text,
    then [.time()]: the whole text has to match hour, colon, minute, white
    space, AM or PM; 12 AM is hour 0 and 1 PM to 11 PM are hours 13 to 23. *)
Definition strptime_12h (s : string) : option t :=
  let '(hs, rest) := span_digits s in
  match hour12 hs, rest with
  | Some h, String colon rest1 =>
      let '(ms, rest2) := span_digits rest1 in
      match minute60 ms, rest2 with
      | Some m, String sp rest3 =>
          if Ascii.eqb colon ":"%char && is_space sp then
            match meridiem (lstrip rest3) with
            | Some pm =>
                Some (mk (if pm then (if h =? 12 then 12 else h + 12)
                          else (if h =? 12 then 0 else h)) m 0)
            | None => None
            end
          else None
      | _, _ => None
      end
  | _, _ => None
  end.

(** [pd.to_datetime(text, errors='coerce')] on the texts that the Hour step
    hands to it: [str] of a time, which reads back as a timestamp at that
    time of day, and the text of a missing time, which reads back as NaT.
    Only the time of day of the result is kept. *)
Definition parse_text (s : string) : option t :=
  match s with
  | String h1 (String h2 (String c1 (String m1 (String m2
      (String c2 (String s1 (String s2 EmptyString))))))) =>
      match Ascii.is_nat h1, Ascii.is_nat h2, Ascii.is_nat m1,
            Ascii.is_nat m2, Ascii.is_nat s1, Ascii.is_nat s2 with
      | Some a, Some b, Some c, Some d, Some e, Some f =>
          let h := 10 * a + b in
          let m := 10 * c + d in
          let s := 10 * e + f in
          if Ascii.eqb c1 ":"%char && Ascii.eqb c2 ":"%char
             && (h <? 24) && (m <? 60) && (s <? 60)
          then Some (mk h m s)
          else None
      | _, _, _, _, _, _ => None
      end
  | _ => None
  end.

End Clock.

(** ** Calendar dates and timestamps ([datetime.date], [pd.Timestamp]) *)

Module Calendar.
Import Text.

Record date := mkdate { year : nat; month : nat; day : nat }.

Record Timestamp := mkts { ts_date : date; ts_clock : Clock.t }.

(** Dates compare as the tuples (year, month, day). *)
Definition date_compare (d1 d2 : date) : comparison :=
  match year d1 ?= year d2 with
  | Eq => match month d1 ?= month d2 with
          | Eq => day d1 ?= day d2
          | c => c
          end
  | c => c
  end.

(** [d1 <= d2] *)
Definition date_leb (d1 d2 : date) : bool :=
  match date_compare d1 d2 with Gt => false | _ => true end.

(** The months since year 0: the chronological rank of a month bucket. *)
Definition month_index (d : date) : nat := 12 * year d + month d.

(** [str(ts.to_period('M'))]: the label "YYYY-MM". *)
Definition period_str (d : date) : string :=
  four_digits (year d) +:+ "-" +:+ two_digits (month d).

(** A month as a nanosecond timestamp can hold it: a year of four digits
    and a month of the calendar. *)
Definition month_ok (d : date) : Prop :=
  1000 <= year d < 10 * 1000 /\ 1 <= month d <= 12.

(** The day of the week by Sakamoto's rule; 0 is Sunday. *)
Definition weekday (d : date) : nat :=
  let y := if month d <? 3 then year d - 1 else year d in
  let t := nth (month d - 1) [0; 3; 2; 5; 0; 3; 5; 1; 4; 6; 2; 4] 0 in
  (y + y / 4 + y / 400 + t + day d - y / 100) mod 7.

(** [ts.day_name()] *)
Definition day_name (d : date) : string :=
  nth (weekday d)
    ["Sunday"; "Monday"; "Tuesday"; "Wednesday"; "Thursday"; "Friday";
     "Saturday"] "".

End Calendar.

(** ** Outcomes of a script step *)

(** An exception that ends the script run. *)
Inductive exn :=
| KeyError (label : string)   (* no column of that label, or no position 0 *)
| TypeError                   (* an operation on a cell that is no number *)
| LabelClash.                 (* not of the script: two trimmed labels are
                                 equal and the model stops, see
                                 [strip_columns] *)

(** A step returns, or shows an error box and stops the session
    ([st.error] followed by [st.stop]), or raises. *)
Inductive outcome (A : Type) :=
| Ok (a : A)
| Halt (message : string)
| Raise (e : exn).
Arguments Ok {A} a.
Arguments Halt {A} message.
Arguments Raise {A} e.

#[global] Instance outcome_ret : MRet outcome := fun A a => Ok a.
#[global] Instance outcome_bind : MBind outcome := fun A B f m =>
  match m with
  | Ok a => f a
  | Halt msg => Halt msg
  | Raise e => Raise e
  end.

(** ** Frames ([pd.DataFrame]) *)

Module Frame.
Import Text Calendar.

(** The value of a cell that is not null.  A cell read from a CSV file is a
    text, or a number where [read_csv] read its column as numbers; such a
    number is carried as the text that Python writes for it.  The cleaning
    steps put timestamps, times of day and hour numbers into the columns
    they rebuild. *)
Inductive value :=
| VStr (s : string)
| VStamp (ts : Timestamp)
| VTime (c : Clock.t)
| VNum (n : nat)
| VFloat (repr : string).

(** A row: label to cell, with no entry for NaN / NaT / None. *)
Abbreviation row := (gmap string value).

Record DataFrame := mkframe { columns : list string; rows : list row }.

Definition as_str (v : value) : option string :=
  match v with VStr s => Some s | _ => None end.
Definition as_stamp (v : value) : option Timestamp :=
  match v with VStamp ts => Some ts | _ => None end.
Definition as_num (v : value) : option nat :=
  match v with VNum n => Some n | _ => None end.

(** [str(v)], as [astype(str)] applies it to a cell that is not null. *)
Definition astype_str (v : value) : string :=
  match v with
  | VStr s => s
  | VStamp ts =>
      period_str (ts_date ts) +:+ "-" +:+ two_digits (day (ts_date ts))
        +:+ " " +:+ Clock.to_text (ts_clock ts)
  | VTime c => Clock.to_text c
  | VNum n => decimal n +:+ ".0"
  | VFloat repr => repr
  end.

(** [len(df)] *)
Definition len (df : DataFrame) : nat := length (rows df).

(** [df.empty]: one of the two axes has length 0. *)
Definition empty (df : DataFrame) : bool :=
  match rows df, columns df with
  | [], _ | _, [] => true
  | _, _ => false
  end.

(** [c in df.columns] *)
Definition has_column (c : string) (df : DataFrame) : bool :=
  bool_decide (c ∈ columns df).

(** [df[c]]: the cells of a column, or a [KeyError]. *)
Definition column (c : string) (df : DataFrame)
  : outcome (list (option value)) :=
  if has_column c df then Ok ((fun r : row => r !! c) <$> rows df)
  else Raise (KeyError c).

Definition set_cell (c : string) (v : option value) (r : row) : row :=
  match v with
  | Some x => <[c := x]> r
  | None => delete c r
  end.

(** [df[c] = ...]: the column is rebuilt row by row; a new label goes to
    the end of the labels. *)
Definition assign (c : string) (f : row -> option value) (df : DataFrame)
  : DataFrame :=
  {| columns := if has_column c df then columns df else columns df ++ [c];
     rows := (fun r => set_cell c (f r) r) <$> rows df |}.

Definition notna (subset : list string) (r : row) : Prop :=
  Forall (fun c => is_Some (r !! c)) subset.

(** [df.dropna(subset=...)]: every label has to exist; the rows with a null
    under one of them go. *)
Definition dropna (subset : list string) (df : DataFrame)
  : outcome DataFrame :=
  match filter (fun c => c ∉ columns df) subset with
  | c :: _ => Raise (KeyError c)
  | [] => Ok {| columns := columns df;
                rows := filter (notna subset) (rows df) |}
  end.

(** The distinct elements of a list in the order of their first occurrence:
    the key order of pandas' hash tables. *)
Fixpoint first_seen {A} `{EqDecision A} (l : list A) : list A :=
  match l with
  | [] => []
  | x :: l' => x :: filter (fun y => y ≠ x) (first_seen l')
  end.

(** How often a key occurs. *)
Definition count_of {A} `{EqDecision A} (x : A) (l : list A) : nat :=
  length (filter (fun y => y = x) l).

(** [pd.concat(frames, ignore_index=True)]: the union of the labels in the
    order they first occur, and the rows of all frames in order; a cell
    under a label that its frame lacks is null. *)
Definition concat (frames : list DataFrame) : DataFrame :=
  {| columns := first_seen (List.concat (columns <$> frames));
     rows := List.concat (rows <$> frames) |}.

(** The row under the trimmed labels. *)
Definition relabel (labels : list string) (r : row) : row :=
  list_to_map (omap (fun c => (fun v => (strip c, v)) <$> r !! c) labels).

(** [df.columns = df.columns.str.strip()].  When two labels become equal
    pandas keeps both columns under one label and the script goes on: where
    no step looks the label up the table that is returned has both columns,
    and where a step does, [df[label]] is a frame and not a column.  A row
    of this model has one cell for a label, so a frame with such labels has
    no form in it: the model stops at once with [LabelClash], and what is
    proved of a frame that the load returns is proved of the runs in which
    the trimmed labels are distinct. *)
Definition strip_columns (df : DataFrame) : outcome DataFrame :=
  let labels := strip <$> columns df in
  if bool_decide (NoDup labels)
  then Ok {| columns := labels; rows := relabel (columns df) <$> rows df |}
  else Raise LabelClash.

End Frame.

(** ** Ingestion and normalisation: [load_and_clean_data] *)

Module Ingest.
Import Text Calendar Frame.

(** One entry of the downloaded folder: its name, and what [pd.read_csv]
    does on it: a frame, or the text of the exception it raises. *)
Record dir_entry := mkentry { entry_name : string; read_csv : string + DataFrame }.

(** [os.path.join(path, f)] *)
Definition path_join (path f : string) : string := path +:+ "/" +:+ f.

(** [[os.path.join(path, f) for f in os.listdir(path) if f.endswith('.csv')]] *)
Definition all_csv_files (path : string) (listing : list dir_entry)
  : list (string * (string + DataFrame)) :=
  (fun e => (path_join path (entry_name e), read_csv e))
    <$> filter (fun e => ends_with ".csv" (entry_name e) = true) listing.

(** The loop over the files: a frame that reads joins [df_list], a file that
    raises leaves one [st.warning] and the loop goes on. *)
Fixpoint read_files (files : list (string * (string + DataFrame)))
  : list string * list DataFrame :=
  match files with
  | [] => ([], [])
  | (file, inr temp_df) :: rest =>
      let '(warnings, df_list) := read_files rest in
      (warnings, temp_df :: df_list)
  | (file, inl e) :: rest =>
      let '(warnings, df_list) := read_files rest in
      (("Could not read file " +:+ file +:+ ": " +:+ e) :: warnings, df_list)
  end.

(** [fillna('Unknown').astype(str)] on one cell. *)
Definition fill_unknown (v : option value) : string :=
  astype_str (default (VStr "Unknown") v).

(** [pd.to_datetime(cell, format='%I:%M %p', errors='coerce')], then
    [.dt.time]: a cell that is not a text of that format gives NaT. *)
Definition time_of_cell (v : option value) : option Clock.t :=
  (v ≫= as_str) ≫= Clock.strptime_12h.

(** [astype(str)] on a cell of the Time column, where null is NaT. *)
Definition time_text (v : option value) : string :=
  match v with
  | Some x => astype_str x
  | None => "NaT"
  end.

(** [pd.to_datetime(df['Time'].astype(str), errors='coerce').dt.hour] on one
    cell: the time is written out as text and the text is read back. *)
Definition hour_of_cell (v : option value) : option nat :=
  Clock.hour <$> Clock.parse_text (time_text v).

(** The direct extraction that the two-step derivation is compared with:
    the hour of the time of day in the cell, with no text in between. *)
Definition hour_direct (time_of_day : option value) : option nat :=
  match time_of_day with
  | Some (VTime c) => Some (Clock.hour c)
  | _ => None
  end.

(** [df['Date'].dt.to_period('M').astype(str)] on one cell. *)
Definition month_year_of_cell (v : option value) : option string :=
  (fun ts => period_str (ts_date ts)) <$> (v ≫= as_stamp).

Section Pipeline.

(** [str.title] *)
Variable str_title : string -> string.

(** [pd.to_datetime(column, errors='coerce')] on the raw Date column: the
    timestamp of one cell, or NaT.  The first argument is the whole column,
    on which pandas settles the format it then reads every cell with. *)
Variable to_datetime : list (option value) -> option value -> option Timestamp.

(** Fix City Names: [fillna('Unknown').astype(str).str.title().str.strip()],
    when there is a City column. *)
Definition fix_city (df : DataFrame) : DataFrame :=
  if has_column "City" df
  then assign "City"
         (fun r => Some (VStr (strip (str_title (fill_unknown (r !! "City"))))))
         df
  else df.

(** Fix Date: the column is parsed and the rows without a date go. *)
Definition fix_date (df : DataFrame) : outcome DataFrame :=
  dates ← column "Date" df;
  dropna ["Date"]
    (assign "Date" (fun r => VStamp <$> to_datetime dates (r !! "Date")) df).

(** Fix Time and Hour extraction: the Hour column is read off the new Time
    column. *)
Definition fix_time (df : DataFrame) : outcome DataFrame :=
  _ ← column "Time" df;
  let df := assign "Time" (fun r => VTime <$> time_of_cell (r !! "Time")) df in
  mret (assign "Hour" (fun r => VNum <$> hour_of_cell (r !! "Time")) df).

(** Fix Vehicle Types: [fillna("Unknown").astype(str)], when there is an
    Involved column. *)
Definition fix_involved (df : DataFrame) : DataFrame :=
  if has_column "Involved" df
  then assign "Involved" (fun r => Some (VStr (fill_unknown (r !! "Involved")))) df
  else df.

(** Ensure Coordinates exist for the map. *)
Definition ensure_coordinates (df : DataFrame) : outcome DataFrame :=
  dropna ["Latitude"; "Longitude"] df.

(** Create Month_Year for trend lines. *)
Definition add_month_year (df : DataFrame) : DataFrame :=
  assign "Month_Year" (fun r => VStr <$> month_year_of_cell (r !! "Date")) df.

(** The cleaning steps of [load_and_clean_data], on the combined frame, in
    the order of the script. *)
Definition clean (df : DataFrame) : outcome DataFrame :=
  df ← strip_columns df;
  df ← fix_date (fix_city df);
  df ← fix_time df;
  df ← ensure_coordinates (fix_involved df);
  mret (add_month_year df).

(** [load_and_clean_data()], from what the download step finds: the text of
    the exception it raises, or the folder and its entries.  The result is
    the list of warnings shown and the outcome. *)
Definition load_and_clean_data (download : string + (string * list dir_entry))
  : list string * outcome DataFrame :=
  match download with
  | inl e => ([], Halt ("Error loading data: " +:+ e))
  | inr (path, listing) =>
      match all_csv_files path listing with
      | [] => ([], Halt "No CSV files found in the downloaded dataset.")
      | files =>
          let '(warnings, df_list) := read_files files in
          match df_list with
          | [] => (warnings, Halt "No valid data files could be read.")
          | _ => (warnings, clean (concat df_list))
          end
      end
  end.

End Pipeline.

End Ingest.

(** ** Filters, metrics and chart tables *)

Module Dashboard.
Import Text Calendar Frame.

(** [df['Date'].dt.date] on one row. *)
Definition date_of (r : row) : option date :=
  ts_date <$> (r !! "Date" ≫= as_stamp).

(** The date handling under the sidebar: for two dates, for one, and for
    any other number of them. *)
Definition select_dates (date_range : list date) (min_date max_date : date)
  : date * date :=
  match date_range with
  | [d0; d1] => (d0, d1)
  | [d0] => (d0, d0)
  | _ => (min_date, max_date)
  end.

(** One entry of [mask]; a comparison with a null is false. *)
Definition mask (start_date end_date : date) (selected_cities : list string)
    (r : row) : bool :=
  from_option (fun d => date_leb start_date d) false (date_of r)
  && from_option (fun d => date_leb d end_date) false (date_of r)
  && from_option (fun s => bool_decide (s ∈ selected_cities)) false
       (r !! "City" ≫= as_str).

(** [filtered_df = df.loc[mask]] *)
Definition filtered_df (df : DataFrame) (start_date end_date : date)
    (selected_cities : list string) : outcome DataFrame :=
  _ ← column "Date" df;
  _ ← column "City" df;
  mret {| columns := columns df;
          rows := filter (fun r => mask start_date end_date selected_cities r = true)
                    (rows df) |}.

(** The highest count among the keys of a list. *)
Definition top_count {A} `{EqDecision A} (values : list A) : nat :=
  max_list ((fun k => count_of k values) <$> first_seen values).

(** [Series.mode()]: the values of the highest count, nulls left out,
    sorted. *)
Definition mode {A} `{EqDecision A} (R : relation A) `{!RelDecision R}
    (values : list A) : list A :=
  merge_sort R
    (filter (fun k => count_of k values = top_count values) (first_seen values)).

(** [series.mode()[0]] *)
Definition mode_0 {A} `{EqDecision A} (R : relation A) `{!RelDecision R}
    (values : list A) : outcome A :=
  match mode R values with
  | x :: _ => Ok x
  | [] => Raise (KeyError "0")
  end.

Definition strings_of (cells : list (option value)) : list string :=
  omap (fun c => c ≫= as_str) cells.

Definition numbers_of (cells : list (option value)) : list nat :=
  omap (fun c => c ≫= as_num) cells.

Definition total_incidents (df : DataFrame) : nat := len df.

(** [filtered_df[c].mode()[0]] on a column of texts. *)
Definition column_mode_0 (c : string) (df : DataFrame) : outcome string :=
  cells ← column c df; mode_0 String.le (strings_of cells).

Definition top_city (df : DataFrame) : outcome string :=
  if negb (empty df) then column_mode_0 "City" df else Ok "N/A".

Definition top_incident (df : DataFrame) : outcome string :=
  if negb (empty df) && has_column "Type" df
  then column_mode_0 "Type" df
  else Ok "N/A".

(** [peak_hour_val]: an hour, or [None] for the text "N/A". *)
Definition peak_hour_val (df : DataFrame) : outcome (option nat) :=
  if negb (empty df)
  then cells ← column "Hour" df;
       h ← mode_0 le (numbers_of cells);
       mret (Some h)
  else Ok None.

Definition peak_hour_str (peak_hour_val : option nat) : string :=
  match peak_hour_val with
  | Some h => decimal h +:+ ":00"
  | None => "N/A"
  end.

Record metrics := mkmetrics {
  m_total_incidents : nat;
  m_top_city : string;
  m_top_incident : string;
  m_peak_hour_str : string
}.

(** The four assignments under TOP METRICS, in the order of the script. *)
Definition top_metrics (df : DataFrame) : outcome metrics :=
  city ← top_city df;
  incident ← top_incident df;
  peak ← peak_hour_val df;
  mret (mkmetrics (total_incidents df) city incident (peak_hour_str peak)).

(** A cell that holds a number. *)
Definition is_number (v : value) : bool :=
  match v with
  | VNum _ | VFloat _ => true
  | _ => false
  end.

(** [series.mean()], for what it raises.  The nulls are skipped; over a cell
    that is no number, such as the text of a column that [read_csv] could
    not read as numbers, the sum and so the mean raise [TypeError].  The
    mean itself is a floating-point number and is left out. *)
Definition mean (cells : list (option value)) : outcome unit :=
  if forallb is_number (omap id cells) then Ok tt else Raise TypeError.

(** The points handed to the density map, when it is drawn.  The centre of
    the map is computed first: the mean of the latitudes, then the mean of
    the longitudes. *)
Definition hotspots (df : DataFrame)
  : outcome (option (list (option value * option value))) :=
  if negb (empty df)
  then lat ← column "Latitude" df;
       _ ← mean lat;
       lon ← column "Longitude" df;
       _ ← mean lon;
       mret (Some (zip lat lon))
  else Ok None.

(** [groupby(label).size()]: the keys that are not null, sorted, each with
    the number of its rows. *)
Definition groupby_size {A} `{EqDecision A} (R : relation A) `{!RelDecision R}
    (keys : list A) : list (A * nat) :=
  (fun k => (k, count_of k keys)) <$> merge_sort R (first_seen keys).

(** [trend_data], when the chart is drawn. *)
Definition trend_data (df : DataFrame) : outcome (option (list (string * nat))) :=
  if negb (empty df)
  then cells ← column "Month_Year" df;
       mret (Some (groupby_size String.le (strings_of cells)))
  else Ok None.

(** A row whose month bucket is the label of the month of its date, as
    [load_and_clean_data] leaves it. *)
Definition bucket_of_date (r : row) : Prop :=
  exists ts, r !! "Date" = Some (VStamp ts) /\ month_ok (ts_date ts)
             /\ r !! "Month_Year" = Some (VStr (period_str (ts_date ts))).

(** [filtered_df['Day_Name'] = filtered_df['Date'].dt.day_name()] *)
Definition with_day_name (df : DataFrame) : DataFrame :=
  assign "Day_Name" (fun r => (fun d => VStr (day_name d)) <$> date_of r) df.

(** The order of pairs (day name, hour), by which the groups are sorted. *)
Definition day_hour_le (a b : string * nat) : Prop :=
  a.1 ≠ b.1 ∧ String.le a.1 b.1 ∨ a.1 = b.1 ∧ a.2 ≤ b.2.

#[global] Instance day_hour_le_dec : RelDecision day_hour_le.
Proof. intros a b. unfold day_hour_le. apply _. Defined.

Definition day_hour_of (r : row) : option (string * nat) :=
  match r !! "Day_Name" ≫= as_str, r !! "Hour" ≫= as_num with
  | Some d, Some h => Some (d, h)
  | _, _ => None
  end.

(** [heatmap_data], when the chart is drawn, and the frame with its new
    column. *)
Definition heatmap_data (df : DataFrame)
  : outcome (option (list (string * nat * nat)) * DataFrame) :=
  if negb (empty df)
  then _ ← column "Date" df;
       let df := with_day_name df in
       _ ← column "Hour" df;
       mret (Some (groupby_size day_hour_le (omap day_hour_of (rows df))), df)
  else Ok (None, df).

(** [sort_values(ascending=False)] on the counts is the library's: the
    entries come back ordered by their count, largest first, and pandas
    fixes no order among the entries of one count.  The sort is a parameter
    of the model, and this is what is known of it. *)
Definition sorts_descending
    (sort_values : list (string * nat) -> list (string * nat)) : Prop :=
  forall l, sort_values l ≡ₚ l
            /\ StronglySorted (fun a b : string * nat => b.2 <= a.2)
                 (sort_values l).

Record page := mkpage {
  p_metrics : metrics;
  p_hotspots : option (list (option value * option value));
  p_trend_data : option (list (string * nat));
  p_heatmap_data : option (list (string * nat * nat));
  p_veh_counts : option (list (string * nat));
  p_raw_table : DataFrame
}.

Section Ranking.

Variable sort_values : list (string * nat) -> list (string * nat).

(** [series.value_counts()]: the keys with their counts, sorted by count,
    largest first. *)
Definition value_counts (keys : list string) : list (string * nat) :=
  sort_values ((fun k => (k, count_of k keys)) <$> first_seen keys).

(** [veh_counts], when the chart is drawn. *)
Definition veh_counts (df : DataFrame) : outcome (option (list (string * nat))) :=
  if negb (empty df)
  then cells ← column "Involved" df;
       mret (Some (take 10 (value_counts (strings_of cells))))
  else Ok None.

(** The page below the sidebar, top to bottom. *)
Definition dashboard (df : DataFrame) (date_range : list date)
    (min_date max_date : date) (selected_cities : list string) : outcome page :=
  let '(start_date, end_date) := select_dates date_range min_date max_date in
  filtered ← filtered_df df start_date end_date selected_cities;
  m ← top_metrics filtered;
  geo ← hotspots filtered;
  trend ← trend_data filtered;
  '(heat, filtered) ← heatmap_data filtered;
  veh ← veh_counts filtered;
  mret (mkpage m geo trend heat veh filtered).

End Ranking.

(** What a chart shows: nothing when it is not drawn. *)
Definition shown {A} (table : option (list A)) : list A := default [] table.

End Dashboard.

(** ** Instances of the library functions and sample folders, to run the
    pipeline *)

Module Sample.
Import Text Calendar Frame.

Definition upper (a : ascii) : ascii :=
  let n := nat_of_ascii a in
  if (97 <=? n) && (n <=? 122) then ascii_of_nat (n - 32) else a.

Definition is_letter (a : ascii) : bool :=
  let n := nat_of_ascii (lower a) in (97 <=? n) && (n <=? 122).

Fixpoint title_from (after_letter : bool) (s : string) : string :=
  match s with
  | EmptyString => EmptyString
  | String a s' =>
      String (if after_letter then lower a else upper a) (title_from (is_letter a) s')
  end.

(** [str.title] on texts of ASCII letters: a letter that follows a letter is
    lowered, any other letter is raised. *)
Definition title (s : string) : string := title_from false s.

Definition number (ds : list nat) : nat := foldl (fun n d => 10 * n + d) 0 ds.

(** A reader of month/day/year texts such as "01/02/2023", at midnight; it
    stands for [pd.to_datetime] on a column written that way. *)
Definition mdy (column : list (option value)) (v : option value)
  : option Timestamp :=
  match v with
  | Some (VStr s) =>
      let '(m, r1) := span_digits s in
      match r1 with
      | String c1 r2 =>
          let '(d, r3) := span_digits r2 in
          match r3 with
          | String c2 r4 =>
              let '(y, r5) := span_digits r4 in
              if Ascii.eqb c1 "/"%char && Ascii.eqb c2 "/"%char
                 && String.eqb r5 "" && (length m =? 2) && (length d =? 2)
                 && (length y =? 4) && (1 <=? number m) && (number m <=? 12)
                 && (1 <=? number d) && (number d <=? 31)
              then Some (mkts (mkdate (number y) (number m) (number d))
                           (Clock.mk 0 0 0))
              else None
          | EmptyString => None
          end
      | EmptyString => None
      end
  | _ => None
  end.

(** A field written as Python writes a float: digits, a point, digits,
    after a sign or none. *)
Definition is_float_text (x : string) : bool :=
  let unsigned :=
    match x with
    | String a x' => if Ascii.eqb a "-"%char then x' else x
    | EmptyString => x
    end in
  let '(whole, r1) := span_digits unsigned in
  match r1 with
  | String a r2 =>
      let '(frac, r3) := span_digits r2 in
      Ascii.eqb a "."%char && negb (length whole =? 0)
        && negb (length frac =? 0) && String.eqb r3 ""
  | EmptyString => false
  end.

(** [read_csv] reads a column as numbers when every field of it that is not
    empty is a number. *)
Definition numeric_column (header : list string) (lines : list (list string))
    (c : string) : bool :=
  forallb (fun line =>
             forallb (fun '(c', x) =>
                        negb (String.eqb c' c) || String.eqb x ""
                        || is_float_text x)
               (zip header line)) lines.

(** A frame as [read_csv] returns it for a header and lines of fields such
    as the samples have, with no whole numbers among them: an empty field
    is null, a column of floats holds numbers, and the fields of every
    other column are kept as texts. *)
Definition csv (header : list string) (lines : list (list string)) : DataFrame :=
  {| columns := header;
     rows := (fun line =>
                list_to_map (omap (fun '(c, x) =>
                  if String.eqb x "" then None
                  else Some (c, if numeric_column header lines c
                                then VFloat x else VStr x))
                  (zip header line))) <$> lines |}.

Definition load := Ingest.load_and_clean_data title mdy.

(** Two sorts by count, largest first, to run the ranking with: by
    insertion, an entry going in front of the entries of its own count, or
    behind them. *)
Fixpoint insert_desc (in_front : bool) (x : string * nat)
    (l : list (string * nat)) : list (string * nat) :=
  match l with
  | [] => [x]
  | y :: l' =>
      if (if in_front then y.2 <=? x.2 else y.2 <? x.2)
      then x :: y :: l'
      else y :: insert_desc in_front x l'
  end.

Definition sort_desc (in_front : bool) (l : list (string * nat))
  : list (string * nat) :=
  foldr (insert_desc in_front) [] l.

Definition sort_values := sort_desc true.

Definition header : list string :=
  ["Date"; "Time"; "City"; "Involved"; "Type"; "Latitude"; "Longitude"].

(** A folder with a file of four incidents, a file that does not parse and
    a file that is no CSV file. *)
Definition download : string + (string * list Ingest.dir_entry) :=
  inr ("/data",
       [Ingest.mkentry "2023.csv" (inr (csv header
          [["01/02/2023"; "2:15 PM"; "makati"; "Car"; "Collision"; "14.5"; "121.0"];
           ["01/02/2023"; "9:05 AM"; "pasig"; "Bus"; "Stalled"; "14.6"; "121.1"];
           ["02/10/2023"; ""; "pasig"; ""; "Collision"; "14.6"; "121.0"];
           ["02/11/2023"; "2:40 PM"; ""; "Car"; "Collision"; "14.5"; ""]]));
        Ingest.mkentry "2024.csv" (inl "no columns to parse from file");
        Ingest.mkentry "README.md" (inl "not read")]).

(** The frame that [load] returns for [download], or a frame without
    labels. *)
Definition unified : DataFrame :=
  match (load download).2 with
  | Ok df => df
  | _ => {| columns := []; rows := [] |}
  end.

(** The frame [unified] with its rows in the opposite order. *)
Definition reversed : DataFrame :=
  {| columns := columns unified; rows := reverse (rows unified) |}.

(** A folder whose file has no City and no Involved column. *)
Definition download_without_city : string + (string * list Ingest.dir_entry) :=
  inr ("/data",
       [Ingest.mkentry "2023.csv" (inr (csv
          ["Date"; "Time"; "Latitude"; "Longitude"]
          [["01/02/2023"; "2:15 PM"; "14.5"; "121.0"]]))]).

(** A folder whose file has no Date column. *)
Definition download_without_date : string + (string * list Ingest.dir_entry) :=
  inr ("/data",
       [Ingest.mkentry "2023.csv" (inr (csv ["City"] [["makati"]]))]).

(** A folder whose file has a City column and no Involved column. *)
Definition download_without_involved : string + (string * list Ingest.dir_entry) :=
  inr ("/data",
       [Ingest.mkentry "2023.csv" (inr (csv
          ["Date"; "Time"; "City"; "Latitude"; "Longitude"]
          [["01/02/2023"; "2:15 PM"; "makati"; "14.5"; "121.0"]]))]).

(** A folder whose file has a latitude that is no number, so that its
    Latitude column is a column of texts. *)
Definition download_text_latitude : string + (string * list Ingest.dir_entry) :=
  inr ("/data",
       [Ingest.mkentry "2023.csv" (inr (csv header
          [["01/02/2023"; "2:15 PM"; "makati"; "Car"; "Collision"; "14.5"; "121.0"];
           ["01/02/2023"; "9:05 AM"; "pasig"; "Bus"; "Stalled"; "north"; "121.1"]]))]).

(** A folder whose file has one incident, with no time of day. *)
Definition download_without_time : string + (string * list Ingest.dir_entry) :=
  inr ("/data",
       [Ingest.mkentry "2023.csv" (inr (csv header
          [["01/02/2023"; ""; "makati"; "Car"; "Collision"; "14.5"; "121.0"]]))]).

End Sample.

(** ** The sidebar: the date span and the city options *)

Module Sidebar.
Import Text Calendar Frame Dashboard.

(** The seconds of a time of day since midnight. *)
Definition clock_seconds (c : Clock.t) : nat :=
  3600 * Clock.hour c + 60 * Clock.minute c + Clock.second c.

(** [a <= b] on timestamps: by the date, then by the time of day. *)
Definition stamp_leb (a b : Timestamp) : bool :=
  match date_compare (ts_date a) (ts_date b) with
  | Lt => true
  | Eq => clock_seconds (ts_clock a) <=? clock_seconds (ts_clock b)
  | Gt => false
  end.

(** The least element of a list under an order, [None] for no element. *)
Definition least {A} (leb : A -> A -> bool) (l : list A) : option A :=
  foldr (fun t acc =>
           match acc with
           | None => Some t
           | Some u => Some (if leb t u then t else u)
           end) None l.

Definition stamps_of (cells : list (option value)) : list Timestamp :=
  omap (fun c => c ≫= as_stamp) cells.

(** [df['Date'].min().date()]: the nulls are skipped; over no timestamp at
    all the minimum is NaT, here [None]. *)
Definition min_date (df : DataFrame) : outcome (option date) :=
  cells ← column "Date" df;
  mret (ts_date <$> least stamp_leb (stamps_of cells)).

(** [df['Date'].max().date()] *)
Definition max_date (df : DataFrame) : outcome (option date) :=
  cells ← column "Date" df;
  mret (ts_date <$> least (fun a b => stamp_leb b a) (stamps_of cells)).

(** [sorted(df['City'].unique().tolist())], on a City column that holds
    texts, as [load_and_clean_data] leaves it. *)
Definition cities (df : DataFrame) : outcome (list string) :=
  cells ← column "City" df;
  mret (merge_sort String.le (first_seen (strings_of cells))).

(** [cities[:5]], the selection the city box opens with. *)
Definition default_cities (cities : list string) : list string :=
  take 5 cities.

End Sidebar.

(** ** The texts of the page: the count, the font of the incident type,
    the day axis *)

Module Widgets.
Import Text Calendar Frame.

(** A comma after every third digit of a number written backwards, none at
    its end. *)
Fixpoint commas_rev (digits : list ascii) : list ascii :=
  match digits with
  | a :: b :: c :: ((_ :: _) as rest) =>
      a :: b :: c :: ","%char :: commas_rev rest
  | _ => digits
  end.

(** [f"{n:,}"]: the decimal digits in groups of three, from the right. *)
Definition format_thousands (n : nat) : string :=
  string_of_list_ascii
    (reverse (commas_rev (reverse (list_ascii_of_string (decimal n))))).

(** The font size of the metric "Most Common Incident", by the length of
    its text. *)
Definition font_size (top_incident : string) : string :=
  let text_len := String.length top_incident in
  if 20 <? text_len then "18px"
  else if 12 <? text_len then "24px"
  else "32px".

(** [days_order], the order of the day axis of the heat map. *)
Definition days_order : list string :=
  ["Monday"; "Tuesday"; "Wednesday"; "Thursday"; "Friday"; "Saturday";
   "Sunday"].

End Widgets.

(** ** The state of a cleaned frame *)

Module Unified.
Import Text Calendar Frame Ingest Dashboard.

(** What the cleaning steps leave in a row of a frame with the given
    labels. *)
Definition row_ok (labels : list string) (r : row) : Prop :=
  (exists ts, r !! "Date" = Some (VStamp ts)
     /\ r !! "Month_Year" = Some (VStr (period_str (ts_date ts))))
  /\ is_Some (r !! "Latitude") /\ is_Some (r !! "Longitude")
  /\ (r !! "Time" = None \/ exists c, r !! "Time" = Some (VTime c) /\ Clock.ok c)
  /\ r !! "Hour" = VNum <$> hour_direct (r !! "Time")
  /\ ("City" ∈ labels -> exists s, r !! "City" = Some (VStr s))
  /\ ("Involved" ∈ labels -> exists s, r !! "Involved" = Some (VStr s)).

(** A frame as [load_and_clean_data] returns it: the six labels that the
    page looks up without a guard are there, and every row is as the
    cleaning steps leave it. *)
Definition frame_ok (df : DataFrame) : Prop :=
  Forall (fun c => c ∈ columns df)
    ["Date"; "Time"; "Latitude"; "Longitude"; "Hour"; "Month_Year"]
  /\ forall r : row, r ∈ rows df -> row_ok (columns df) r.

Definition is_text (v : value) : bool :=
  match v with
  | VStr _ => true
  | _ => false
  end.

(** The cells of a column are texts or null, as [read_csv] leaves a column
    that it does not read as numbers. *)
Definition text_column (c : string) (df : DataFrame) : Prop :=
  Forall (fun r : row => from_option is_text true (r !! c) = true) (rows df).

(** The coordinates of every row are numbers or null. *)
Definition numeric_coordinates (df : DataFrame) : bool :=
  forallb (fun r : row =>
             from_option is_number true (r !! "Latitude")
             && from_option is_number true (r !! "Longitude"))
    (rows df).

End Unified.

(** * Part II: facts about the model *)

Import Text Calendar Frame Ingest Dashboard.

(** ** Times of day: checks, and the text round trip *)

Section ClockFacts.
Import Clock.

Example strptime_afternoon : strptime_12h "2:15 PM" = Some (mk 14 15 0).
Proof. reflexivity. Qed.
Example strptime_midnight : strptime_12h "12:05 am" = Some (mk 0 5 0).
Proof. reflexivity. Qed.
Example strptime_noon : strptime_12h "12:00 PM" = Some (mk 12 0 0).
Proof. reflexivity. Qed.
Example strptime_24h_text : strptime_12h "14:15" = None.
Proof. reflexivity. Qed.
Example strptime_hour_13 : strptime_12h "13:00 PM" = None.
Proof. reflexivity. Qed.
Example to_text_afternoon : to_text (mk 14 15 0) = "14:15:00".
Proof. reflexivity. Qed.
Example parse_text_NaT : parse_text "NaT" = None.
Proof. reflexivity. Qed.

Lemma is_nat_digit_char n : n < 10 -> Ascii.is_nat (digit_char n) = Some n.
Proof.
  intros H. do 10 (destruct n as [|n]; [reflexivity|]). lia.
Qed.

Lemma hour12_range ds h : Forall (fun d => d < 10) ds ->
  hour12 ds = Some h -> 1 <= h <= 12.
Proof.
  unfold hour12. intros Hds H.
  destruct ds as [|d1 [|d2 [|? ?]]]; try discriminate.
  - destruct (1 <=? d1) eqn:E; [|discriminate]. injection H as <-.
    apply Nat.leb_le in E. inversion Hds; subst. lia.
  - inversion Hds as [|? ? ? Hr]; subst. inversion Hr; subst.
    destruct ((d1 =? 1) && (d2 <=? 2)) eqn:E1.
    + injection H as <-. apply andb_prop in E1 as [_ E1].
      apply Nat.leb_le in E1. lia.
    + destruct ((d1 =? 0) && (1 <=? d2)) eqn:E2; [|discriminate].
      injection H as <-. apply andb_prop in E2 as [_ E2].
      apply Nat.leb_le in E2. lia.
Qed.

Lemma minute60_range ds m : Forall (fun d => d < 10) ds ->
  minute60 ds = Some m -> m < 60.
Proof.
  unfold minute60. intros Hds H.
  destruct ds as [|d1 [|d2 [|? ?]]]; try discriminate.
  - injection H as <-. inversion Hds; subst. lia.
  - destruct (d1 <=? 5) eqn:E; [|discriminate]. injection H as <-.
    apply Nat.leb_le in E.
    inversion Hds as [|? ? ? Hr]; subst. inversion Hr; subst. lia.
Qed.

Lemma is_nat_lt a d : Ascii.is_nat a = Some d -> d < 10.
Proof.
  destruct a as [[] [] [] [] [] [] [] []]; simpl; intros H;
    try discriminate; injection H as <-; lia.
Qed.

Lemma span_digits_lt s : Forall (fun d => d < 10) (span_digits s).1.
Proof.
  induction s as [|a s IH]; simpl; [constructor|].
  destruct (Ascii.is_nat a) eqn:E; [|constructor].
  destruct (span_digits s) as [ds rest]. simpl in *.
  constructor; [eapply is_nat_lt; eauto | exact IH].
Qed.

(** Whatever the 12-hour parse returns is a time of day on the minute. *)
Lemma strptime_12h_ok s c : strptime_12h s = Some c -> ok c /\ second c = 0.
Proof.
  unfold strptime_12h. intros H.
  destruct (span_digits s) as [hs rest] eqn:E1.
  destruct (hour12 hs) as [h|] eqn:Hh; [|discriminate].
  destruct rest as [|colon rest1]; [discriminate|].
  destruct (span_digits rest1) as [ms rest2] eqn:E2.
  destruct (minute60 ms) as [m|] eqn:Hm; [|discriminate].
  destruct rest2 as [|sp rest3]; [discriminate|].
  destruct (Ascii.eqb colon ":"%char && is_space sp); [|discriminate].
  destruct (meridiem (lstrip rest3)) as [pm|]; [|discriminate].
  injection H as <-.
  pose proof (span_digits_lt s) as Hhs. rewrite E1 in Hhs. simpl in Hhs.
  apply (hour12_range _ _ Hhs) in Hh.
  pose proof (span_digits_lt rest1) as Hms. rewrite E2 in Hms. simpl in Hms.
  apply (minute60_range _ _ Hms) in Hm.
  unfold ok. simpl. clear -Hh Hm.
  destruct pm; destruct (Nat.eqb_spec h 12); lia.
Qed.

Lemma to_text_chars c :
  to_text c =
    String (digit_char (hour c / 10)) (String (digit_char (hour c mod 10))
      (String ":"%char
         (String (digit_char (minute c / 10))
            (String (digit_char (minute c mod 10))
               (String ":"%char
                  (String (digit_char (second c / 10))
                     (String (digit_char (second c mod 10)) ""))))))).
Proof. reflexivity. Qed.

Lemma digits_of_two n : n < 100 ->
  Ascii.is_nat (digit_char (n / 10)) = Some (n / 10)
  /\ Ascii.is_nat (digit_char (n mod 10)) = Some (n mod 10).
Proof.
  intros H. split; apply is_nat_digit_char.
  - apply Nat.Div0.div_lt_upper_bound. lia.
  - apply Nat.mod_upper_bound. lia.
Qed.

(** Formatting a time and reading the text back returns the time. *)
Lemma parse_text_to_text c : ok c -> parse_text (to_text c) = Some c.
Proof.
  intros (Hh & Hm & Hs). rewrite to_text_chars.
  destruct c as [h m s]. cbn [hour minute second] in *.
  destruct (digits_of_two h) as [Ha1 Ha2]; [lia|].
  destruct (digits_of_two m) as [Hb1 Hb2]; [lia|].
  destruct (digits_of_two s) as [Hc1 Hc2]; [lia|].
  cbv beta iota delta [parse_text].
  rewrite Ha1, Ha2, Hb1, Hb2, Hc1, Hc2. cbv zeta.
  rewrite <- !Nat.div_mod_eq.
  replace (h <? 24) with true by (symmetry; apply Nat.ltb_lt; lia).
  replace (m <? 60) with true by (symmetry; apply Nat.ltb_lt; lia).
  replace (s <? 60) with true by (symmetry; apply Nat.ltb_lt; lia).
  reflexivity.
Qed.

Lemma parse_text_ok s c : parse_text s = Some c -> ok c.
Proof.
  unfold parse_text. intros H.
  do 9 (destruct s as [|? s]; try discriminate).
  repeat match type of H with
         | context [Ascii.is_nat ?x] =>
             destruct (Ascii.is_nat x); try discriminate
         end.
  match type of H with
  | (if ?b then _ else _) = _ => destruct b eqn:E; [|discriminate]
  end.
  injection H as <-. unfold ok. simpl.
  repeat match goal with
         | E : (_ && _) = true |- _ => apply andb_prop in E as [? ?]
         | E : (_ <? _) = true |- _ => apply Nat.ltb_lt in E
         end.
  auto.
Qed.

End ClockFacts.

(** ** Dates and month labels *)

Example period_april : period_str (mkdate 2023 4 17) = "2023-04".
Proof. reflexivity. Qed.
Example monday_2023 : day_name (mkdate 2023 1 2) = "Monday".
Proof. reflexivity. Qed.
Example leap_day_2024 : day_name (mkdate 2024 2 29) = "Thursday".
Proof. reflexivity. Qed.
Example new_year_2000 : day_name (mkdate 2000 1 1) = "Saturday".
Proof. reflexivity. Qed.

Lemma date_compare_eq d1 d2 : date_compare d1 d2 = Eq -> d1 = d2.
Proof.
  destruct d1 as [y1 m1 a1], d2 as [y2 m2 a2]. unfold date_compare. simpl.
  destruct (Nat.compare_spec y1 y2); try discriminate.
  destruct (Nat.compare_spec m1 m2); try discriminate.
  destruct (Nat.compare_spec a1 a2); try discriminate.
  intros _. congruence.
Qed.

Lemma date_compare_antisym d1 d2 :
  date_compare d2 d1 = CompOpp (date_compare d1 d2).
Proof.
  unfold date_compare.
  rewrite (Nat.compare_antisym (year d1) (year d2)).
  rewrite (Nat.compare_antisym (month d1) (month d2)).
  rewrite (Nat.compare_antisym (day d1) (day d2)).
  destruct (year d1 ?= year d2); simpl; try reflexivity.
  destruct (month d1 ?= month d2); reflexivity.
Qed.

Lemma date_leb_refl d : date_leb d d = true.
Proof.
  unfold date_leb, date_compare. rewrite !Nat.compare_refl. reflexivity.
Qed.

(** [d <= x <= d] pins [x] to [d]. *)
Lemma date_leb_antisym d1 d2 :
  date_leb d1 d2 = true -> date_leb d2 d1 = true -> d1 = d2.
Proof.
  unfold date_leb. rewrite (date_compare_antisym d1 d2).
  destruct (date_compare d1 d2) eqn:E; simpl; try discriminate.
  intros _ _. apply date_compare_eq. exact E.
Qed.

Lemma digit_char_compare a b : a < 10 -> b < 10 ->
  Ascii.compare (digit_char a) (digit_char b) = (a ?= b).
Proof.
  intros Ha Hb.
  do 10 (destruct a as [|a]; [do 10 (destruct b as [|b]; [reflexivity|]); lia|]).
  lia.
Qed.

Lemma compare_div10 x y :
  (x ?= y) = match x / 10 ?= y / 10 with
             | Eq => x mod 10 ?= y mod 10
             | c => c
             end.
Proof.
  pose proof (Nat.div_mod_eq x 10). pose proof (Nat.div_mod_eq y 10).
  pose proof (Nat.mod_upper_bound x 10). pose proof (Nat.mod_upper_bound y 10).
  destruct (Nat.compare_spec (x / 10) (y / 10));
    destruct (Nat.compare_spec (x mod 10) (y mod 10));
    try (apply Nat.compare_eq_iff; lia);
    try (apply Nat.compare_lt_iff; lia);
    try (apply Nat.compare_gt_iff; lia).
Qed.

Lemma period_str_chars d :
  period_str d =
    String (digit_char (year d / 10 / 10 / 10))
      (String (digit_char ((year d / 10 / 10) mod 10))
         (String (digit_char ((year d / 10) mod 10))
            (String (digit_char (year d mod 10))
               (String "-"%char
                  (String (digit_char (month d / 10))
                     (String (digit_char (month d mod 10)) "")))))).
Proof. reflexivity. Qed.

(** On labels of four-digit years the order of the texts is the order of
    the pairs (year, month). *)
Lemma period_str_compare d1 d2 : month_ok d1 -> month_ok d2 ->
  String.compare (period_str d1) (period_str d2)
  = match year d1 ?= year d2 with
    | Eq => month d1 ?= month d2
    | c => c
    end.
Proof.
  intros [Hy1 Hm1] [Hy2 Hm2]. rewrite !period_str_chars.
  assert (Hq : forall n, n < 10 * 1000 -> n / 10 / 10 / 10 < 10).
  { intros n Hn. repeat apply Nat.Div0.div_lt_upper_bound. lia. }
  assert (Hr : forall n, n mod 10 < 10) by (intros; apply Nat.mod_upper_bound; lia).
  assert (Hd : forall n, n <= 12 -> n / 10 < 10).
  { intros n Hn. apply Nat.Div0.div_lt_upper_bound. lia. }
  cbn [String.compare].
  rewrite !digit_char_compare by (auto using Nat.mod_upper_bound; try apply Hq;
    try apply Hd; lia).
  change (Ascii.compare "-" "-") with Eq.
  rewrite (compare_div10 (year d1) (year d2)).
  rewrite (compare_div10 (year d1 / 10) (year d2 / 10)).
  rewrite (compare_div10 (year d1 / 10 / 10) (year d2 / 10 / 10)).
  rewrite (compare_div10 (month d1) (month d2)).
  repeat match goal with
         | |- context [?a ?= ?b] => destruct (a ?= b)
         end; reflexivity.
Qed.

Lemma period_str_lt d1 d2 : month_ok d1 -> month_ok d2 ->
  String.compare (period_str d1) (period_str d2) = Lt ->
  month_index d1 < month_index d2.
Proof.
  intros H1 H2. rewrite period_str_compare by assumption.
  destruct H1 as [_ H1], H2 as [_ H2]. unfold month_index.
  destruct (Nat.compare_spec (year d1) (year d2));
    destruct (Nat.compare_spec (month d1) (month d2));
    try discriminate; intros _; lia.
Qed.


(** ** Frames: columns and rows through the steps *)

Lemma has_column_true c df : has_column c df = true <-> c ∈ columns df.
Proof. unfold has_column. apply bool_decide_eq_true. Qed.

Lemma column_Ok c df :
  c ∈ columns df -> column c df = Ok ((fun r : row => r !! c) <$> rows df).
Proof.
  intros H. unfold column. apply has_column_true in H. rewrite H. reflexivity.
Qed.

Lemma column_Ok_inv c df cells : column c df = Ok cells ->
  c ∈ columns df /\ cells = (fun r : row => r !! c) <$> rows df.
Proof.
  unfold column. destruct (has_column c df) eqn:E; [|discriminate].
  intros [= <-]. split; [apply has_column_true; exact E | reflexivity].
Qed.

Lemma empty_no_rows cols : empty {| columns := cols; rows := [] |} = true.
Proof. reflexivity. Qed.

Lemma empty_false df : empty df = false <-> rows df <> [] /\ columns df <> [].
Proof.
  unfold empty. destruct (rows df), (columns df); split; try discriminate;
    try (intros [? ?]; congruence); intros _; split; discriminate.
Qed.

(** ** The filter *)

Lemma mask_true start_date end_date selected_cities (r : row) :
  mask start_date end_date selected_cities r = true <->
  (exists d, date_of r = Some d /\ date_leb start_date d = true
             /\ date_leb d end_date = true)
  /\ (exists c, r !! "City" = Some (VStr c) /\ c ∈ selected_cities).
Proof.
  unfold mask. rewrite !andb_true_iff. split.
  - intros [[H1 H2] H3]. split.
    + destruct (date_of r) as [d|]; [|discriminate]. exists d. auto.
    + destruct (r !! "City") as [[c| | | |]|]; try discriminate.
      exists c. split; [reflexivity|]. simpl in H3.
      apply bool_decide_eq_true in H3. exact H3.
  - intros [(d & -> & H1 & H2) (c & -> & H3)]. simpl.
    repeat split; auto. apply bool_decide_eq_true. exact H3.
Qed.

Lemma mask_no_city start_date end_date (r : row) :
  mask start_date end_date [] r = false.
Proof.
  apply not_true_is_false. intros H. apply mask_true in H.
  destruct H as [_ (c & _ & Hc)]. inversion Hc.
Qed.

Lemma filtered_df_Ok df start_date end_date selected_cities :
  "Date" ∈ columns df -> "City" ∈ columns df ->
  filtered_df df start_date end_date selected_cities
  = Ok {| columns := columns df;
          rows := filter (fun r => mask start_date end_date selected_cities r = true)
                    (rows df) |}.
Proof.
  intros Hd Hc. unfold filtered_df.
  rewrite (column_Ok _ _ Hd), (column_Ok _ _ Hc). reflexivity.
Qed.

(** C2.  On a frame that has the Date and City columns the filter returns
    a frame; its rows are the rows of the input, in their order, whose
    calendar date lies between the start and the end date, both included,
    and whose city is one of the selected cities: each row of the result
    meets both conditions, and each row of the input that meets them is in
    the result. *)
Theorem filtered_df_range_correct (df : DataFrame) (start_date end_date : date)
    (selected_cities : list string) :
  "Date" ∈ columns df -> "City" ∈ columns df ->
  exists out,
    filtered_df df start_date end_date selected_cities = Ok out
    /\ columns out = columns df
    /\ rows out
       = filter (fun r => mask start_date end_date selected_cities r = true)
           (rows df)
    /\ forall r : row,
         r ∈ rows out <->
         r ∈ rows df
         /\ (exists d, date_of r = Some d /\ date_leb start_date d = true
                       /\ date_leb d end_date = true)
         /\ (exists c, r !! "City" = Some (VStr c) /\ c ∈ selected_cities).
Proof.
  intros Hd Hc. eexists. split; [apply filtered_df_Ok; assumption|].
  split; [reflexivity|]. split; [reflexivity|].
  intros r. simpl. rewrite list_elem_of_filter, mask_true. tauto.
Qed.

(** C10.  With one date [d] in the date range the script sets both ends of
    the range to [d], and the filter then returns exactly the rows of the
    input whose calendar date is [d] and whose city is selected. *)
Theorem single_date_filter (df : DataFrame) (d min_date max_date : date)
    (selected_cities : list string) :
  "Date" ∈ columns df -> "City" ∈ columns df ->
  select_dates [d] min_date max_date = (d, d)
  /\ exists out,
       (let '(start_date, end_date) := select_dates [d] min_date max_date in
        filtered_df df start_date end_date selected_cities) = Ok out
       /\ forall r : row,
            r ∈ rows out <->
            r ∈ rows df /\ date_of r = Some d
            /\ (exists c, r !! "City" = Some (VStr c) /\ c ∈ selected_cities).
Proof.
  intros Hd Hc. split; [reflexivity|].
  eexists. split; [simpl; apply filtered_df_Ok; assumption|].
  intros r. simpl. rewrite list_elem_of_filter, mask_true. split.
  - intros [[(x & Hx & H1 & H2) Hcity] Hin].
    assert (x = d) by (symmetry; apply date_leb_antisym; assumption).
    subst x. auto.
  - intros (Hin & Hx & Hcity). repeat split; auto.
    exists d. rewrite !date_leb_refl. auto.
Qed.

Lemma filter_mask_no_city start_date end_date (l : list row) :
  filter (fun r => mask start_date end_date [] r = true) l = [].
Proof.
  induction l as [|r l IH]; [reflexivity|].
  rewrite filter_cons. rewrite IH.
  destruct (decide (mask start_date end_date [] r = true)) as [H|H];
    [|reflexivity].
  rewrite mask_no_city in H. discriminate.
Qed.

(** C8, as amended.  With no city selected, on a frame that has the Date
    and City columns and for any date range, the page is computed without a
    failure: the filtered frame has no rows, the count is 0, the three
    categorical metrics are "N/A", and the four charts show nothing.  On a
    frame with the Date column and without a City column, as the load
    returns when no file has one, the filter raises [KeyError] and there is
    no page. *)
Theorem no_city_selected
    (sort_values : list (string * nat) -> list (string * nat))
    (df : DataFrame) (date_range : list date) (min_date max_date : date) :
  "Date" ∈ columns df ->
  ("City" ∈ columns df ->
   exists p,
     dashboard sort_values df date_range min_date max_date [] = Ok p
     /\ p_raw_table p = {| columns := columns df; rows := [] |}
     /\ p_metrics p = mkmetrics 0 "N/A" "N/A" "N/A"
     /\ shown (p_hotspots p) = []
     /\ shown (p_trend_data p) = []
     /\ shown (p_heatmap_data p) = []
     /\ shown (p_veh_counts p) = [])
  /\ ("City" ∉ columns df ->
      dashboard sort_values df date_range min_date max_date []
      = Raise (KeyError "City")).
Proof.
  intros Hd. unfold dashboard.
  destruct (select_dates date_range min_date max_date) as [start_date end_date].
  split.
  - intros Hc. rewrite (filtered_df_Ok _ _ _ _ Hd Hc), filter_mask_no_city.
    eexists. split; [reflexivity|]. repeat split.
  - intros Hc. unfold filtered_df. rewrite (column_Ok _ _ Hd).
    cbn [mbind outcome_bind]. unfold column.
    assert (E : has_column "City" df = false).
    { apply not_true_iff_false. rewrite has_column_true. exact Hc. }
    rewrite E. reflexivity.
Qed.

(** ** Keys, counts and the most frequent value *)

Section KeyFacts.
Context {A : Type} `{EqDecision A}.
Implicit Types l : list A.

Lemma elem_of_first_seen l x : x ∈ first_seen l <-> x ∈ l.
Proof.
  induction l as [|y l IH]; simpl; [reflexivity|].
  rewrite !elem_of_cons, list_elem_of_filter, IH.
  destruct (decide (x = y)); tauto.
Qed.

Lemma NoDup_first_seen l : NoDup (first_seen l).
Proof.
  induction l as [|y l IH]; simpl; [constructor|].
  constructor; [|apply NoDup_filter; exact IH].
  rewrite list_elem_of_filter. tauto.
Qed.

Lemma first_seen_Permutation l1 l2 :
  l1 ≡ₚ l2 -> first_seen l1 ≡ₚ first_seen l2.
Proof.
  intros Hp. apply NoDup_Permutation; try apply NoDup_first_seen.
  intros x. rewrite !elem_of_first_seen. rewrite Hp. reflexivity.
Qed.

Lemma count_of_Permutation x l1 l2 : l1 ≡ₚ l2 -> count_of x l1 = count_of x l2.
Proof. intros Hp. unfold count_of. rewrite Hp. reflexivity. Qed.

Lemma count_of_pos x l : x ∈ l <-> 0 < count_of x l.
Proof.
  unfold count_of. split.
  - intros Hin.
    assert (Hx : x ∈ filter (fun y => y = x) l)
      by (apply list_elem_of_filter; auto).
    destruct (filter (fun y => y = x) l); [inversion Hx | simpl; lia].
  - intros Hlen. destruct (filter (fun y => y = x) l) as [|z k] eqn:E;
      [simpl in Hlen; lia|].
    assert (Hz : z ∈ filter (fun y => y = x) l) by (rewrite E; left).
    apply list_elem_of_filter in Hz as [-> Hz]. exact Hz.
Qed.

Lemma count_of_cons x y l :
  count_of x (y :: l) = (if decide (y = x) then 1 else 0) + count_of x l.
Proof.
  unfold count_of. rewrite filter_cons. destruct (decide (y = x)); reflexivity.
Qed.

Section ModeFacts.
Context (R : relation A) `{!RelDecision R, !PartialOrder R, !Total R}.

Lemma merge_sort_Permutation_eq l1 l2 :
  l1 ≡ₚ l2 -> merge_sort R l1 = merge_sort R l2.
Proof.
  intros Hp. apply (StronglySorted_unique R).
  - apply StronglySorted_merge_sort; apply _.
  - apply StronglySorted_merge_sort; apply _.
  - rewrite !merge_sort_Permutation. exact Hp.
Qed.

Lemma top_count_Permutation l1 l2 : l1 ≡ₚ l2 -> top_count l1 = top_count l2.
Proof.
  intros Hp. unfold top_count.
  rewrite (first_seen_Permutation _ _ Hp).
  f_equal. apply list_fmap_ext. intros _ k _.
  apply count_of_Permutation. exact Hp.
Qed.

Lemma mode_Permutation l1 l2 : l1 ≡ₚ l2 -> mode R l1 = mode R l2.
Proof.
  intros Hp. unfold mode. apply merge_sort_Permutation_eq.
  rewrite (top_count_Permutation _ _ Hp).
  rewrite (first_seen_Permutation _ _ Hp).
  apply NoDup_Permutation.
  - apply NoDup_filter, NoDup_first_seen.
  - apply NoDup_filter, NoDup_first_seen.
  - intros x. rewrite !list_elem_of_filter.
    rewrite (count_of_Permutation x _ _ Hp). reflexivity.
Qed.

Lemma count_le_top l x : count_of x l <= top_count l.
Proof.
  destruct (decide (x ∈ l)) as [Hin|Hout].
  - apply max_list_elem_of_le. apply list_elem_of_fmap.
    exists x. split; [reflexivity|]. apply elem_of_first_seen. exact Hin.
  - destruct (count_of x l) eqn:E; [lia|].
    exfalso. apply Hout. apply count_of_pos. lia.
Qed.

Lemma elem_of_mode l x :
  x ∈ mode R l <-> x ∈ l /\ count_of x l = top_count l.
Proof.
  unfold mode. rewrite merge_sort_Permutation, list_elem_of_filter.
  rewrite elem_of_first_seen. tauto.
Qed.

Lemma mode_nil l : mode R l = [] <-> l = [].
Proof.
  split.
  - intros Hm. destruct l as [|a l]; [reflexivity|]. exfalso.
    assert (Hne : (fun k => count_of k (a :: l)) <$> first_seen (a :: l) ≠ []).
    { intros Heq. apply (f_equal length) in Heq.
      rewrite length_fmap in Heq. simpl in Heq. discriminate. }
    apply max_list_elem_of in Hne. fold (top_count (a :: l)) in Hne.
    apply list_elem_of_fmap in Hne as (k & Hk & Hin).
    rewrite elem_of_first_seen in Hin.
    assert (Hmode : k ∈ mode R (a :: l))
      by (apply elem_of_mode; split; [exact Hin | symmetry; exact Hk]).
    rewrite Hm in Hmode. inversion Hmode.
  - intros ->. reflexivity.
Qed.

(** The value at position 0 of the mode is a value of the highest count,
    and among the values of that count it is the least. *)
Lemma mode_0_least l x :
  mode_0 R l = Ok x ->
  x ∈ l
  /\ (forall y, count_of y l <= count_of x l)
  /\ (forall y, y ∈ l -> count_of y l = count_of x l -> R x y).
Proof.
  unfold mode_0. destruct (mode R l) as [|z rest] eqn:E; [discriminate|].
  intros [= ->].
  assert (Hx : x ∈ mode R l) by (rewrite E; left).
  apply elem_of_mode in Hx as [Hin Htop].
  split; [exact Hin|]. split.
  - intros y. rewrite Htop. apply count_le_top.
  - intros y Hy Hc.
    assert (Hym : y ∈ mode R l) by (apply elem_of_mode; split; congruence).
    assert (Hs : StronglySorted R (mode R l))
      by (apply StronglySorted_merge_sort; apply _).
    rewrite E in Hym, Hs. apply elem_of_cons in Hym as [->|Hym].
    + reflexivity.
    + apply StronglySorted_inv in Hs as [_ Hall].
      rewrite Forall_forall in Hall. apply Hall. exact Hym.
Qed.

Lemma mode_0_Ok l : l <> [] -> exists x, mode_0 R l = Ok x.
Proof.
  intros Hne. unfold mode_0. destruct (mode R l) as [|z rest] eqn:E.
  - apply (proj1 (mode_nil l)) in E. contradiction.
  - eauto.
Qed.

Lemma mode_0_nil : mode_0 R [] = Raise (KeyError "0").
Proof. reflexivity. Qed.

Lemma mode_0_Permutation l1 l2 : l1 ≡ₚ l2 -> mode_0 R l1 = mode_0 R l2.
Proof. intros Hp. unfold mode_0. rewrite (mode_Permutation _ _ Hp). reflexivity. Qed.

End ModeFacts.
End KeyFacts.

(** ** The top metrics *)

Lemma empty_Permutation df1 df2 :
  columns df1 = columns df2 -> rows df1 ≡ₚ rows df2 -> empty df1 = empty df2.
Proof.
  intros Hc Hp. unfold empty. rewrite Hc.
  destruct (rows df1) as [|r1 l1], (rows df2) as [|r2 l2]; try reflexivity.
  - apply Permutation_nil_l in Hp. discriminate.
  - apply Permutation_nil_r in Hp. discriminate.
Qed.

Lemma has_column_ext c df1 df2 :
  columns df1 = columns df2 -> has_column c df1 = has_column c df2.
Proof. intros Hc. unfold has_column. rewrite Hc. reflexivity. Qed.

Lemma column_strings_Permutation c df1 df2 :
  rows df1 ≡ₚ rows df2 ->
  strings_of ((fun r : row => r !! c) <$> rows df1)
  ≡ₚ strings_of ((fun r : row => r !! c) <$> rows df2).
Proof. intros Hp. unfold strings_of. rewrite Hp. reflexivity. Qed.

Lemma column_numbers_Permutation c df1 df2 :
  rows df1 ≡ₚ rows df2 ->
  numbers_of ((fun r : row => r !! c) <$> rows df1)
  ≡ₚ numbers_of ((fun r : row => r !! c) <$> rows df2).
Proof. intros Hp. unfold numbers_of. rewrite Hp. reflexivity. Qed.

Lemma column_mode_0_Permutation c df1 df2 :
  columns df1 = columns df2 -> rows df1 ≡ₚ rows df2 ->
  column_mode_0 c df1 = column_mode_0 c df2.
Proof.
  intros Hc Hp. unfold column_mode_0, column.
  rewrite (has_column_ext c _ _ Hc).
  destruct (has_column c df2); [|reflexivity]. simpl.
  apply (mode_0_Permutation String.le).
  apply column_strings_Permutation. exact Hp.
Qed.

Lemma top_city_Permutation df1 df2 :
  columns df1 = columns df2 -> rows df1 ≡ₚ rows df2 ->
  top_city df1 = top_city df2.
Proof.
  intros Hc Hp. unfold top_city. rewrite (empty_Permutation _ _ Hc Hp).
  destruct (empty df2); [reflexivity|].
  apply (column_mode_0_Permutation "City"); assumption.
Qed.

Lemma top_incident_Permutation df1 df2 :
  columns df1 = columns df2 -> rows df1 ≡ₚ rows df2 ->
  top_incident df1 = top_incident df2.
Proof.
  intros Hc Hp. unfold top_incident.
  rewrite (empty_Permutation _ _ Hc Hp), (has_column_ext "Type" _ _ Hc).
  destruct (negb (empty df2) && has_column "Type" df2); [|reflexivity].
  apply (column_mode_0_Permutation "Type"); assumption.
Qed.

Lemma peak_hour_val_Permutation df1 df2 :
  columns df1 = columns df2 -> rows df1 ≡ₚ rows df2 ->
  peak_hour_val df1 = peak_hour_val df2.
Proof.
  intros Hc Hp. unfold peak_hour_val. rewrite (empty_Permutation _ _ Hc Hp).
  destruct (empty df2); [reflexivity|]. simpl.
  unfold column. rewrite (has_column_ext "Hour" _ _ Hc).
  destruct (has_column "Hour" df2); [|reflexivity]. simpl.
  rewrite (mode_0_Permutation le _ _ (column_numbers_Permutation "Hour" _ _ Hp)).
  reflexivity.
Qed.

Lemma column_mode_0_least c df x :
  column_mode_0 c df = Ok x ->
  let values := strings_of ((fun r : row => r !! c) <$> rows df) in
  x ∈ values
  /\ (forall y, count_of y values <= count_of x values)
  /\ (forall y, y ∈ values -> count_of y values = count_of x values ->
        String.le x y).
Proof.
  unfold column_mode_0, column. destruct (has_column c df); [|discriminate].
  simpl. apply (mode_0_least String.le).
Qed.

(** C9.  The top metrics are a function of the filtered frame alone, and
    of its rows whatever their order: two frames with the same labels and
    the same rows, in any order, have the same metrics, so a second run on
    the same frame returns the same values.  Among the values that tie for
    the highest count the selection is fixed: on a frame that is not empty
    the city, the incident type and the hour returned are the least of the
    most frequent ones, in the order of texts for the first two and of
    numbers for the hour. *)
Theorem top_metrics_deterministic (df1 df2 : DataFrame) :
  columns df1 = columns df2 -> rows df1 ≡ₚ rows df2 ->
  top_metrics df1 = top_metrics df2
  /\ (forall x, empty df1 = false -> top_city df1 = Ok x ->
        let values := strings_of ((fun r : row => r !! "City") <$> rows df1) in
        x ∈ values
        /\ (forall y, count_of y values <= count_of x values)
        /\ (forall y, y ∈ values -> count_of y values = count_of x values ->
              String.le x y))
  /\ (forall x, empty df1 = false -> "Type" ∈ columns df1 ->
        top_incident df1 = Ok x ->
        let values := strings_of ((fun r : row => r !! "Type") <$> rows df1) in
        x ∈ values
        /\ (forall y, count_of y values <= count_of x values)
        /\ (forall y, y ∈ values -> count_of y values = count_of x values ->
              String.le x y))
  /\ (forall h, peak_hour_val df1 = Ok (Some h) ->
        let values := numbers_of ((fun r : row => r !! "Hour") <$> rows df1) in
        h ∈ values
        /\ (forall y, count_of y values <= count_of h values)
        /\ (forall y, y ∈ values -> count_of y values = count_of h values ->
              h <= y)).
Proof.
  intros Hc Hp. split; [|split; [|split]].
  - unfold top_metrics, total_incidents, len.
    rewrite (top_city_Permutation _ _ Hc Hp),
      (top_incident_Permutation _ _ Hc Hp),
      (peak_hour_val_Permutation _ _ Hc Hp), (Permutation_length Hp).
    reflexivity.
  - intros x He Hx. unfold top_city in Hx. rewrite He in Hx.
    apply column_mode_0_least. exact Hx.
  - intros x He Ht Hx. unfold top_incident in Hx.
    apply has_column_true in Ht. rewrite He, Ht in Hx.
    apply column_mode_0_least. exact Hx.
  - intros h Hh. unfold peak_hour_val in Hh.
    destruct (negb (empty df1)); [|discriminate].
    unfold column in Hh. destruct (has_column "Hour" df1); [|discriminate].
    simpl in Hh.
    destruct (mode_0 le (numbers_of ((fun r : row => r !! "Hour") <$> rows df1)))
      as [x| |] eqn:E; try discriminate.
    injection Hh as ->. apply (mode_0_least le). exact E.
Qed.

Lemma numbers_of_no_hours (l : list row) :
  (forall r, r ∈ l -> r !! "Hour" = None) ->
  numbers_of ((fun r : row => r !! "Hour") <$> l) = [].
Proof.
  induction l as [|r l IH]; intros H; [reflexivity|].
  unfold numbers_of in *. rewrite fmap_cons. simpl.
  rewrite (H r) by left. simpl. apply IH. intros r' Hr'. apply H. right.
  exact Hr'.
Qed.

(** Where the frame is not empty and no row has an hour, taking the peak
    hour raises. *)
Lemma peak_hour_val_no_hours df :
  empty df = false -> "Hour" ∈ columns df ->
  (forall r, r ∈ rows df -> r !! "Hour" = None) ->
  peak_hour_val df = Raise (KeyError "0").
Proof.
  intros He Hc Hn. unfold peak_hour_val. rewrite He. simpl.
  rewrite (column_Ok _ _ Hc). simpl. rewrite (numbers_of_no_hours _ Hn).
  reflexivity.
Qed.

(** Where a row has an hour, the peak hour is an hour and is shown as
    "H:00". *)
Lemma peak_hour_val_some df (r : row) h0 :
  empty df = false -> "Hour" ∈ columns df ->
  r ∈ rows df -> r !! "Hour" = Some (VNum h0) ->
  exists h, peak_hour_val df = Ok (Some h)
            /\ peak_hour_str (Some h) = decimal h +:+ ":00".
Proof.
  intros He Hc Hr Hh. unfold peak_hour_val. rewrite He. simpl.
  rewrite (column_Ok _ _ Hc). simpl.
  destruct (mode_0_Ok le (numbers_of ((fun r : row => r !! "Hour") <$> rows df)))
    as [h Hm].
  - intros Hnil.
    assert (Hin : h0 ∈ numbers_of ((fun r : row => r !! "Hour") <$> rows df)).
    { unfold numbers_of. apply list_elem_of_omap. exists (Some (VNum h0)).
      split; [|reflexivity]. apply list_elem_of_fmap. exists r. auto. }
    rewrite Hnil in Hin. inversion Hin.
  - exists h. rewrite Hm. split; reflexivity.
Qed.

Lemma top_metrics_empty df :
  empty df = true ->
  top_metrics df = Ok (mkmetrics (len df) "N/A" "N/A" "N/A").
Proof.
  intros He. unfold top_metrics, top_city, top_incident, peak_hour_val.
  rewrite He. reflexivity.
Qed.

(** C3.  The metrics of a frame that has rows but no hour in any of them
    are not computed: the frame loaded from a file whose one incident has
    no time of day has one row, its Hour cell is null, and the peak hour,
    the metrics and the page all raise [KeyError], where the empty frame
    gets the sentinel "N/A". *)
Theorem peak_hour_raises_without_hours :
  exists df,
    (Sample.load Sample.download_without_time).2 = Ok df
    /\ total_incidents df = 1
    /\ (forall r, r ∈ rows df -> r !! "Hour" = None)
    /\ peak_hour_val df = Raise (KeyError "0")
    /\ top_metrics df = Raise (KeyError "0")
    /\ forall sort_values,
         dashboard sort_values df [] (mkdate 2023 1 1) (mkdate 2023 12 31)
           ["Makati"]
         = Raise (KeyError "0").
Proof.
  eexists. split; [vm_compute; reflexivity|].
  split; [reflexivity|]. split.
  - intros r Hr. apply list_elem_of_singleton in Hr. subst r.
    vm_compute. reflexivity.
  - split; [|split]; try intros sort_values; vm_compute; reflexivity.
Qed.

(** ** The theorems on the sample frame *)

Lemma sample_unified_columns :
  columns Sample.unified
  = ["Date"; "Time"; "City"; "Involved"; "Type"; "Latitude"; "Longitude";
     "Hour"; "Month_Year"].
Proof. vm_compute. reflexivity. Qed.

Lemma sample_has_date : "Date" ∈ columns Sample.unified.
Proof. apply has_column_true. vm_compute. reflexivity. Defined.

Lemma sample_has_city : "City" ∈ columns Sample.unified.
Proof. apply has_column_true. vm_compute. reflexivity. Defined.

Lemma filtered_df_range_correct_witness :
  exists out,
    filtered_df Sample.unified (mkdate 2023 1 1) (mkdate 2023 1 31)
      ["Makati"; "Pasig"] = Ok out
    /\ columns out = columns Sample.unified
    /\ rows out
       = filter (fun r => mask (mkdate 2023 1 1) (mkdate 2023 1 31)
                            ["Makati"; "Pasig"] r = true)
           (rows Sample.unified)
    /\ forall r : row,
         r ∈ rows out <->
         r ∈ rows Sample.unified
         /\ (exists d, date_of r = Some d
                       /\ date_leb (mkdate 2023 1 1) d = true
                       /\ date_leb d (mkdate 2023 1 31) = true)
         /\ (exists c, r !! "City" = Some (VStr c) /\ c ∈ ["Makati"; "Pasig"]).
Proof.
  exact (filtered_df_range_correct Sample.unified (mkdate 2023 1 1)
           (mkdate 2023 1 31) ["Makati"; "Pasig"] sample_has_date
           sample_has_city).
Defined.

Lemma single_date_filter_witness :
  select_dates [mkdate 2023 1 2] (mkdate 2023 1 1) (mkdate 2023 12 31)
  = (mkdate 2023 1 2, mkdate 2023 1 2)
  /\ exists out,
       (let '(start_date, end_date) :=
          select_dates [mkdate 2023 1 2] (mkdate 2023 1 1) (mkdate 2023 12 31) in
        filtered_df Sample.unified start_date end_date ["Makati"; "Pasig"])
       = Ok out
       /\ forall r : row,
            r ∈ rows out <->
            r ∈ rows Sample.unified /\ date_of r = Some (mkdate 2023 1 2)
            /\ (exists c, r !! "City" = Some (VStr c) /\ c ∈ ["Makati"; "Pasig"]).
Proof.
  exact (single_date_filter Sample.unified (mkdate 2023 1 2) (mkdate 2023 1 1)
           (mkdate 2023 12 31) ["Makati"; "Pasig"] sample_has_date
           sample_has_city).
Defined.

Lemma no_city_selected_witness :
  "Date" ∈ columns Sample.unified /\ "City" ∈ columns Sample.unified
  /\ exists p,
       dashboard Sample.sort_values Sample.unified
         [mkdate 2023 1 1; mkdate 2023 12 31]
         (mkdate 2023 1 1) (mkdate 2023 12 31) [] = Ok p
       /\ p_raw_table p = {| columns := columns Sample.unified; rows := [] |}
       /\ p_metrics p = mkmetrics 0 "N/A" "N/A" "N/A"
       /\ shown (p_hotspots p) = []
       /\ shown (p_trend_data p) = []
       /\ shown (p_heatmap_data p) = []
       /\ shown (p_veh_counts p) = [].
Proof.
  split; [exact sample_has_date|]. split; [exact sample_has_city|].
  exact (proj1 (no_city_selected Sample.sort_values Sample.unified
                  [mkdate 2023 1 1; mkdate 2023 12 31]
                  (mkdate 2023 1 1) (mkdate 2023 12 31) sample_has_date)
           sample_has_city).
Defined.

(** C8, the case that its amended form leaves out: the frame loaded from a
    folder whose file has no City column is a unified table, and on it the
    city options and the page raise [KeyError], with no city selected as
    with any selection. *)
Lemma no_city_selected_without_city_column :
  exists df,
    Sample.load Sample.download_without_city = ([], Ok df)
    /\ len df = 1
    /\ Sidebar.min_date df = Ok (Some (mkdate 2023 1 2))
    /\ Sidebar.max_date df = Ok (Some (mkdate 2023 1 2))
    /\ Sidebar.cities df = Raise (KeyError "City")
    /\ dashboard Sample.sort_values df [mkdate 2023 1 2; mkdate 2023 1 2]
         (mkdate 2023 1 2) (mkdate 2023 1 2) []
       = Raise (KeyError "City").
Proof.
  eexists. split; [vm_compute; reflexivity|].
  split; [reflexivity|]. repeat split; vm_compute; reflexivity.
Qed.

Lemma sample_rows_reversed : rows Sample.unified ≡ₚ rows Sample.reversed.
Proof. symmetry. exact (reverse_Permutation (rows Sample.unified)). Defined.

Lemma top_metrics_deterministic_witness :
  top_metrics Sample.unified = top_metrics Sample.reversed.
Proof.
  exact (proj1 (top_metrics_deterministic Sample.unified Sample.reversed
                  eq_refl sample_rows_reversed)).
Defined.

Example sample_top_metrics :
  top_metrics Sample.unified = Ok (mkmetrics 3 "Pasig" "Collision" "9:00").
Proof. vm_compute. reflexivity. Qed.

(** ** The vehicle ranking *)

(** The two sample sorts meet what is known of [sort_values]. *)
Lemma insert_desc_Permutation in_front x l :
  Sample.insert_desc in_front x l ≡ₚ x :: l.
Proof.
  induction l as [|y l IH]; simpl; [reflexivity|].
  destruct (if in_front then y.2 <=? x.2 else y.2 <? x.2); [reflexivity|].
  rewrite IH. apply perm_swap.
Qed.

Lemma sort_desc_Permutation in_front l : Sample.sort_desc in_front l ≡ₚ l.
Proof.
  induction l as [|x l IH]; simpl; [reflexivity|].
  rewrite insert_desc_Permutation, IH. reflexivity.
Qed.

Lemma insert_desc_sorted in_front x l :
  StronglySorted (fun a b : string * nat => b.2 <= a.2) l ->
  StronglySorted (fun a b : string * nat => b.2 <= a.2)
    (Sample.insert_desc in_front x l).
Proof.
  induction l as [|y l IH]; intros Hs; simpl.
  - repeat constructor.
  - apply StronglySorted_inv in Hs as [Hs Hy].
    assert (Hfront : y.2 <= x.2 ->
      StronglySorted (fun a b : string * nat => b.2 <= a.2) (x :: y :: l)).
    { intros Hle. constructor; [constructor; assumption|].
      constructor; [exact Hle|].
      eapply Forall_impl; [exact Hy|]. simpl. intros z Hz. lia. }
    assert (Hbehind : x.2 <= y.2 ->
      StronglySorted (fun a b : string * nat => b.2 <= a.2)
        (y :: Sample.insert_desc in_front x l)).
    { intros Hle. constructor; [apply IH; exact Hs|].
      rewrite (insert_desc_Permutation in_front x l).
      constructor; [exact Hle | exact Hy]. }
    destruct in_front.
    + destruct (Nat.leb_spec (y.2) (x.2)); [apply Hfront | apply Hbehind]; lia.
    + destruct (Nat.ltb_spec (y.2) (x.2)); [apply Hfront | apply Hbehind]; lia.
Qed.

Lemma sort_desc_sorted in_front l :
  StronglySorted (fun a b : string * nat => b.2 <= a.2)
    (Sample.sort_desc in_front l).
Proof.
  induction l as [|x l IH]; simpl; [constructor|].
  apply insert_desc_sorted. exact IH.
Qed.

Lemma sample_sorts_descending in_front :
  sorts_descending (Sample.sort_desc in_front).
Proof.
  intros l. split; [apply sort_desc_Permutation | apply sort_desc_sorted].
Qed.

Lemma sample_sort_values_ok : sorts_descending Sample.sort_values.
Proof. apply sample_sorts_descending. Qed.

(** What is known of the sort leaves the order of equal counts open: both
    sample sorts meet it, and they rank two vehicles of one count in
    opposite orders. *)
Example tie_order_is_open :
  value_counts (Sample.sort_desc true) ["Car"; "Bus"] = [("Car", 1); ("Bus", 1)]
  /\ value_counts (Sample.sort_desc false) ["Car"; "Bus"]
     = [("Bus", 1); ("Car", 1)].
Proof. split; vm_compute; reflexivity. Qed.

Section RankingFacts.
Variable sort_values : list (string * nat) -> list (string * nat).
Hypothesis sort_values_ok : sorts_descending sort_values.

Lemma value_counts_Permutation (keys : list string) :
  value_counts sort_values keys
  ≡ₚ (fun k => (k, count_of k keys)) <$> first_seen keys.
Proof. unfold value_counts. apply sort_values_ok. Qed.

Lemma value_counts_sorted (keys : list string) :
  StronglySorted (fun a b : string * nat => b.2 <= a.2)
    (value_counts sort_values keys).
Proof. unfold value_counts. apply sort_values_ok. Qed.

(** C6, as amended.  On a frame with the Involved column the vehicle chart
    is computed; what it shows is the first ten entries of a ranking of the
    Involved texts.  The ranking has one entry for each distinct text, with
    the number of rows of that text, and it is ordered by count, largest
    first; the order of the entries of one count is the library's and is
    not fixed.  On a frame without rows the chart shows nothing.  On a
    frame that is not empty and has no Involved column the chart raises
    [KeyError]. *)
Theorem veh_counts_ranking (df : DataFrame) :
  ("Involved" ∈ columns df ->
   let keys := strings_of ((fun r : row => r !! "Involved") <$> rows df) in
   let groups := (fun k => (k, count_of k keys)) <$> first_seen keys in
   exists chart ranking,
     veh_counts sort_values df = Ok chart
     /\ shown chart = take 10 ranking
     /\ length (shown chart) <= 10
     /\ StronglySorted (fun a b : string * nat => b.2 <= a.2) (shown chart)
     /\ ranking ≡ₚ groups
     /\ StronglySorted (fun a b : string * nat => b.2 <= a.2) ranking
     /\ (rows df = [] -> shown chart = []))
  /\ ("Involved" ∉ columns df -> empty df = false ->
      veh_counts sort_values df = Raise (KeyError "Involved")).
Proof.
  split.
  - intros Hc keys groups.
    assert (Htake : StronglySorted (fun a b : string * nat => b.2 <= a.2)
                      (take 10 (value_counts sort_values keys))).
    { apply (StronglySorted_app_1_l _ _ (drop 10 (value_counts sort_values keys))).
      rewrite take_drop. apply value_counts_sorted. }
    unfold veh_counts.
    destruct (empty df) eqn:He; simpl.
    + exists None, (value_counts sort_values keys).
      assert (Hrows : rows df = []).
      { unfold empty in He. destruct (rows df); [reflexivity|].
        destruct (columns df); [inversion Hc | discriminate]. }
      assert (Hkeys : keys = []) by (unfold keys; rewrite Hrows; reflexivity).
      assert (Hnil : value_counts sort_values keys = []).
      { apply Permutation_nil_r. rewrite value_counts_Permutation, Hkeys.
        reflexivity. }
      rewrite Hnil. split; [reflexivity|]. split; [reflexivity|].
      split; [simpl; lia|]. split; [constructor|].
      split; [unfold groups; rewrite Hkeys; reflexivity|].
      split; [constructor | reflexivity].
    + rewrite (column_Ok _ _ Hc). simpl.
      exists (Some (take 10 (value_counts sort_values keys))),
        (value_counts sort_values keys).
      split; [reflexivity|]. split; [reflexivity|]. split.
      { simpl. rewrite length_take. lia. }
      split; [exact Htake|].
      split; [apply value_counts_Permutation|].
      split; [apply value_counts_sorted|].
      intros Hrows. apply empty_false in He. tauto.
  - intros Hc He. unfold veh_counts, column. rewrite He. cbn [negb].
    assert (E : has_column "Involved" df = false).
    { apply not_true_iff_false. rewrite has_column_true. exact Hc. }
    rewrite E. reflexivity.
Qed.

End RankingFacts.

(** ** The monthly trend *)

Lemma StronglySorted_NoDup_strict {A} (R : relation A) (l : list A) :
  StronglySorted R l -> NoDup l ->
  StronglySorted (fun a b => R a b /\ a <> b) l.
Proof.
  induction 1 as [|x l Hs IH Hall]; intros Hnd; [constructor|].
  apply NoDup_cons in Hnd as [Hx Hnd].
  constructor; [apply IH; exact Hnd|].
  rewrite Forall_forall in Hall |- *. intros y Hy. split; [apply Hall; exact Hy|].
  intros Heq. subst. contradiction.
Qed.

Lemma StronglySorted_mono {A} (R1 R2 : relation A) (l : list A) :
  (forall a b, R1 a b -> R2 a b) -> StronglySorted R1 l -> StronglySorted R2 l.
Proof.
  intros Himp. induction 1 as [|x l Hs IH Hall]; constructor; [exact IH|].
  eapply Forall_impl; [exact Hall|]. intros y. apply Himp.
Qed.

Lemma string_le_ne_lt (a b : string) :
  String.le a b -> a <> b -> String.compare a b = Lt.
Proof.
  unfold String.le, String.leb. intros Hle Hne.
  destruct (String.compare a b) eqn:E; [|reflexivity|contradiction].
  apply String.compare_eq_iff in E. contradiction.
Qed.

Lemma groupby_size_keys (keys : list string) :
  (groupby_size String.le keys).*1 = merge_sort String.le (first_seen keys).
Proof.
  unfold groupby_size. rewrite <- list_fmap_compose.
  apply list_fmap_id.
Qed.

Lemma groupby_size_sorted (keys : list string) :
  StronglySorted (fun a b => String.compare a b = Lt)
    (groupby_size String.le keys).*1.
Proof.
  rewrite groupby_size_keys.
  apply (StronglySorted_mono (fun a b => String.le a b /\ a <> b));
    [|apply StronglySorted_NoDup_strict].
  - intros a b [Hle Hne]. apply string_le_ne_lt; assumption.
  - apply StronglySorted_merge_sort; apply _.
  - rewrite merge_sort_Permutation. apply NoDup_first_seen.
Qed.

Lemma elem_of_groupby_size (keys : list string) k n :
  (k, n) ∈ groupby_size String.le keys <-> k ∈ keys /\ n = count_of k keys.
Proof.
  unfold groupby_size. rewrite list_elem_of_fmap. split.
  - intros (x & [= -> ->] & Hin).
    rewrite merge_sort_Permutation, elem_of_first_seen in Hin. auto.
  - intros [Hin ->]. exists k. split; [reflexivity|].
    rewrite merge_sort_Permutation, elem_of_first_seen. exact Hin.
Qed.

Lemma groupby_size_Permutation (keys1 keys2 : list string) :
  keys1 ≡ₚ keys2 -> groupby_size String.le keys1 = groupby_size String.le keys2.
Proof.
  intros Hp. unfold groupby_size.
  rewrite (merge_sort_Permutation_eq String.le _ _ (first_seen_Permutation _ _ Hp)).
  apply list_fmap_ext. intros _ k _. f_equal.
  apply count_of_Permutation. exact Hp.
Qed.

Lemma trend_data_Permutation df1 df2 :
  columns df1 = columns df2 -> rows df1 ≡ₚ rows df2 ->
  trend_data df1 = trend_data df2.
Proof.
  intros Hc Hp. unfold trend_data. rewrite (empty_Permutation _ _ Hc Hp).
  destruct (empty df2); [reflexivity|]. simpl.
  unfold column. rewrite (has_column_ext "Month_Year" _ _ Hc).
  destruct (has_column "Month_Year" df2); [|reflexivity]. simpl.
  rewrite (groupby_size_Permutation _ _
             (column_strings_Permutation "Month_Year" _ _ Hp)).
  reflexivity.
Qed.

(** On a frame with the Month_Year column the trend is computed, and what
    it shows is the grouping of the month labels of the rows. *)
Lemma trend_data_shown (df : DataFrame) :
  "Month_Year" ∈ columns df ->
  exists chart,
    trend_data df = Ok chart
    /\ shown chart
       = groupby_size String.le
           (strings_of ((fun r : row => r !! "Month_Year") <$> rows df))
    /\ (rows df = [] -> shown chart = []).
Proof.
  intros Hc. unfold trend_data. destruct (empty df) eqn:He; simpl.
  - exists None.
    assert (Hrows : rows df = []).
    { unfold empty in He. destruct (rows df); [reflexivity|].
      destruct (columns df); [inversion Hc | discriminate]. }
    rewrite Hrows. repeat split.
  - rewrite (column_Ok _ _ Hc). simpl. eexists. split; [reflexivity|].
    split; [reflexivity|]. apply empty_false in He. tauto.
Qed.

(** Labels sorted as texts are in the order of their months. *)
Lemma groupby_size_chronological (keys : list string) :
  StronglySorted
    (fun a b => forall d1 d2, month_ok d1 -> month_ok d2 ->
                  a = period_str d1 -> b = period_str d2 ->
                  month_index d1 < month_index d2)
    (groupby_size String.le keys).*1.
Proof.
  apply (StronglySorted_mono (fun a b => String.compare a b = Lt));
    [|apply groupby_size_sorted].
  intros a b Hlt d1 d2 Hd1 Hd2 -> ->.
  apply period_str_lt; assumption.
Qed.

Lemma groupby_size_month_labels (l : list row) :
  (forall r, r ∈ l -> bucket_of_date r) ->
  Forall (fun a => exists d, month_ok d /\ a = period_str d)
    (groupby_size String.le
       (strings_of ((fun r : row => r !! "Month_Year") <$> l))).*1.
Proof.
  intros Hwf. rewrite groupby_size_keys. rewrite Forall_forall. intros a Ha.
  rewrite merge_sort_Permutation, elem_of_first_seen in Ha.
  unfold strings_of in Ha.
  apply list_elem_of_omap in Ha as (cell & Hcell & Hstr).
  apply list_elem_of_fmap in Hcell as (r & -> & Hr).
  destruct (Hwf r Hr) as (ts & _ & Hok & Hbucket).
  rewrite Hbucket in Hstr. simpl in Hstr. injection Hstr as <-.
  exists (ts_date ts). auto.
Qed.

(** C7.  On a frame with the Month_Year column the trend is computed.  Its
    series has one entry for each bucket of the frame, with the number of
    rows of the bucket, and its labels are strictly increasing as texts; a
    label that comes earlier in the series is the label of an earlier
    month.  Where every row carries the label of the month of its date, as
    the loaded rows do, each label of the series is the label of a month.
    Two frames with the same labels and the same rows in any order have the
    same series. *)
Theorem trend_data_chronological (df : DataFrame) :
  "Month_Year" ∈ columns df ->
  let keys := strings_of ((fun r : row => r !! "Month_Year") <$> rows df) in
  exists chart,
    trend_data df = Ok chart
    /\ (forall k n, (k, n) ∈ shown chart <-> k ∈ keys /\ n = count_of k keys)
    /\ (rows df = [] -> shown chart = [])
    /\ StronglySorted (fun a b => String.compare a b = Lt) (shown chart).*1
    /\ StronglySorted
         (fun a b => forall d1 d2, month_ok d1 -> month_ok d2 ->
                       a = period_str d1 -> b = period_str d2 ->
                       month_index d1 < month_index d2)
         (shown chart).*1
    /\ ((forall r, r ∈ rows df -> bucket_of_date r) ->
        Forall (fun a => exists d, month_ok d /\ a = period_str d)
          (shown chart).*1)
    /\ (forall df', columns df' = columns df -> rows df' ≡ₚ rows df ->
          trend_data df' = trend_data df).
Proof.
  intros Hc keys.
  destruct (trend_data_shown df Hc) as (chart & Hrun & Hshown & Hnone).
  fold keys in Hshown.
  exists chart. split; [exact Hrun|].
  split; [intros k n; rewrite Hshown; apply elem_of_groupby_size|].
  split; [exact Hnone|].
  split; [rewrite Hshown; apply groupby_size_sorted|].
  split; [rewrite Hshown; apply groupby_size_chronological|].
  split; [|intros df' Hc' Hp; apply trend_data_Permutation; assumption].
  intros Hwf. rewrite Hshown. apply groupby_size_month_labels. exact Hwf.
Qed.

(** ** The cleaning steps, row by row *)

Lemma lookup_set_cell c v (r : row) : set_cell c v r !! c = v.
Proof.
  destruct v; simpl; [apply lookup_insert_eq | apply lookup_delete_eq].
Qed.

Lemma lookup_set_cell_ne c c' v (r : row) :
  c <> c' -> set_cell c v r !! c' = r !! c'.
Proof.
  intros Hne. destruct v; simpl;
    [apply lookup_insert_ne | apply lookup_delete_ne]; exact Hne.
Qed.

Lemma elem_of_rows_assign c f df (r : row) :
  r ∈ rows (assign c f df) <-> exists r0, r = set_cell c (f r0) r0 /\ r0 ∈ rows df.
Proof. unfold assign. simpl. apply list_elem_of_fmap. Qed.

Lemma elem_of_columns_assign c c' f df :
  c' ∈ columns (assign c f df) <-> c' ∈ columns df \/ c' = c.
Proof.
  unfold assign. simpl. destruct (has_column c df) eqn:E.
  - apply has_column_true in E. split; [auto|]. intros [H| ->]; assumption.
  - rewrite elem_of_app, list_elem_of_singleton. reflexivity.
Qed.

Lemma has_column_iff c df1 df2 :
  (c ∈ columns df1 <-> c ∈ columns df2) -> has_column c df1 = has_column c df2.
Proof.
  intros H. unfold has_column. apply bool_decide_ext. exact H.
Qed.

Lemma dropna_labels subset df :
  filter (fun c => c ∉ columns df) subset = [] <->
  Forall (fun c => c ∈ columns df) subset.
Proof.
  induction subset as [|c l IH]; [split; constructor|].
  rewrite filter_cons, Forall_cons.
  destruct (decide (c ∉ columns df)) as [Hout|Hin].
  - split; [discriminate | intros [? _]; contradiction].
  - rewrite IH. apply dec_stable in Hin. tauto.
Qed.

Lemma dropna_Ok subset df :
  Forall (fun c => c ∈ columns df) subset ->
  dropna subset df
  = Ok {| columns := columns df; rows := filter (notna subset) (rows df) |}.
Proof.
  intros H. unfold dropna. apply dropna_labels in H. rewrite H. reflexivity.
Qed.

Lemma dropna_Ok_inv subset df out :
  dropna subset df = Ok out ->
  Forall (fun c => c ∈ columns df) subset
  /\ out = {| columns := columns df; rows := filter (notna subset) (rows df) |}.
Proof.
  unfold dropna.
  destruct (filter (fun c => c ∉ columns df) subset) eqn:E; [|discriminate].
  intros [= <-]. split; [apply dropna_labels; exact E | reflexivity].
Qed.

Section CleanFacts.
Variable str_title : string -> string.
Variable to_datetime : list (option value) -> option value -> option Timestamp.

Lemma fix_city_spec df :
  columns (fix_city str_title df) = columns df
  /\ forall r : row, r ∈ rows (fix_city str_title df) ->
       exists r0 : row, r0 ∈ rows df
         /\ r !! "City"
            = (if has_column "City" df
               then Some (VStr (strip (str_title (fill_unknown (r0 !! "City")))))
               else r0 !! "City")
         /\ forall c, c <> "City" -> r !! c = r0 !! c.
Proof.
  unfold fix_city. destruct (has_column "City" df) eqn:E.
  - split; [unfold assign; simpl; rewrite E; reflexivity|].
    intros r Hr. apply elem_of_rows_assign in Hr as (r0 & -> & Hr0).
    exists r0. split; [exact Hr0|]. split; [apply lookup_set_cell|].
    intros c Hc. apply lookup_set_cell_ne. congruence.
  - split; [reflexivity|]. intros r Hr. exists r. auto.
Qed.

Lemma fix_date_spec df df' :
  fix_date to_datetime df = Ok df' ->
  "Date" ∈ columns df /\ columns df' = columns df
  /\ forall r : row, r ∈ rows df' ->
       exists r0 : row, r0 ∈ rows df
         /\ (exists ts, r !! "Date" = Some (VStamp ts)
               /\ exists dates cell, to_datetime dates cell = Some ts)
         /\ forall c, c <> "Date" -> r !! c = r0 !! c.
Proof.
  unfold fix_date. destruct (column "Date" df) as [dates| |] eqn:E;
    try discriminate.
  apply column_Ok_inv in E as [Hd _]. cbn [mbind outcome_bind].
  intros H. apply dropna_Ok_inv in H as [_ ->]. simpl.
  split; [exact Hd|]. split.
  { apply has_column_true in Hd. rewrite Hd. reflexivity. }
  intros r Hr. apply list_elem_of_filter in Hr as [Hna Hr].
  apply list_elem_of_fmap in Hr as (r0 & -> & Hr0).
  exists r0. split; [exact Hr0|]. split.
  - apply Forall_cons in Hna as [[v Hv] _].
    rewrite lookup_set_cell in Hv |- *.
    destruct (to_datetime dates (r0 !! "Date")) as [ts|] eqn:Ets; [|discriminate].
    exists ts. split; [reflexivity|]. eauto.
  - intros c Hc. apply lookup_set_cell_ne. congruence.
Qed.

Lemma fix_time_spec df df' :
  fix_time df = Ok df' ->
  "Time" ∈ columns df
  /\ (forall c, c ∈ columns df' <-> c ∈ columns df \/ c = "Hour")
  /\ forall r : row, r ∈ rows df' ->
       exists r0 : row, r0 ∈ rows df
         /\ r !! "Time" = VTime <$> time_of_cell (r0 !! "Time")
         /\ r !! "Hour" = VNum <$> hour_of_cell (r !! "Time")
         /\ forall c, c <> "Time" -> c <> "Hour" -> r !! c = r0 !! c.
Proof.
  unfold fix_time. destruct (column "Time" df) as [cells| |] eqn:E;
    try discriminate.
  apply column_Ok_inv in E as [Ht _]. cbn [mbind outcome_bind mret outcome_ret].
  intros [= <-]. split; [exact Ht|]. split.
  { intros c. rewrite !elem_of_columns_assign.
    split; [intros [[?| ->]| ->]; auto | intros [?| ->]; auto]. }
  intros r Hr. apply elem_of_rows_assign in Hr as (r1 & -> & Hr1).
  apply elem_of_rows_assign in Hr1 as (r0 & -> & Hr0).
  exists r0. split; [exact Hr0|].
  assert (Htime : set_cell "Hour"
            (VNum <$> hour_of_cell (set_cell "Time"
               (VTime <$> time_of_cell (r0 !! "Time")) r0 !! "Time"))
            (set_cell "Time" (VTime <$> time_of_cell (r0 !! "Time")) r0) !! "Time"
          = VTime <$> time_of_cell (r0 !! "Time")).
  { rewrite lookup_set_cell_ne by discriminate. apply lookup_set_cell. }
  split; [exact Htime|]. split.
  - rewrite Htime. rewrite (lookup_set_cell "Hour"), lookup_set_cell.
    reflexivity.
  - intros c H1 H2. rewrite !lookup_set_cell_ne by congruence. reflexivity.
Qed.

Lemma fix_involved_spec df :
  columns (fix_involved df) = columns df
  /\ forall r : row, r ∈ rows (fix_involved df) ->
       exists r0 : row, r0 ∈ rows df
         /\ r !! "Involved"
            = (if has_column "Involved" df
               then Some (VStr (fill_unknown (r0 !! "Involved")))
               else r0 !! "Involved")
         /\ forall c, c <> "Involved" -> r !! c = r0 !! c.
Proof.
  unfold fix_involved. destruct (has_column "Involved" df) eqn:E.
  - split; [unfold assign; simpl; rewrite E; reflexivity|].
    intros r Hr. apply elem_of_rows_assign in Hr as (r0 & -> & Hr0).
    exists r0. split; [exact Hr0|]. split; [apply lookup_set_cell|].
    intros c Hc. apply lookup_set_cell_ne. congruence.
  - split; [reflexivity|]. intros r Hr. exists r. auto.
Qed.

Lemma ensure_coordinates_spec df df' :
  ensure_coordinates df = Ok df' ->
  "Latitude" ∈ columns df /\ "Longitude" ∈ columns df
  /\ columns df' = columns df
  /\ forall r : row, r ∈ rows df' ->
       r ∈ rows df /\ is_Some (r !! "Latitude") /\ is_Some (r !! "Longitude").
Proof.
  unfold ensure_coordinates. intros H. apply dropna_Ok_inv in H as [Hl ->].
  apply Forall_cons in Hl as [Hlat Hl]. apply Forall_cons in Hl as [Hlon _].
  split; [exact Hlat|]. split; [exact Hlon|]. split; [reflexivity|].
  simpl. intros r Hr. apply list_elem_of_filter in Hr as [Hna Hr].
  apply Forall_cons in Hna as [H1 Hna]. apply Forall_cons in Hna as [H2 _].
  auto.
Qed.

Lemma add_month_year_spec df :
  (forall c, c ∈ columns (add_month_year df) <-> c ∈ columns df \/ c = "Month_Year")
  /\ forall r : row, r ∈ rows (add_month_year df) ->
       exists r0 : row, r0 ∈ rows df
         /\ r !! "Month_Year" = VStr <$> month_year_of_cell (r0 !! "Date")
         /\ forall c, c <> "Month_Year" -> r !! c = r0 !! c.
Proof.
  unfold add_month_year. split; [intros c; apply elem_of_columns_assign|].
  intros r Hr. apply elem_of_rows_assign in Hr as (r0 & -> & Hr0).
  exists r0. split; [exact Hr0|]. split; [apply lookup_set_cell|].
  intros c Hc. apply lookup_set_cell_ne. congruence.
Qed.

End CleanFacts.

Section CleanRows.
Variable str_title : string -> string.
Variable to_datetime : list (option value) -> option value -> option Timestamp.

(** What a row of the cleaned frame holds, in terms of the row [r0] of the
    combined frame (under its trimmed labels) that it comes from. *)
Lemma clean_Ok_inv df out :
  clean str_title to_datetime df = Ok out ->
  exists df0,
    strip_columns df = Ok df0
    /\ ("Date" ∈ columns df0 /\ "Time" ∈ columns df0
        /\ "Latitude" ∈ columns df0 /\ "Longitude" ∈ columns df0)
    /\ (forall c, c ∈ columns out <->
                  c ∈ columns df0 \/ c = "Hour" \/ c = "Month_Year")
    /\ forall r : row, r ∈ rows out ->
         exists r0 : row, r0 ∈ rows df0
           /\ (exists ts, r !! "Date" = Some (VStamp ts)
                 /\ r !! "Month_Year" = Some (VStr (period_str (ts_date ts)))
                 /\ exists dates cell, to_datetime dates cell = Some ts)
           /\ r !! "Time" = VTime <$> time_of_cell (r0 !! "Time")
           /\ r !! "Hour" = VNum <$> hour_of_cell (r !! "Time")
           /\ r !! "City"
              = (if has_column "City" df0
                 then Some (VStr (strip (str_title (fill_unknown (r0 !! "City")))))
                 else r0 !! "City")
           /\ r !! "Involved"
              = (if has_column "Involved" df0
                 then Some (VStr (fill_unknown (r0 !! "Involved")))
                 else r0 !! "Involved")
           /\ is_Some (r !! "Latitude") /\ is_Some (r !! "Longitude").
Proof.
  unfold clean. intros H.
  destruct (strip_columns df) as [df0| |] eqn:H0; try discriminate.
  cbn [mbind outcome_bind] in H.
  destruct (fix_date to_datetime (fix_city str_title df0)) as [df2| |] eqn:H2;
    try discriminate.
  cbn [mbind outcome_bind] in H.
  destruct (fix_time df2) as [df3| |] eqn:H3; try discriminate.
  cbn [mbind outcome_bind] in H.
  destruct (ensure_coordinates (fix_involved df3)) as [df5| |] eqn:H5;
    try discriminate.
  cbn [mbind outcome_bind mret outcome_ret] in H. injection H as <-.
  destruct (fix_city_spec str_title df0) as [C1 R1].
  apply fix_date_spec in H2 as (D2 & C2 & R2).
  apply fix_time_spec in H3 as (D3 & C3 & R3).
  destruct (fix_involved_spec df3) as [C4 R4].
  apply ensure_coordinates_spec in H5 as (Dlat & Dlon & C5 & R5).
  destruct (add_month_year_spec df5) as [C6 R6].
  rewrite C1 in D2, C2. rewrite C4 in Dlat, Dlon, C5.
  assert (Hcols3 : forall c, c ∈ columns df3 <-> c ∈ columns df0 \/ c = "Hour").
  { intros c. rewrite C3, C2. reflexivity. }
  exists df0. split; [reflexivity|]. split.
  { rewrite C2 in D3. apply Hcols3 in Dlat, Dlon.
    destruct Dlat as [?|?]; [|discriminate].
    destruct Dlon as [?|?]; [|discriminate]. auto. }
  split.
  { intros c. rewrite C6, C5, Hcols3. tauto. }
  intros r Hr.
  apply R6 in Hr as (r5 & Hr5 & M6 & S6).
  apply R5 in Hr5 as (Hr4 & Hlat & Hlon).
  apply R4 in Hr4 as (r3 & Hr3 & I4 & S4).
  apply R3 in Hr3 as (r2 & Hr2 & T3 & U3 & S3).
  apply R2 in Hr2 as (r1 & Hr1 & (ts & Dts & Hparsed) & S2).
  apply R1 in Hr1 as (r0 & Hr0 & Cy & S1).
  exists r0. split; [exact Hr0|].
  assert (Hdate : r5 !! "Date" = Some (VStamp ts)).
  { rewrite S4, S3 by discriminate. exact Dts. }
  split.
  { exists ts. split; [|split].
    - rewrite S6 by discriminate. exact Hdate.
    - rewrite M6, Hdate. reflexivity.
    - exact Hparsed. }
  split.
  { rewrite S6, S4, T3, S2, S1 by discriminate. reflexivity. }
  split.
  { rewrite !S6, !S4 by discriminate. exact U3. }
  split.
  { rewrite S6, S4, S3, S2 by discriminate. rewrite Cy. reflexivity. }
  split.
  { rewrite S6, I4 by discriminate.
    rewrite (has_column_iff "Involved" df3 df0).
    - rewrite S3, S2, S1 by discriminate. reflexivity.
    - rewrite Hcols3. split; [intros [?|?]; [assumption|discriminate] | auto]. }
  rewrite !S6 by discriminate. auto.
Qed.

(** The cleaning goes through on a combined frame whose trimmed labels are
    distinct and include the four labels that the steps look up. *)
Lemma clean_Ok df :
  NoDup (strip <$> columns df) ->
  "Date" ∈ strip <$> columns df -> "Time" ∈ strip <$> columns df ->
  "Latitude" ∈ strip <$> columns df -> "Longitude" ∈ strip <$> columns df ->
  exists out, clean str_title to_datetime df = Ok out.
Proof.
  intros Hnd Hd Ht Hlat Hlon. unfold clean, strip_columns.
  rewrite (bool_decide_eq_true_2 _ Hnd). cbn [mbind outcome_bind].
  set (df0 := {| columns := strip <$> columns df;
                 rows := relabel (columns df) <$> rows df |}).
  destruct (fix_city_spec str_title df0) as [C1 _].
  assert (H2 : exists df2, fix_date to_datetime (fix_city str_title df0) = Ok df2
                 /\ columns df2 = columns df0).
  { unfold fix_date. rewrite column_Ok by (rewrite C1; exact Hd).
    cbn [mbind outcome_bind]. rewrite dropna_Ok.
    - eexists. split; [reflexivity|]. simpl.
      assert (E : has_column "Date" (fix_city str_title df0) = true)
        by (apply has_column_true; rewrite C1; exact Hd).
      rewrite E. exact C1.
    - constructor; [|constructor]. apply elem_of_columns_assign. auto. }
  destruct H2 as (df2 & -> & C2). cbn [mbind outcome_bind].
  unfold fix_time. rewrite column_Ok by (rewrite C2; exact Ht).
  cbn [mbind outcome_bind mret outcome_ret].
  match goal with
  | |- context [fix_involved ?d] =>
      set (df3 := d); destruct (fix_involved_spec df3) as [C4 _]
  end.
  assert (Hsub : forall c, c ∈ columns df0 -> c ∈ columns (fix_involved df3)).
  { intros c Hc. rewrite C4. unfold df3.
    rewrite !elem_of_columns_assign, C2. auto. }
  unfold ensure_coordinates. rewrite dropna_Ok.
  - eexists. reflexivity.
  - constructor; [apply Hsub; exact Hlat|].
    constructor; [apply Hsub; exact Hlon|]. constructor.
Qed.

End CleanRows.

(** ** The hour of a record *)

Lemma time_of_cell_ok v c : time_of_cell v = Some c -> Clock.ok c.
Proof.
  unfold time_of_cell. destruct v as [[s| | | |]|]; simpl; try discriminate.
  intros H. apply strptime_12h_ok in H. tauto.
Qed.

(** Writing the time out and reading it back gives the hour of the time:
    the two steps agree with the direct extraction on every cell that the
    Time step can produce. *)
Lemma hour_of_cell_time v :
  hour_of_cell (VTime <$> time_of_cell v)
  = hour_direct (VTime <$> time_of_cell v).
Proof.
  destruct (time_of_cell v) as [c|] eqn:E; [|reflexivity].
  change (hour_of_cell (VTime <$> Some c))
    with (Clock.hour <$> Clock.parse_text (Clock.to_text c)).
  rewrite parse_text_to_text by (eapply time_of_cell_ok; exact E).
  reflexivity.
Qed.

Example hour_of_afternoon :
  hour_of_cell (VTime <$> time_of_cell (Some (VStr "2:15 PM"))) = Some 14.
Proof. reflexivity. Qed.

Example hour_of_unparseable :
  hour_of_cell (VTime <$> time_of_cell (Some (VStr "14:15"))) = None.
Proof. reflexivity. Qed.

(** ** Ingestion *)

Lemma read_files_warnings files :
  (read_files files).1
  = omap (fun f : string * (string + DataFrame) =>
            match f.2 with
            | inl e => Some ("Could not read file " +:+ f.1 +:+ ": " +:+ e)
            | inr _ => None
            end) files.
Proof.
  induction files as [|[file [e|temp_df]] rest IH]; [reflexivity| |];
    cbn [read_files omap list_omap];
    destruct (read_files rest) as [warnings df_list]; cbn [fst snd] in *;
    rewrite IH; reflexivity.
Qed.

Lemma read_files_frames files :
  (read_files files).2
  = omap (fun f : string * (string + DataFrame) =>
            match f.2 with
            | inl _ => None
            | inr temp_df => Some temp_df
            end) files.
Proof.
  induction files as [|[file [e|temp_df]] rest IH]; [reflexivity| |];
    cbn [read_files omap list_omap];
    destruct (read_files rest) as [warnings df_list]; cbn [fst snd] in *;
    rewrite IH; reflexivity.
Qed.

Section LoadFacts.
Variable str_title : string -> string.
Variable to_datetime : list (option value) -> option value -> option Timestamp.

Lemma load_unfold path listing :
  load_and_clean_data str_title to_datetime (inr (path, listing))
  = match all_csv_files path listing with
    | [] => ([], Halt "No CSV files found in the downloaded dataset.")
    | _ :: _ =>
        match (read_files (all_csv_files path listing)).2 with
        | [] => ((read_files (all_csv_files path listing)).1,
                 Halt "No valid data files could be read.")
        | _ :: _ =>
            ((read_files (all_csv_files path listing)).1,
             clean str_title to_datetime
               (concat (read_files (all_csv_files path listing)).2))
        end
    end.
Proof.
  unfold load_and_clean_data.
  destruct (all_csv_files path listing) as [|f files]; [reflexivity|].
  destruct (read_files (f :: files)) as [warnings [|temp_df df_list]];
    reflexivity.
Qed.

Lemma load_Ok_inv path listing warnings df :
  load_and_clean_data str_title to_datetime (inr (path, listing))
  = (warnings, Ok df) ->
  clean str_title to_datetime
    (concat (read_files (all_csv_files path listing)).2) = Ok df.
Proof.
  rewrite load_unfold.
  destruct (all_csv_files path listing); [discriminate|].
  destruct ((read_files (_ :: _)).2); [discriminate|].
  intros [= _ H]. exact H.
Qed.

End LoadFacts.

Section LoadTheorems.
Variable str_title : string -> string.
Variable to_datetime : list (option value) -> option value -> option Timestamp.

(** C4, as amended.  With no CSV file in the folder the session stops on
    the error "No CSV files found"; otherwise each file that does not read
    leaves one warning and the others are read; if none reads the session
    stops on the error "No valid data files"; if one reads, the warnings are
    those of the files that did not and the outcome is that of cleaning the
    concatenation of the frames that did, in the order of the files, which
    is a frame whenever the trimmed labels of that concatenation are
    distinct and include Date, Time, Latitude and Longitude. *)
Theorem ingestion_outcomes (path : string) (listing : list dir_entry) :
  let files := all_csv_files path listing in
  let parsed :=
    omap (fun f : string * (string + DataFrame) =>
            match f.2 with inl _ => None | inr temp_df => Some temp_df end)
      files in
  let warnings :=
    omap (fun f : string * (string + DataFrame) =>
            match f.2 with
            | inl e => Some ("Could not read file " +:+ f.1 +:+ ": " +:+ e)
            | inr _ => None
            end) files in
  let result := load_and_clean_data str_title to_datetime (inr (path, listing)) in
  (files = [] ->
     result = ([], Halt "No CSV files found in the downloaded dataset."))
  /\ (files <> [] -> parsed = [] ->
        result = (warnings, Halt "No valid data files could be read."))
  /\ (files <> [] -> parsed <> [] ->
        result = (warnings, clean str_title to_datetime (concat parsed))
        /\ (NoDup (strip <$> columns (concat parsed)) ->
            "Date" ∈ strip <$> columns (concat parsed) ->
            "Time" ∈ strip <$> columns (concat parsed) ->
            "Latitude" ∈ strip <$> columns (concat parsed) ->
            "Longitude" ∈ strip <$> columns (concat parsed) ->
            exists df, result = (warnings, Ok df))).
Proof.
  intros files parsed warnings result.
  assert (Hres : result =
    match files with
    | [] => ([], Halt "No CSV files found in the downloaded dataset.")
    | _ :: _ =>
        match parsed with
        | [] => (warnings, Halt "No valid data files could be read.")
        | _ :: _ => (warnings, clean str_title to_datetime (concat parsed))
        end
    end).
  { unfold result, parsed, warnings, files. rewrite load_unfold.
    rewrite read_files_warnings, read_files_frames. reflexivity. }
  rewrite Hres. split; [|split].
  - intros ->. reflexivity.
  - intros Hf ->. destruct files; [contradiction | reflexivity].
  - intros Hf Hp. destruct files; [contradiction|].
    destruct parsed eqn:E; [contradiction|]. rewrite <- E.
    split; [reflexivity|].
    intros Hnd Hd Ht Hlat Hlon.
    destruct (clean_Ok str_title to_datetime (concat parsed) Hnd Hd Ht Hlat Hlon)
      as [df Hdf].
    exists df. rewrite Hdf. reflexivity.
Qed.

(** The download step that raises ends the session on the error box with
    the text of the exception. *)
Lemma load_download_error e :
  load_and_clean_data str_title to_datetime (inl e)
  = ([], Halt ("Error loading data: " +:+ e)).
Proof. reflexivity. Qed.

(** C1, as amended.  In every row of the frame that [load_and_clean_data]
    returns, the date is a timestamp and the latitude and the longitude are
    not null.  Where the frame has a City column, the city of the row is a
    text: the trimmed title-case form of the source text, and "Unknown"
    where the source cell is null; where it has an Involved column, the
    entry is the source text, and "Unknown" where the source cell is null.
    The frame has these two columns exactly when the combined source frame
    has them. *)
Theorem unified_table_invariant (path : string) (listing : list dir_entry)
    (warnings : list string) (df : DataFrame) :
  str_title "Unknown" = "Unknown" ->
  load_and_clean_data str_title to_datetime (inr (path, listing))
  = (warnings, Ok df) ->
  exists df0,
    strip_columns (concat (read_files (all_csv_files path listing)).2) = Ok df0
    /\ ("City" ∈ columns df <-> "City" ∈ columns df0)
    /\ ("Involved" ∈ columns df <-> "Involved" ∈ columns df0)
    /\ forall r : row, r ∈ rows df ->
         (exists ts, r !! "Date" = Some (VStamp ts))
         /\ is_Some (r !! "Latitude") /\ is_Some (r !! "Longitude")
         /\ exists r0 : row, r0 ∈ rows df0
              /\ ("City" ∈ columns df ->
                    r !! "City"
                    = Some (VStr (strip (str_title (fill_unknown (r0 !! "City")))))
                    /\ (r0 !! "City" = None ->
                          r !! "City" = Some (VStr "Unknown")))
              /\ ("Involved" ∈ columns df ->
                    r !! "Involved" = Some (VStr (fill_unknown (r0 !! "Involved")))
                    /\ (r0 !! "Involved" = None ->
                          r !! "Involved" = Some (VStr "Unknown"))).
Proof.
  intros Htitle Hload. apply load_Ok_inv in Hload.
  apply clean_Ok_inv in Hload as (df0 & Hs & _ & Hcols & Hrows).
  assert (Hcity : "City" ∈ columns df <-> "City" ∈ columns df0).
  { rewrite Hcols. split; [intros [?|[?|?]]; [assumption|discriminate..] | auto]. }
  assert (Hinv : "Involved" ∈ columns df <-> "Involved" ∈ columns df0).
  { rewrite Hcols. split; [intros [?|[?|?]]; [assumption|discriminate..] | auto]. }
  exists df0. split; [exact Hs|]. split; [exact Hcity|]. split; [exact Hinv|].
  intros r Hr.
  destruct (Hrows r Hr)
    as (r0 & Hr0 & (ts & Hdate & _ & _) & _ & _ & Hc & Hi & Hlat & Hlon).
  split; [exists ts; exact Hdate|]. split; [exact Hlat|]. split; [exact Hlon|].
  exists r0. split; [exact Hr0|]. split.
  - intros Hin. apply Hcity, has_column_true in Hin. rewrite Hin in Hc.
    split; [exact Hc|]. intros Hnone. rewrite Hc, Hnone.
    change (fill_unknown None) with "Unknown". rewrite Htitle. reflexivity.
  - intros Hin. apply Hinv, has_column_true in Hin. rewrite Hin in Hi.
    split; [exact Hi|]. intros Hnone. rewrite Hi, Hnone. reflexivity.
Qed.

(** C5.  In every row of the frame that [load_and_clean_data] returns, the
    Hour cell, which the script derives by writing the time of day out as
    text and reading the text back, is the hour that the direct extraction
    gives on the Time cell: it is null exactly when the Time cell is null,
    which is when the source text is missing or is not of the 12-hour
    format, and otherwise it is the hour of that time, a number below 24. *)
Theorem hour_derivation_parity (path : string) (listing : list dir_entry)
    (warnings : list string) (df : DataFrame) :
  load_and_clean_data str_title to_datetime (inr (path, listing))
  = (warnings, Ok df) ->
  exists df0,
    strip_columns (concat (read_files (all_csv_files path listing)).2) = Ok df0
    /\ forall r : row, r ∈ rows df ->
         r !! "Hour" = VNum <$> hour_direct (r !! "Time")
         /\ (r !! "Hour" = None <-> r !! "Time" = None)
         /\ (forall v, r !! "Hour" = Some v -> exists h, v = VNum h /\ h < 24)
         /\ exists r0 : row, r0 ∈ rows df0
              /\ r !! "Time" = VTime <$> time_of_cell (r0 !! "Time")
              /\ (r !! "Time" = None <-> time_of_cell (r0 !! "Time") = None).
Proof.
  intros Hload. apply load_Ok_inv in Hload.
  apply clean_Ok_inv in Hload as (df0 & Hs & _ & _ & Hrows).
  exists df0. split; [exact Hs|]. intros r Hr.
  destruct (Hrows r Hr) as (r0 & Hr0 & _ & Htime & Hhour & _).
  rewrite Hhour, Htime, hour_of_cell_time.
  destruct (time_of_cell (r0 !! "Time")) as [c|] eqn:E; simpl.
  - split; [reflexivity|]. split; [split; discriminate|]. split.
    + intros v [= <-]. exists (Clock.hour c). split; [reflexivity|].
      apply time_of_cell_ok in E. destruct E as [Hh _]. exact Hh.
    + exists r0. rewrite E. split; [exact Hr0|]. split; [reflexivity|].
      split; discriminate.
  - split; [reflexivity|]. split; [tauto|]. split; [discriminate|].
    exists r0. rewrite E. split; [exact Hr0|]. split; [reflexivity|]. tauto.
Qed.

End LoadTheorems.

(** ** The ingestion theorems on sample folders *)

Lemma NoDup_labels (l : list string) : bool_decide (NoDup l) = true -> NoDup l.
Proof. apply bool_decide_eq_true. Qed.

Lemma elem_of_labels (c : string) (l : list string) :
  bool_decide (c ∈ l) = true -> c ∈ l.
Proof. apply bool_decide_eq_true. Qed.

Lemma sample_load :
  Sample.load Sample.download
  = (["Could not read file /data/2024.csv: no columns to parse from file"],
     Ok Sample.unified).
Proof. vm_compute. reflexivity. Defined.

(** C4, the case that its amended form leaves out: a folder whose one CSV
    file reads, with a City column alone, does not yield a unified table;
    looking up the Date column raises. *)
Lemma load_without_date_column :
  Ingest.all_csv_files "/data"
    [Ingest.mkentry "2023.csv" (inr (Sample.csv ["City"] [["makati"]]))] <> []
  /\ (Ingest.read_files (Ingest.all_csv_files "/data"
        [Ingest.mkentry "2023.csv" (inr (Sample.csv ["City"] [["makati"]]))])).2
     <> []
  /\ Sample.load Sample.download_without_date = ([], Raise (KeyError "Date")).
Proof.
  split; [|split]; [vm_compute; discriminate | vm_compute; discriminate |].
  vm_compute. reflexivity.
Qed.

(** C1, the case that its amended form leaves out: a folder whose file has
    no City and no Involved column loads, and the row of the unified table
    has neither a city nor an entry for the vehicles. *)
Lemma load_without_city_column :
  exists df (r : row),
    Sample.load Sample.download_without_city = ([], Ok df)
    /\ columns df
       = ["Date"; "Time"; "Latitude"; "Longitude"; "Hour"; "Month_Year"]
    /\ rows df = [r]
    /\ r !! "City" = None
    /\ r !! "Involved" = None.
Proof.
  eexists. eexists. split; [vm_compute; reflexivity|].
  split; [reflexivity|]. split; [reflexivity|].
  split; vm_compute; reflexivity.
Qed.

Lemma ingestion_outcomes_witness :
  exists df,
    Sample.load Sample.download
    = (["Could not read file /data/2024.csv: no columns to parse from file"],
       Ok df).
Proof.
  destruct (ingestion_outcomes Sample.title Sample.mdy "/data"
              [Ingest.mkentry "2023.csv" (inr (Sample.csv Sample.header
                 [["01/02/2023"; "2:15 PM"; "makati"; "Car"; "Collision"; "14.5"; "121.0"];
                  ["01/02/2023"; "9:05 AM"; "pasig"; "Bus"; "Stalled"; "14.6"; "121.1"];
                  ["02/10/2023"; ""; "pasig"; ""; "Collision"; "14.6"; "121.0"];
                  ["02/11/2023"; "2:40 PM"; ""; "Car"; "Collision"; "14.5"; ""]]));
               Ingest.mkentry "2024.csv" (inl "no columns to parse from file");
               Ingest.mkentry "README.md" (inl "not read")])
    as (_ & _ & H).
  destruct H as [_ H]; [vm_compute; discriminate | vm_compute; discriminate |].
  apply H.
  - apply NoDup_labels. vm_compute. reflexivity.
  - apply elem_of_labels. vm_compute. reflexivity.
  - apply elem_of_labels. vm_compute. reflexivity.
  - apply elem_of_labels. vm_compute. reflexivity.
  - apply elem_of_labels. vm_compute. reflexivity.
Defined.

Lemma sample_title_Unknown : Sample.title "Unknown" = "Unknown".
Proof. reflexivity. Defined.

Lemma unified_table_invariant_witness :
  Sample.title "Unknown" = "Unknown"
  /\ forall r : row, r ∈ rows Sample.unified ->
       (exists ts, r !! "Date" = Some (VStamp ts))
       /\ is_Some (r !! "Latitude") /\ is_Some (r !! "Longitude")
       /\ (exists s, r !! "City" = Some (VStr s))
       /\ (exists s, r !! "Involved" = Some (VStr s)).
Proof.
  split; [reflexivity|].
  destruct (unified_table_invariant Sample.title Sample.mdy "/data" _ _ _
              sample_title_Unknown sample_load) as (df0 & _ & _ & _ & H).
  intros r Hr.
  destruct (H r Hr) as (Hd & Hlat & Hlon & r0 & _ & Hcity & Hinv).
  split; [exact Hd|]. split; [exact Hlat|]. split; [exact Hlon|]. split.
  - destruct Hcity as [Hc _]; [apply has_column_true; vm_compute; reflexivity|].
    eexists. exact Hc.
  - destruct Hinv as [Hi _]; [apply has_column_true; vm_compute; reflexivity|].
    eexists. exact Hi.
Defined.

Lemma hour_derivation_parity_witness :
  Sample.load Sample.download
  = (["Could not read file /data/2024.csv: no columns to parse from file"],
     Ok Sample.unified)
  /\ forall r : row, r ∈ rows Sample.unified ->
       r !! "Hour" = VNum <$> hour_direct (r !! "Time")
       /\ (r !! "Hour" = None <-> r !! "Time" = None).
Proof.
  split; [exact sample_load|].
  destruct (hour_derivation_parity Sample.title Sample.mdy "/data" _ _ _
              sample_load) as (df0 & _ & H).
  intros r Hr. destruct (H r Hr) as (H1 & H2 & _). auto.
Defined.

(** ** The chart theorems on the sample frame *)

Lemma sample_has_involved : "Involved" ∈ columns Sample.unified.
Proof. apply has_column_true. vm_compute. reflexivity. Defined.

Lemma sample_has_month_year : "Month_Year" ∈ columns Sample.unified.
Proof. apply has_column_true. vm_compute. reflexivity. Defined.

Lemma veh_counts_ranking_witness :
  sorts_descending Sample.sort_values
  /\ "Involved" ∈ columns Sample.unified
  /\ exists chart ranking,
       veh_counts Sample.sort_values Sample.unified = Ok chart
       /\ shown chart = take 10 ranking
       /\ length (shown chart) <= 10
       /\ StronglySorted (fun a b : string * nat => b.2 <= a.2) ranking.
Proof.
  split; [exact sample_sort_values_ok|]. split; [exact sample_has_involved|].
  destruct (proj1 (veh_counts_ranking Sample.sort_values sample_sort_values_ok
                     Sample.unified) sample_has_involved)
    as (chart & ranking & H1 & H2 & H3 & _ & _ & H5 & _).
  exists chart, ranking. auto.
Defined.

(** C6, the case that its amended form leaves out: the frame loaded from a
    folder whose file has a City column and no Involved column is a unified
    table; its selection for Makati has one row, and on it the vehicle
    chart, and with it the page, raises [KeyError]. *)
Lemma veh_counts_without_involved :
  exists df filtered,
    Sample.load Sample.download_without_involved = ([], Ok df)
    /\ Sidebar.min_date df = Ok (Some (mkdate 2023 1 2))
    /\ Sidebar.max_date df = Ok (Some (mkdate 2023 1 2))
    /\ Sidebar.cities df = Ok ["Makati"]
    /\ filtered_df df (mkdate 2023 1 2) (mkdate 2023 1 2) ["Makati"]
       = Ok filtered
    /\ len filtered = 1
    /\ top_metrics filtered = Ok (mkmetrics 1 "Makati" "N/A" "14:00")
    /\ veh_counts Sample.sort_values filtered = Raise (KeyError "Involved")
    /\ dashboard Sample.sort_values df [mkdate 2023 1 2; mkdate 2023 1 2]
         (mkdate 2023 1 2) (mkdate 2023 1 2) ["Makati"]
       = Raise (KeyError "Involved").
Proof.
  eexists. eexists. split; [vm_compute; reflexivity|].
  split; [vm_compute; reflexivity|]. split; [vm_compute; reflexivity|].
  split; [vm_compute; reflexivity|]. split; [vm_compute; reflexivity|].
  split; [reflexivity|]. repeat split; vm_compute; reflexivity.
Qed.

Example sample_veh_counts :
  veh_counts Sample.sort_values Sample.unified
  = Ok (Some [("Car", 1); ("Bus", 1); ("Unknown", 1)]).
Proof. vm_compute. reflexivity. Qed.

(** The count decides the order; under the first sample sort the entries of
    one count are in the order of first occurrence. *)
Example value_counts_ties :
  value_counts Sample.sort_values
    ["Bus"; "Car"; "Van"; "Car"; "Bus"; "Jeep"; "Van"; "Truck"; "Van"]
  = [("Van", 3); ("Bus", 2); ("Car", 2); ("Jeep", 1); ("Truck", 1)].
Proof. vm_compute. reflexivity. Qed.

Lemma trend_data_chronological_witness :
  "Month_Year" ∈ columns Sample.unified
  /\ exists chart,
       trend_data Sample.unified = Ok chart
       /\ StronglySorted (fun a b => String.compare a b = Lt) (shown chart).*1
       /\ trend_data Sample.reversed = trend_data Sample.unified.
Proof.
  split; [exact sample_has_month_year|].
  destruct (trend_data_chronological Sample.unified sample_has_month_year)
    as (chart & H1 & _ & _ & H4 & _ & _ & H6).
  exists chart. split; [exact H1|]. split; [exact H4|].
  apply H6; [reflexivity|]. symmetry. exact sample_rows_reversed.
Defined.

Example sample_trend_data :
  trend_data Sample.unified = Ok (Some [("2023-01", 2); ("2023-02", 1)]).
Proof. vm_compute. reflexivity. Qed.

Example groupby_size_unordered :
  groupby_size String.le ["2023-11"; "2022-12"; "2023-02"; "2022-12"; "2023-11"]
  = [("2022-12", 2); ("2023-02", 1); ("2023-11", 2)].
Proof. vm_compute. reflexivity. Qed.

(** ** The trend of a loaded and filtered frame *)

Lemma filtered_df_rows df start_date end_date selected_cities out :
  filtered_df df start_date end_date selected_cities = Ok out ->
  columns out = columns df /\ forall r : row, r ∈ rows out -> r ∈ rows df.
Proof.
  unfold filtered_df.
  destruct (column "Date" df) as [?| |]; try discriminate.
  destruct (column "City" df) as [?| |]; try discriminate.
  cbn [mbind outcome_bind mret outcome_ret]. intros [= <-].
  split; [reflexivity|]. simpl. intros r Hr.
  apply list_elem_of_filter in Hr. tauto.
Qed.

Section LoadedBuckets.
Variable str_title : string -> string.
Variable to_datetime : list (option value) -> option value -> option Timestamp.

(** The dates that [pd.to_datetime] returns are within the bounds of a
    nanosecond timestamp, so their years have four digits. *)
Hypothesis to_datetime_bounds : forall dates cell ts,
  to_datetime dates cell = Some ts -> month_ok (ts_date ts).

Lemma loaded_rows_bucket_of_date path listing warnings df :
  load_and_clean_data str_title to_datetime (inr (path, listing))
  = (warnings, Ok df) ->
  "Month_Year" ∈ columns df /\ forall r : row, r ∈ rows df -> bucket_of_date r.
Proof.
  intros Hload. apply load_Ok_inv in Hload.
  apply clean_Ok_inv in Hload as (df0 & _ & _ & Hcols & Hrows).
  split; [apply Hcols; auto|]. intros r Hr.
  destruct (Hrows r Hr) as (_ & _ & (ts & Hd & Hm & dates & cell & Hts) & _).
  exists ts. split; [exact Hd|]. split; [|exact Hm].
  eapply to_datetime_bounds. exact Hts.
Qed.

(** The trend of any selection from a loaded frame is a series of month
    labels in chronological order. *)
Lemma loaded_trend_chronological path listing warnings df start_date end_date
    selected_cities out :
  load_and_clean_data str_title to_datetime (inr (path, listing))
  = (warnings, Ok df) ->
  filtered_df df start_date end_date selected_cities = Ok out ->
  exists chart,
    trend_data out = Ok chart
    /\ Forall (fun a => exists d, month_ok d /\ a = period_str d)
         (shown chart).*1
    /\ StronglySorted
         (fun a b => forall d1 d2, month_ok d1 -> month_ok d2 ->
                       a = period_str d1 -> b = period_str d2 ->
                       month_index d1 < month_index d2)
         (shown chart).*1.
Proof.
  intros Hload Hf. apply loaded_rows_bucket_of_date in Hload as [Hc Hb].
  apply filtered_df_rows in Hf as [Hcols Hsub].
  destruct (trend_data_shown out) as (chart & Hrun & Hshown & _).
  { rewrite Hcols. exact Hc. }
  exists chart. split; [exact Hrun|]. rewrite Hshown. split.
  - apply groupby_size_month_labels. intros r Hr. apply Hb, Hsub, Hr.
  - apply groupby_size_chronological.
Qed.

End LoadedBuckets.

(** ** The scenario of two files, one of them unreadable *)

Example one_garbage_file :
  exists r : row,
    Sample.load
      (inr ("/data",
            [Ingest.mkentry "a.csv" (inr (Sample.csv
               ["Date"; "Time"; "City"; "Latitude"; "Longitude"]
               [["01/02/2023"; "2:15 PM"; "makati"; "14.5"; "121.0"]]));
             Ingest.mkentry "b.csv" (inl "codec can't decode bytes")]))
    = (["Could not read file /data/b.csv: codec can't decode bytes"],
       Ok {| columns := ["Date"; "Time"; "City"; "Latitude"; "Longitude";
                         "Hour"; "Month_Year"];
             rows := [r] |})
    /\ r !! "City" = Some (VStr "Makati")
    /\ r !! "Hour" = Some (VNum 14)
    /\ r !! "Month_Year" = Some (VStr "2023-01").
Proof.
  eexists. split; [vm_compute; reflexivity|].
  repeat split; vm_compute; reflexivity.
Qed.

(** A row with a latitude and no longitude is not in the unified table. *)
Example row_without_longitude :
  exists df,
    Sample.load
      (inr ("/data",
            [Ingest.mkentry "a.csv" (inr (Sample.csv
               ["Date"; "Time"; "City"; "Latitude"; "Longitude"]
               [["01/02/2023"; "2:15 PM"; "makati"; "14.5"; ""]]))]))
    = ([], Ok df)
    /\ rows df = [].
Proof. eexists. split; [vm_compute; reflexivity | reflexivity]. Qed.

(** * Part III: the rest of the page *)

Import Sidebar Widgets Unified.

(** ** The texts of the page *)

Lemma filter_Forall_id {A} (P : A -> Prop) `{forall x, Decision (P x)} (l : list A) :
  Forall P l -> filter P l = l.
Proof.
  induction 1 as [|x l Hx Hl IH]; [reflexivity|].
  rewrite filter_cons, decide_True by exact Hx. rewrite IH. reflexivity.
Qed.

Lemma commas_rev_cons4 a b c d rest :
  commas_rev (a :: b :: c :: d :: rest)
  = a :: b :: c :: ","%char :: commas_rev (d :: rest).
Proof. reflexivity. Qed.

Lemma commas_rev_short ds : length ds <= 3 -> commas_rev ds = ds.
Proof.
  destruct ds as [|a [|b [|c [|d rest]]]]; try reflexivity.
  simpl. lia.
Qed.

(** Taking the commas out again gives the digits back. *)
Lemma commas_rev_strip n : forall ds,
  length ds <= n -> Forall (fun a => a <> ","%char) ds ->
  filter (fun a => a <> ","%char) (commas_rev ds) = ds.
Proof.
  induction n as [|n IH]; intros ds Hlen Hall.
  - destruct ds; [reflexivity | simpl in Hlen; lia].
  - destruct ds as [|a [|b [|c [|d rest]]]];
      try (rewrite commas_rev_short by (simpl; lia);
           apply filter_Forall_id; exact Hall).
    rewrite commas_rev_cons4.
    apply Forall_cons in Hall as [Ha Hall].
    apply Forall_cons in Hall as [Hb Hall].
    apply Forall_cons in Hall as [Hc Hall].
    rewrite !filter_cons.
    rewrite (decide_True _ _ Ha), (decide_True _ _ Hb), (decide_True _ _ Hc).
    rewrite decide_False by (intros Hne; apply Hne; reflexivity).
    rewrite IH; [reflexivity | simpl in *; lia | exact Hall].
Qed.

(** The commas stand at every fourth place, and nowhere else. *)
Lemma commas_rev_places n : forall ds i a,
  length ds <= n -> Forall (fun a => a <> ","%char) ds ->
  commas_rev ds !! i = Some a -> (a = ","%char <-> i mod 4 = 3).
Proof.
  induction n as [|n IH]; intros ds i a Hlen Hall Hi.
  - destruct ds; [discriminate | simpl in Hlen; lia].
  - destruct ds as [|a0 [|b [|c [|d rest]]]].
    1-4: rewrite commas_rev_short in Hi by (simpl; lia);
      assert (Hlt : i < 3)
        by (apply lookup_lt_Some in Hi; simpl in Hi; lia);
      assert (Hin : a ∈ _) by (eapply list_elem_of_lookup_2; exact Hi);
      rewrite Forall_forall in Hall; specialize (Hall a Hin);
      rewrite Nat.mod_small by lia; split; [contradiction | lia].
    rewrite commas_rev_cons4 in Hi.
    apply Forall_cons in Hall as [Ha Hall].
    apply Forall_cons in Hall as [Hb Hall].
    apply Forall_cons in Hall as [Hc Hall].
    destruct i as [|[|[|[|j]]]]; simpl in Hi.
    + injection Hi as <-. split; [contradiction | discriminate].
    + injection Hi as <-. split; [contradiction | discriminate].
    + injection Hi as <-. split; [contradiction | discriminate].
    + injection Hi as <-. split; reflexivity.
    + replace (S (S (S (S j)))) with (j + 1 * 4) by lia.
      rewrite Nat.Div0.mod_add.
      apply (IH (d :: rest)); [simpl in *; lia | exact Hall | exact Hi].
Qed.

(** A number written backwards with its commas ends in a digit. *)
Lemma commas_rev_last n : forall ds,
  length ds <= n -> Forall (fun a => a <> ","%char) ds ->
  last (commas_rev ds) <> Some ","%char.
Proof.
  induction n as [|n IH]; intros ds Hlen Hall.
  - destruct ds; [discriminate | simpl in Hlen; lia].
  - destruct ds as [|a0 [|b [|c [|d rest]]]].
    1-4: rewrite commas_rev_short by (simpl; lia);
      intros Hl; apply last_Some_elem_of in Hl;
      rewrite Forall_forall in Hall; apply (Hall _ Hl); reflexivity.
    rewrite commas_rev_cons4.
    apply Forall_cons in Hall as [_ Hall].
    apply Forall_cons in Hall as [_ Hall].
    apply Forall_cons in Hall as [_ Hall].
    assert (Hne : commas_rev (d :: rest) <> []).
    { destruct rest as [|? [|? [|? ?]]]; discriminate. }
    destruct (commas_rev (d :: rest)) as [|x l] eqn:E; [contradiction|].
    change (last (a0 :: b :: c :: ","%char :: x :: l)) with (last (x :: l)).
    rewrite <- E. apply IH; [simpl in *; lia | exact Hall].
Qed.

Lemma string_of_uint_digits u :
  Forall (fun a => a <> ","%char)
    (list_ascii_of_string (NilEmpty.string_of_uint u)).
Proof.
  induction u; simpl; constructor; try discriminate; assumption.
Qed.

(** X1.  The count written with thousands separators is the decimal text of
    the count with commas put in: taking the commas out gives the decimal
    text back; counted from the right end, every fourth character is a
    comma and no other character is; and the text does not begin with a
    comma. *)
Theorem format_thousands_groups (n : nat) :
  let text := list_ascii_of_string (format_thousands n) in
  string_of_list_ascii (filter (fun a => a <> ","%char) text) = decimal n
  /\ (forall i a, reverse text !! i = Some a ->
        (a = ","%char <-> i mod 4 = 3))
  /\ head text <> Some ","%char.
Proof.
  intros text. unfold text, format_thousands.
  rewrite list_ascii_of_string_of_list_ascii.
  set (ds := reverse (list_ascii_of_string (decimal n))).
  assert (Hds : Forall (fun a => a <> ","%char) ds).
  { unfold ds. rewrite Forall_reverse. apply string_of_uint_digits. }
  split; [|split].
  - rewrite filter_reverse, (commas_rev_strip (length ds)) by auto.
    unfold ds. rewrite reverse_involutive.
    apply string_of_list_ascii_of_string.
  - intros i a. rewrite reverse_involutive.
    apply (commas_rev_places (length ds)); auto.
  - rewrite head_reverse. apply (commas_rev_last (length ds)); auto.
Qed.

Example thousands_of_count : format_thousands (12 * 1000 + 345) = "12,345".
Proof. vm_compute. reflexivity. Qed.

Example thousands_of_small_count : format_thousands 999 = "999".
Proof. vm_compute. reflexivity. Qed.

(** X2.  A longer text never gets a larger font: once a text is shown at
    18px every text at least as long is, and every text no longer than one
    shown at 32px is shown at 32px; the sizes are the three of the
    script. *)
Theorem font_size_antitone (t1 t2 : string) :
  String.length t1 <= String.length t2 ->
  (font_size t1 = "18px" -> font_size t2 = "18px")
  /\ (font_size t2 = "32px" -> font_size t1 = "32px")
  /\ (font_size t1 = "24px" -> font_size t2 <> "32px")
  /\ (font_size t1 = "18px" \/ font_size t1 = "24px" \/ font_size t1 = "32px").
Proof.
  intros Hle. unfold font_size.
  destruct (Nat.ltb_spec 20 (String.length t1)),
    (Nat.ltb_spec 12 (String.length t1)),
    (Nat.ltb_spec 20 (String.length t2)),
    (Nat.ltb_spec 12 (String.length t2));
    repeat split; intros; try discriminate; try reflexivity; try lia; auto.
Qed.

Lemma font_size_antitone_witness :
  String.length "Collision" <= String.length "Multiple Vehicle Collision"
  /\ (font_size "Multiple Vehicle Collision" = "32px" ->
      font_size "Collision" = "32px").
Proof.
  split; [vm_compute; lia|].
  apply (font_size_antitone "Collision" "Multiple Vehicle Collision").
  vm_compute. lia.
Defined.

(** ** The folder *)

Lemma all_csv_files_filter path listing :
  all_csv_files path
    (filter (fun e => ends_with ".csv" (entry_name e) = true) listing)
  = all_csv_files path listing.
Proof.
  unfold all_csv_files. f_equal.
  induction listing as [|e l IH]; [reflexivity|].
  rewrite filter_cons.
  destruct (decide (ends_with ".csv" (entry_name e) = true)) as [He|He];
    [|exact IH].
  rewrite filter_cons, decide_True by exact He. rewrite IH. reflexivity.
Qed.

Lemma read_files_length files :
  length (read_files files).1 + length (read_files files).2 = length files.
Proof.
  induction files as [|[file [e|temp_df]] rest IH]; [reflexivity| |];
    cbn [read_files]; destruct (read_files rest) as [warnings df_list];
    cbn [fst snd length] in *; lia.
Qed.

Section FolderFacts.
Variable str_title : string -> string.
Variable to_datetime : list (option value) -> option value -> option Timestamp.

Lemma load_warnings path listing :
  (load_and_clean_data str_title to_datetime (inr (path, listing))).1
  = (read_files (all_csv_files path listing)).1.
Proof.
  rewrite load_unfold.
  destruct (all_csv_files path listing) as [|f files] eqn:E; [reflexivity|].
  destruct (read_files (f :: files)).2; reflexivity.
Qed.

(** X3.  Only the entries of the folder whose name ends in ".csv" count:
    the session is the one of the folder without the other entries, and
    each such entry either joins the frames that are combined or leaves one
    warning, never both. *)
Theorem load_reads_csv_entries (path : string) (listing : list dir_entry) :
  let csv_entries :=
    filter (fun e => ends_with ".csv" (entry_name e) = true) listing in
  load_and_clean_data str_title to_datetime (inr (path, listing))
  = load_and_clean_data str_title to_datetime (inr (path, csv_entries))
  /\ length (load_and_clean_data str_title to_datetime (inr (path, listing))).1
     + length (read_files (all_csv_files path listing)).2
     = length csv_entries.
Proof.
  intros csv_entries. split.
  - rewrite !load_unfold. unfold csv_entries.
    rewrite all_csv_files_filter. reflexivity.
  - rewrite load_warnings, read_files_length.
    unfold all_csv_files, csv_entries. apply length_fmap.
Qed.

End FolderFacts.

(** ** The trimmed labels *)

Lemma lookup_relabel_None labels (r : row) c' :
  c' ∉ strip <$> labels -> relabel labels r !! c' = None.
Proof.
  unfold relabel. induction labels as [|a l IH]; intros Hc; [reflexivity|].
  rewrite fmap_cons, not_elem_of_cons in Hc. destruct Hc as [Hne Hc].
  cbn [omap list_omap]. destruct (r !! a) as [v|]; cbn [fmap option_fmap option_map].
  - cbn [list_to_map foldr]. rewrite lookup_insert_ne
      by (intros Heq; apply Hne; symmetry; exact Heq).
    apply IH, Hc.
  - apply IH, Hc.
Qed.

Lemma lookup_relabel labels (r : row) c :
  NoDup (strip <$> labels) -> c ∈ labels ->
  relabel labels r !! strip c = r !! c.
Proof.
  induction labels as [|a l IH]; intros Hnd Hc; [inversion Hc|].
  rewrite fmap_cons in Hnd. apply NoDup_cons in Hnd as [Ha Hnd].
  assert (Hstep : relabel (a :: l) r
    = match r !! a with
      | Some v => <[strip a := v]> (relabel l r)
      | None => relabel l r
      end).
  { unfold relabel. cbn [omap list_omap]. destruct (r !! a); reflexivity. }
  rewrite Hstep. apply elem_of_cons in Hc as [->|Hc].
  - destruct (r !! a) as [v|] eqn:E.
    + apply lookup_insert_eq.
    + apply lookup_relabel_None, Ha.
  - assert (Hne : strip a <> strip c).
    { intros Heq. apply Ha. rewrite Heq. apply list_elem_of_fmap. exists c. split; [reflexivity | exact Hc]. }
    destruct (r !! a) as [v|].
    + rewrite lookup_insert_ne by exact Hne. apply IH; assumption.
    + apply IH; assumption.
Qed.

Lemma strip_columns_labels (df df' : DataFrame) :
  strip_columns df = Ok df' ->
  columns df' = strip <$> columns df /\ NoDup (columns df').
Proof.
  unfold strip_columns.
  destruct (bool_decide (NoDup (strip <$> columns df))) eqn:E; [|discriminate].
  apply bool_decide_eq_true in E. intros [= <-]. split; [reflexivity | exact E].
Qed.

(** X4.  Trimming the column labels keeps the rows in their order and every
    cell under the trimmed form of its label; the trimmed labels are
    distinct and a row has no cell under any other label. *)
Theorem strip_columns_cells (df df' : DataFrame) :
  strip_columns df = Ok df' ->
  columns df' = strip <$> columns df
  /\ NoDup (columns df')
  /\ Forall2 (fun r r' : row =>
                (forall c, c ∈ columns df -> r' !! strip c = r !! c)
                /\ (forall c', c' ∉ columns df' -> r' !! c' = None))
       (rows df) (rows df').
Proof.
  unfold strip_columns.
  destruct (bool_decide (NoDup (strip <$> columns df))) eqn:E; [|discriminate].
  apply bool_decide_eq_true in E. intros [= <-]. cbn [columns rows].
  split; [reflexivity|]. split; [exact E|].
  apply Forall2_fmap_r, Forall_Forall2_diag, Forall_forall.
  intros r _. split.
  - intros c Hc. apply lookup_relabel; assumption.
  - intros c' Hc'. apply lookup_relabel_None, Hc'.
Qed.

Lemma strip_columns_cells_witness :
  strip_columns (Sample.csv [" Date"; "City "] [["01/02/2023"; "makati"]])
  = Ok {| columns := ["Date"; "City"];
          rows := [{[ "Date" := VStr "01/02/2023"; "City" := VStr "makati" ]}] |}
  /\ NoDup ["Date"; "City"].
Proof.
  assert (H : strip_columns
                (Sample.csv [" Date"; "City "] [["01/02/2023"; "makati"]])
              = Ok {| columns := ["Date"; "City"];
                      rows := [{[ "Date" := VStr "01/02/2023";
                                  "City" := VStr "makati" ]}] |})
    by (vm_compute; reflexivity).
  split; [exact H|].
  exact (proj1 (proj2 (strip_columns_cells _ _ H))).
Defined.

(** ** The unified frame *)

Section UnifiedFacts.
Variable str_title : string -> string.
Variable to_datetime : list (option value) -> option value -> option Timestamp.

(** The frame that [load_and_clean_data] returns is a unified frame. *)
Lemma loaded_frame_ok path listing warnings df :
  load_and_clean_data str_title to_datetime (inr (path, listing))
  = (warnings, Ok df) ->
  frame_ok df.
Proof.
  intros Hload. apply load_Ok_inv in Hload.
  apply clean_Ok_inv in Hload
    as (df0 & Hs & (Hd & Ht & Hla & Hlo) & Hcols & Hrows).
  split.
  - repeat constructor; apply Hcols; auto.
  - intros r Hr.
    destruct (Hrows r Hr)
      as (r0 & Hr0 & (ts & Hdate & Hmy & _) & Htime & Hhour & Hc & Hi
          & Hlat & Hlon).
    split; [exists ts; auto|]. split; [exact Hlat|]. split; [exact Hlon|].
    split; [|split; [|split]].
    + rewrite Htime.
      destruct (time_of_cell (r0 !! "Time")) as [c|] eqn:E; [right | left; reflexivity].
      exists c. split; [reflexivity|]. eapply time_of_cell_ok. exact E.
    + rewrite Hhour, Htime, hour_of_cell_time. reflexivity.
    + intros Hin. apply Hcols in Hin as [Hin|[?|?]]; try discriminate.
      apply has_column_true in Hin. rewrite Hin in Hc. eexists. exact Hc.
    + intros Hin. apply Hcols in Hin as [Hin|[?|?]]; try discriminate.
      apply has_column_true in Hin. rewrite Hin in Hi. eexists. exact Hi.
Qed.

End UnifiedFacts.

(** A selection from a unified frame is a unified frame. *)
Lemma filtered_frame_ok df start_date end_date selected_cities out :
  frame_ok df ->
  filtered_df df start_date end_date selected_cities = Ok out ->
  frame_ok out.
Proof.
  intros [Hcols Hrows] Hf. apply filtered_df_rows in Hf as [Hc Hsub].
  split; rewrite Hc; [exact Hcols|]. intros r Hr. apply Hrows, Hsub, Hr.
Qed.

Lemma frame_ok_column c df :
  frame_ok df ->
  c ∈ ["Date"; "Time"; "Latitude"; "Longitude"; "Hour"; "Month_Year"] ->
  c ∈ columns df.
Proof.
  intros [Hcols _] Hc. rewrite Forall_forall in Hcols. apply Hcols, Hc.
Qed.

Lemma frame_ok_date df (r : row) :
  frame_ok df -> r ∈ rows df -> exists ts, r !! "Date" = Some (VStamp ts).
Proof.
  intros [_ Hrows] Hr. destruct (Hrows r Hr) as ((ts & Hd & _) & _).
  exists ts. exact Hd.
Qed.

Lemma frame_ok_city df (r : row) :
  frame_ok df -> "City" ∈ columns df -> r ∈ rows df ->
  exists s, r !! "City" = Some (VStr s).
Proof.
  intros [_ Hrows] Hc Hr.
  destruct (Hrows r Hr) as (_ & _ & _ & _ & _ & Hcity & _). apply Hcity, Hc.
Qed.

Lemma sample_frame_ok : frame_ok Sample.unified.
Proof.
  exact (loaded_frame_ok Sample.title Sample.mdy "/data" _ _ _ sample_load).
Defined.

(** ** The date span of the sidebar *)

Lemma date_leb_spec a b :
  date_leb a b = true <->
  year a < year b
  \/ year a = year b
     /\ (month a < month b \/ month a = month b /\ day a <= day b).
Proof.
  unfold date_leb, date_compare.
  destruct (Nat.compare_spec (year a) (year b));
    destruct (Nat.compare_spec (month a) (month b));
    destruct (Nat.compare_spec (day a) (day b));
    split; intros; try reflexivity; try discriminate; lia.
Qed.

Lemma date_leb_trans a b c :
  date_leb a b = true -> date_leb b c = true -> date_leb a c = true.
Proof. rewrite !date_leb_spec. lia. Qed.

Lemma date_leb_total a b : date_leb a b = true \/ date_leb b a = true.
Proof. rewrite !date_leb_spec. lia. Qed.

Lemma stamp_leb_spec a b :
  stamp_leb a b = true <->
  date_leb (ts_date a) (ts_date b) = true
  /\ (ts_date a = ts_date b ->
      clock_seconds (ts_clock a) <= clock_seconds (ts_clock b)).
Proof.
  unfold stamp_leb, date_leb.
  destruct (date_compare (ts_date a) (ts_date b)) eqn:E.
  - pose proof (date_compare_eq _ _ E) as Heq. rewrite Nat.leb_le.
    split; [intros H; split; [reflexivity | intros _; exact H]|].
    intros [_ H]. apply H, Heq.
  - split; [|reflexivity]. intros _. split; [reflexivity|].
    intros Heq. rewrite Heq in E.
    pose proof (date_leb_refl (ts_date b)) as Hr. unfold date_leb in Hr.
    rewrite (date_compare_antisym (ts_date b) (ts_date b)) in E.
    destruct (date_compare (ts_date b) (ts_date b)); discriminate.
  - split; [discriminate | intros [? _]; discriminate].
Qed.

Lemma stamp_leb_trans a b c :
  stamp_leb a b = true -> stamp_leb b c = true -> stamp_leb a c = true.
Proof.
  rewrite !stamp_leb_spec. intros [H1 H1'] [H2 H2']. split.
  - eapply date_leb_trans; eassumption.
  - intros Heq. rewrite Heq in H1.
    pose proof (date_leb_antisym _ _ H2 H1) as Hbc.
    assert (Hab : ts_date a = ts_date b) by congruence.
    specialize (H1' Hab). specialize (H2' Hbc). lia.
Qed.

Lemma stamp_leb_total a b : stamp_leb a b = true \/ stamp_leb b a = true.
Proof.
  rewrite !stamp_leb_spec.
  pose proof (date_leb_total (ts_date a) (ts_date b)) as Htot.
  pose proof (date_leb_antisym (ts_date a) (ts_date b)) as Hanti.
  destruct (date_leb (ts_date a) (ts_date b)) eqn:E1,
    (date_leb (ts_date b) (ts_date a)) eqn:E2.
  - destruct (Nat.le_ge_cases (clock_seconds (ts_clock a))
                (clock_seconds (ts_clock b))); [left | right]; auto.
  - left. split; [reflexivity|]. intros Heq. rewrite Heq in E2.
    rewrite date_leb_refl in E2. discriminate.
  - right. split; [reflexivity|]. intros Heq. rewrite Heq in E1.
    rewrite date_leb_refl in E1. discriminate.
  - destruct Htot; discriminate.
Qed.

Section Least.
Context {A : Type} (leb : A -> A -> bool).
Hypothesis leb_trans : forall a b c,
  leb a b = true -> leb b c = true -> leb a c = true.
Hypothesis leb_total : forall a b, leb a b = true \/ leb b a = true.

Lemma least_None l : least leb l = None <-> l = [].
Proof.
  destruct l as [|x l]; [tauto|]. simpl.
  destruct (least leb l); split; discriminate.
Qed.

Lemma least_Some l m :
  least leb l = Some m -> m ∈ l /\ forall x, x ∈ l -> leb m x = true.
Proof.
  assert (Hrefl : forall a, leb a a = true)
    by (intros a; destruct (leb_total a a); assumption).
  revert m. induction l as [|t l IH]; intros m; [discriminate|].
  change (least leb (t :: l))
    with (match least leb l with
          | None => Some t
          | Some u => Some (if leb t u then t else u)
          end).
  destruct (least leb l) as [u|] eqn:E.
  - destruct (IH u eq_refl) as [Hu Hall].
    destruct (leb t u) eqn:Etu; intros [= <-].
    + split; [left|]. intros x Hx.
      apply elem_of_cons in Hx as [Hx|Hx]; [rewrite Hx; apply Hrefl|].
      eapply leb_trans; [exact Etu | apply Hall, Hx].
    + split; [right; exact Hu|]. intros x Hx.
      apply elem_of_cons in Hx as [Hx|Hx]; [rewrite Hx | apply Hall, Hx].
      destruct (leb_total u t) as [?|Hc]; [assumption | congruence].
  - apply least_None in E. subst l. intros [= <-].
    split; [left|]. intros x Hx.
    apply elem_of_cons in Hx as [Hx|Hx]; [rewrite Hx; apply Hrefl|].
    inversion Hx.
Qed.

End Least.

Lemma elem_of_stamps_of (l : list row) ts :
  ts ∈ stamps_of ((fun r : row => r !! "Date") <$> l) <->
  exists r : row, r ∈ l /\ r !! "Date" ≫= as_stamp = Some ts.
Proof.
  unfold stamps_of. rewrite list_elem_of_omap. split.
  - intros (c & Hc & Hts). apply list_elem_of_fmap in Hc as (r & -> & Hr).
    exists r. auto.
  - intros (r & Hr & Hts). exists (r !! "Date"). split; [|exact Hts].
    apply list_elem_of_fmap. exists r. auto.
Qed.

Lemma date_of_stamp (r : row) d :
  date_of r = Some d <->
  exists ts, r !! "Date" ≫= as_stamp = Some ts /\ ts_date ts = d.
Proof.
  unfold date_of. destruct (r !! "Date" ≫= as_stamp) as [ts|]; simpl.
  - split; [intros [= <-]; eauto | intros (? & [= <-] & <-); reflexivity].
  - split; [discriminate | intros (? & ? & _); discriminate].
Qed.

Lemma min_date_Some df a :
  min_date df = Ok (Some a) ->
  (exists r : row, r ∈ rows df /\ date_of r = Some a)
  /\ forall (r : row) d, r ∈ rows df -> date_of r = Some d ->
       date_leb a d = true.
Proof.
  unfold min_date. destruct (column "Date" df) as [cells| |] eqn:Ec;
    try discriminate.
  apply column_Ok_inv in Ec as [_ ->].
  cbn [mbind outcome_bind mret outcome_ret]. intros [= Hm].
  apply fmap_Some in Hm as (ta & Hta & ->).
  apply (least_Some stamp_leb stamp_leb_trans stamp_leb_total) in Hta
    as [Hta Hlo].
  split.
  - apply elem_of_stamps_of in Hta as (r & Hr & Hts). exists r.
    split; [exact Hr|]. apply date_of_stamp. eauto.
  - intros r d Hr Hdate. apply date_of_stamp in Hdate as (ts & Hts & <-).
    apply (proj1 (stamp_leb_spec _ _)), Hlo, elem_of_stamps_of. eauto.
Qed.

Lemma max_date_Some df b :
  max_date df = Ok (Some b) ->
  (exists r : row, r ∈ rows df /\ date_of r = Some b)
  /\ forall (r : row) d, r ∈ rows df -> date_of r = Some d ->
       date_leb d b = true.
Proof.
  unfold max_date. destruct (column "Date" df) as [cells| |] eqn:Ec;
    try discriminate.
  apply column_Ok_inv in Ec as [_ ->].
  cbn [mbind outcome_bind mret outcome_ret]. intros [= Hm].
  apply fmap_Some in Hm as (tb & Htb & ->).
  apply (least_Some (fun a b => stamp_leb b a)) in Htb as [Htb Hhi];
    [|intros x y z H1 H2; eapply stamp_leb_trans; eassumption
     |intros x y; apply stamp_leb_total].
  split.
  - apply elem_of_stamps_of in Htb as (r & Hr & Hts). exists r.
    split; [exact Hr|]. apply date_of_stamp. eauto.
  - intros r d Hr Hdate. apply date_of_stamp in Hdate as (ts & Hts & <-).
    apply (proj1 (stamp_leb_spec _ _)), Hhi, elem_of_stamps_of. eauto.
Qed.

Lemma stamps_of_nil (l : list row) :
  stamps_of ((fun r : row => r !! "Date") <$> l) = [] <->
  forall r : row, r ∈ l -> date_of r = None.
Proof.
  split.
  - intros E r Hr. destruct (date_of r) as [d|] eqn:Ed; [|reflexivity].
    apply date_of_stamp in Ed as (ts & Hts & _).
    assert (Hx : ts ∈ stamps_of ((fun r : row => r !! "Date") <$> l))
      by (apply elem_of_stamps_of; eauto).
    rewrite E in Hx. inversion Hx.
  - intros Hall.
    destruct (stamps_of ((fun r : row => r !! "Date") <$> l)) as [|ts k] eqn:E;
      [reflexivity|].
    assert (Hx : ts ∈ stamps_of ((fun r : row => r !! "Date") <$> l))
      by (rewrite E; left).
    apply elem_of_stamps_of in Hx as (r & Hr & Hts). specialize (Hall r Hr).
    unfold date_of in Hall. rewrite Hts in Hall. discriminate.
Qed.

(** X5.  On a frame with a Date column the two ends of the date span are
    both dates or both missing, and they are missing exactly when no row
    has a date; otherwise each of them is the date of some row, and the
    date of every row lies between them. *)
Theorem date_span_bounds (df : DataFrame) :
  "Date" ∈ columns df ->
  exists lo hi,
    min_date df = Ok lo /\ max_date df = Ok hi
    /\ (lo = None <-> forall r : row, r ∈ rows df -> date_of r = None)
    /\ (lo = None <-> hi = None)
    /\ forall a b, lo = Some a -> hi = Some b ->
         (exists r : row, r ∈ rows df /\ date_of r = Some a)
         /\ (exists r : row, r ∈ rows df /\ date_of r = Some b)
         /\ forall (r : row) d, r ∈ rows df -> date_of r = Some d ->
              date_leb a d = true /\ date_leb d b = true.
Proof.
  intros Hd.
  destruct (min_date df) as [lo| |] eqn:Emin;
    try (unfold min_date in Emin; rewrite (column_Ok _ _ Hd) in Emin;
         discriminate).
  destruct (max_date df) as [hi| |] eqn:Emax;
    try (unfold max_date in Emax; rewrite (column_Ok _ _ Hd) in Emax;
         discriminate).
  exists lo, hi. split; [reflexivity|]. split; [reflexivity|].
  assert (Hlo : lo = None <->
            stamps_of ((fun r : row => r !! "Date") <$> rows df) = []).
  { unfold min_date in Emin. rewrite (column_Ok _ _ Hd) in Emin.
    injection Emin as <-. rewrite fmap_None. apply least_None. }
  assert (Hhi : hi = None <->
            stamps_of ((fun r : row => r !! "Date") <$> rows df) = []).
  { unfold max_date in Emax. rewrite (column_Ok _ _ Hd) in Emax.
    injection Emax as <-. rewrite fmap_None. apply least_None. }
  split; [|split].
  - rewrite Hlo. apply stamps_of_nil.
  - rewrite Hlo, Hhi. reflexivity.
  - intros a b -> ->.
    apply min_date_Some in Emin as [Ha Hmin].
    apply max_date_Some in Emax as [Hb Hmax].
    split; [exact Ha|]. split; [exact Hb|]. intros r d Hr Hdate. split.
    + eapply Hmin; eassumption.
    + eapply Hmax; eassumption.
Qed.

Lemma date_span_bounds_witness :
  "Date" ∈ columns Sample.unified
  /\ exists lo hi,
       min_date Sample.unified = Ok lo /\ max_date Sample.unified = Ok hi
       /\ (lo = None <-> hi = None).
Proof.
  split; [exact sample_has_date|].
  destruct (date_span_bounds Sample.unified sample_has_date)
    as (lo & hi & Hlo & Hhi & _ & Hboth & _).
  exists lo, hi. auto.
Defined.

Lemma sample_min_date : min_date Sample.unified = Ok (Some (mkdate 2023 1 2)).
Proof. vm_compute. reflexivity. Defined.

Lemma sample_max_date : max_date Sample.unified = Ok (Some (mkdate 2023 2 10)).
Proof. vm_compute. reflexivity. Defined.

(** ** The city options *)

Lemma cities_elem df cs :
  cities df = Ok cs ->
  forall s, s ∈ cs <->
    exists r : row, r ∈ rows df /\ r !! "City" ≫= as_str = Some s.
Proof.
  unfold cities. destruct (column "City" df) as [cells| |] eqn:Ec;
    try discriminate.
  apply column_Ok_inv in Ec as [_ ->].
  cbn [mbind outcome_bind mret outcome_ret]. intros [= <-] s.
  rewrite merge_sort_Permutation, elem_of_first_seen.
  unfold strings_of. rewrite list_elem_of_omap. split.
  - intros (c & Hc & Hs). apply list_elem_of_fmap in Hc as (r & -> & Hr).
    exists r. auto.
  - intros (r & Hr & Hs). exists (r !! "City"). split; [|exact Hs].
    apply list_elem_of_fmap. exists r. auto.
Qed.

Lemma cities_sorted df cs :
  cities df = Ok cs -> StronglySorted (fun a b => String.compare a b = Lt) cs.
Proof.
  unfold cities. destruct (column "City" df) as [cells| |]; try discriminate.
  cbn [mbind outcome_bind mret outcome_ret]. intros [= <-].
  rewrite <- groupby_size_keys. apply groupby_size_sorted.
Qed.

(** X6.  The city options of a frame whose City cells are texts are the
    cities of its rows, each once, in ascending order; the selection that
    the box opens with is the first five of them, or all of them when
    there are fewer, so each city it leaves out sorts after each city it
    holds. *)
Theorem cities_options (df : DataFrame) (cs : list string) :
  cities df = Ok cs ->
  (forall r : row, r ∈ rows df -> exists s, r !! "City" = Some (VStr s)) ->
  StronglySorted (fun a b => String.compare a b = Lt) cs
  /\ (forall r : row, r ∈ rows df ->
        exists s, s ∈ cs /\ r !! "City" = Some (VStr s))
  /\ (forall s, s ∈ cs ->
        exists r : row, r ∈ rows df /\ r !! "City" = Some (VStr s))
  /\ default_cities cs `prefix_of` cs
  /\ length (default_cities cs) = Nat.min 5 (length cs)
  /\ forall a b, a ∈ default_cities cs -> b ∈ cs -> b ∉ default_cities cs ->
       String.compare a b = Lt.
Proof.
  intros Hcs Htext. pose proof (cities_sorted _ _ Hcs) as Hsorted.
  split; [exact Hsorted|]. split; [|split; [|split; [|split]]].
  - intros r Hr. destruct (Htext r Hr) as [s Hs]. exists s.
    split; [|exact Hs]. apply (cities_elem _ _ Hcs). exists r.
    rewrite Hs. auto.
  - intros s Hs. apply (cities_elem _ _ Hcs) in Hs as (r & Hr & Hs).
    exists r. split; [exact Hr|]. destruct (Htext r Hr) as [s' Hs'].
    rewrite Hs' in Hs |- *. injection Hs as <-. reflexivity.
  - apply prefix_take.
  - apply length_take.
  - unfold default_cities. intros a b Ha Hb Hnb.
    rewrite <- (take_drop 5 cs) in Hsorted, Hb.
    apply elem_of_app in Hb as [Hb|Hb]; [exfalso; exact (Hnb Hb)|].
    exact (StronglySorted_app_1_elem_of
             (fun a b => String.compare a b = Lt) _ _ a b Hsorted Ha Hb).
Qed.

Lemma sample_cities : cities Sample.unified = Ok ["Makati"; "Pasig"].
Proof. vm_compute. reflexivity. Defined.

Lemma cities_options_witness :
  cities Sample.unified = Ok ["Makati"; "Pasig"]
  /\ (forall r : row, r ∈ rows Sample.unified ->
        exists s, r !! "City" = Some (VStr s))
  /\ default_cities ["Makati"; "Pasig"] `prefix_of` ["Makati"; "Pasig"].
Proof.
  split; [exact sample_cities|].
  assert (Htext : forall r : row, r ∈ rows Sample.unified ->
                    exists s, r !! "City" = Some (VStr s))
    by (intros r; apply (frame_ok_city _ _ sample_frame_ok sample_has_city)).
  split; [exact Htext|].
  exact (proj1 (proj2 (proj2 (proj2
           (cities_options Sample.unified _ sample_cities Htext))))).
Defined.

(** ** The selection *)

Lemma filter_ext_elem {A} (P Q : A -> Prop) `{forall x, Decision (P x)}
    `{forall x, Decision (Q x)} (l : list A) :
  (forall x, x ∈ l -> P x <-> Q x) -> filter P l = filter Q l.
Proof.
  induction l as [|x l IH]; intros Hext; [reflexivity|].
  rewrite !filter_cons.
  assert (Hx : P x <-> Q x) by (apply Hext; left).
  rewrite IH by (intros y Hy; apply Hext; right; exact Hy).
  destruct (decide (P x)), (decide (Q x)); tauto.
Qed.

Lemma sublist_filter_impl {A} (P Q : A -> Prop) `{forall x, Decision (P x)}
    `{forall x, Decision (Q x)} (l : list A) :
  (forall x, P x -> Q x) -> filter P l `sublist_of` filter Q l.
Proof.
  intros Himp. induction l as [|x l IH]; [constructor|].
  rewrite !filter_cons.
  destruct (decide (P x)) as [Hp|Hp], (decide (Q x)) as [Hq|Hq].
  - apply sublist_skip, IH.
  - exfalso. apply Hq, Himp, Hp.
  - apply sublist_cons, IH.
  - exact IH.
Qed.

Lemma select_dates_span date_range lo hi :
  date_range = [lo; hi]
  \/ length date_range <> 1 /\ length date_range <> 2 ->
  select_dates date_range lo hi = (lo, hi).
Proof.
  intros [->|[H1 H2]]; [reflexivity|].
  destruct date_range as [|d0 [|d1 [|d2 l]]]; simpl in *;
    try reflexivity; lia.
Qed.

(** X7.  With the whole date span, which is what the date box opens with
    and what the script falls back to when the box holds neither one date
    nor two, the selection from a unified frame with a City column is by
    city alone: its rows are the rows of the frame, in their order, whose
    city is selected.  When every city option is selected the selection is
    the frame itself; so it is on opening the page when there are at most
    five cities. *)
Theorem whole_span_selection (df : DataFrame) (lo hi : date)
    (cs selected : list string) (date_range : list date) :
  frame_ok df -> "City" ∈ columns df ->
  min_date df = Ok (Some lo) -> max_date df = Ok (Some hi) ->
  cities df = Ok cs ->
  date_range = [lo; hi]
  \/ length date_range <> 1 /\ length date_range <> 2 ->
  exists out,
    filtered_df df (select_dates date_range lo hi).1
      (select_dates date_range lo hi).2 selected = Ok out
    /\ columns out = columns df
    /\ rows out
       = filter (fun r : row => (r !! "City" ≫= as_str) ∈ Some <$> selected)
           (rows df)
    /\ (cs ⊆ selected -> out = df)
    /\ (selected = default_cities cs -> length cs <= 5 -> out = df).
Proof.
  intros Hok Hcity Hmin Hmax Hcs Hrange.
  rewrite (select_dates_span _ _ _ Hrange). cbn [fst snd].
  rewrite filtered_df_Ok
    by (try exact Hcity; apply (frame_ok_column _ _ Hok), elem_of_labels;
        reflexivity).
  apply min_date_Some in Hmin as [_ Hmin].
  apply max_date_Some in Hmax as [_ Hmax].
  assert (Hrows : filter (fun r => mask lo hi selected r = true) (rows df)
    = filter (fun r : row => (r !! "City" ≫= as_str) ∈ Some <$> selected)
        (rows df)).
  { apply filter_ext_elem. intros r Hr. rewrite mask_true.
    destruct (frame_ok_date _ _ Hok Hr) as [ts Hts].
    destruct (frame_ok_city _ _ Hok Hcity Hr) as [s Hs].
    assert (Hd : date_of r = Some (ts_date ts))
      by (unfold date_of; rewrite Hts; reflexivity).
    rewrite Hs. cbn [mbind option_bind as_str]. split.
    - intros [_ (c & [= <-] & Hc)]. apply list_elem_of_fmap. eauto.
    - intros Hin. apply list_elem_of_fmap in Hin as (c & [= <-] & Hc).
      split; [|eauto]. exists (ts_date ts). split; [exact Hd|].
      split; [eapply Hmin | eapply Hmax]; eassumption. }
  assert (Hall : cs ⊆ selected ->
    {| columns := columns df;
       rows := filter (fun r => mask lo hi selected r = true) (rows df) |}
    = df).
  { intros Hsub. rewrite Hrows, filter_Forall_id; [destruct df; reflexivity|].
    apply Forall_forall. intros r Hr.
    destruct (frame_ok_city _ _ Hok Hcity Hr) as [s Hs].
    rewrite Hs. cbn [mbind option_bind as_str].
    apply list_elem_of_fmap. exists s. split; [reflexivity|].
    apply Hsub, (cities_elem _ _ Hcs). exists r. rewrite Hs. auto. }
  eexists. split; [reflexivity|]. cbn [columns rows].
  split; [reflexivity|]. split; [exact Hrows|]. split; [exact Hall|].
  intros -> Hlen. apply Hall. unfold default_cities.
  rewrite take_ge by exact Hlen. reflexivity.
Qed.

Lemma whole_span_selection_witness :
  frame_ok Sample.unified /\ "City" ∈ columns Sample.unified
  /\ exists out,
       filtered_df Sample.unified (mkdate 2023 1 2) (mkdate 2023 2 10)
         ["Makati"; "Pasig"] = Ok out
       /\ columns out = columns Sample.unified.
Proof.
  split; [exact sample_frame_ok|]. split; [exact sample_has_city|].
  destruct (whole_span_selection Sample.unified (mkdate 2023 1 2)
              (mkdate 2023 2 10) ["Makati"; "Pasig"] ["Makati"; "Pasig"]
              [mkdate 2023 1 2; mkdate 2023 2 10]
              sample_frame_ok sample_has_city sample_min_date sample_max_date
              sample_cities (or_introl eq_refl))
    as (out & Hout & Hcols & _).
  exists out. split; [exact Hout | exact Hcols].
Defined.

Lemma mask_monotone start_date end_date cs start_date' end_date' cs' (r : row) :
  date_leb start_date' start_date = true ->
  date_leb end_date end_date' = true ->
  cs ⊆ cs' ->
  mask start_date end_date cs r = true ->
  mask start_date' end_date' cs' r = true.
Proof.
  intros Hs He Hsub. rewrite !mask_true.
  intros [(d & Hd & H1 & H2) (c & Hc & Hin)]. split.
  - exists d. split; [exact Hd|].
    split; eapply date_leb_trans; eassumption.
  - exists c. split; [exact Hc | apply Hsub, Hin].
Qed.

(** X8.  Widening the selection never loses a row: when the date range
    grows at either end and cities are added, the rows selected before are
    still selected, in the same order, so the count of incidents does not
    go down. *)
Theorem filtered_df_monotone (df out : DataFrame)
    (start_date end_date start_date' end_date' : date)
    (cs cs' : list string) :
  date_leb start_date' start_date = true ->
  date_leb end_date end_date' = true ->
  cs ⊆ cs' ->
  filtered_df df start_date end_date cs = Ok out ->
  exists out',
    filtered_df df start_date' end_date' cs' = Ok out'
    /\ rows out `sublist_of` rows out'
    /\ total_incidents out <= total_incidents out'.
Proof.
  intros Hs He Hsub Hf.
  assert (Hcols : "Date" ∈ columns df /\ "City" ∈ columns df).
  { unfold filtered_df in Hf.
    destruct (column "Date" df) as [?| |] eqn:Ed; try discriminate.
    destruct (column "City" df) as [?| |] eqn:Ec; try discriminate.
    apply column_Ok_inv in Ed as [? _]. apply column_Ok_inv in Ec as [? _].
    auto. }
  destruct Hcols as [Hd Hc].
  rewrite filtered_df_Ok in Hf by assumption. injection Hf as <-.
  rewrite filtered_df_Ok by assumption. eexists. split; [reflexivity|].
  cbn [rows].
  assert (Hsl : filter (fun r => mask start_date end_date cs r = true) (rows df)
                `sublist_of`
                filter (fun r => mask start_date' end_date' cs' r = true)
                  (rows df)).
  { apply sublist_filter_impl. intros r. apply mask_monotone; assumption. }
  split; [exact Hsl|]. apply sublist_length in Hsl. exact Hsl.
Qed.

Lemma filtered_df_monotone_witness :
  date_leb (mkdate 2023 1 1) (mkdate 2023 1 2) = true
  /\ date_leb (mkdate 2023 1 2) (mkdate 2023 12 31) = true
  /\ ["Pasig"] ⊆ ["Makati"; "Pasig"]
  /\ exists out out',
       filtered_df Sample.unified (mkdate 2023 1 2) (mkdate 2023 1 2) ["Pasig"]
       = Ok out
       /\ filtered_df Sample.unified (mkdate 2023 1 1) (mkdate 2023 12 31)
            ["Makati"; "Pasig"] = Ok out'
       /\ total_incidents out <= total_incidents out'.
Proof.
  assert (Hsub : ["Pasig"] ⊆ ["Makati"; "Pasig"]).
  { intros x Hx. apply list_elem_of_singleton in Hx. rewrite Hx. right. left. }
  split; [reflexivity|]. split; [reflexivity|]. split; [exact Hsub|].
  eexists.
  destruct (filtered_df_monotone Sample.unified _
              (mkdate 2023 1 2) (mkdate 2023 1 2)
              (mkdate 2023 1 1) (mkdate 2023 12 31) ["Pasig"] ["Makati"; "Pasig"]
              eq_refl eq_refl Hsub
              (filtered_df_Ok _ _ _ _ sample_has_date sample_has_city))
    as (out' & Hout' & _ & Hlen).
  exists out'. split; [reflexivity|]. split; [exact Hout' | exact Hlen].
Defined.

(** ** Counts that add up *)

Section CountFacts.
Context {A : Type} `{EqDecision A}.
Implicit Types l ks : list A.

Lemma sum_count_of_nil ks : sum_list_with (fun k => count_of k []) ks = 0.
Proof. induction ks as [|k ks IH]; [reflexivity | exact IH]. Qed.

Lemma sum_count_of_cons y l ks :
  sum_list_with (fun k => count_of k (y :: l)) ks
  = count_of y ks + sum_list_with (fun k => count_of k l) ks.
Proof.
  induction ks as [|k ks IH]; [reflexivity|].
  cbn [sum_list_with]. rewrite IH, (count_of_cons k y l), (count_of_cons y k ks).
  destruct (decide (y = k)), (decide (k = y)); try congruence; lia.
Qed.

Lemma count_of_NoDup x ks : NoDup ks -> x ∈ ks -> count_of x ks = 1.
Proof.
  induction 1 as [|k ks Hk Hnd IH]; intros Hx; [inversion Hx|].
  rewrite count_of_cons. destruct (decide (k = x)) as [->|Hne].
  - destruct (count_of x ks) eqn:E; [reflexivity|].
    exfalso. apply Hk, count_of_pos. lia.
  - apply elem_of_cons in Hx as [->|Hx]; [contradiction|].
    rewrite IH by exact Hx. reflexivity.
Qed.

(** Counting a list key by key, over keys that are distinct and cover it,
    counts each element once. *)
Lemma sum_count_of l ks :
  NoDup ks -> (forall x, x ∈ l -> x ∈ ks) ->
  sum_list_with (fun k => count_of k l) ks = length l.
Proof.
  intros Hnd. induction l as [|y l IH]; intros Hin.
  - apply sum_count_of_nil.
  - rewrite sum_count_of_cons, (count_of_NoDup y ks Hnd) by (apply Hin; left).
    rewrite IH by (intros x Hx; apply Hin; right; exact Hx). reflexivity.
Qed.

Lemma sum_list_groups (f : A -> nat) ks :
  sum_list ((fun k => (k, f k)) <$> ks).*2 = sum_list_with f ks.
Proof.
  induction ks as [|k ks IH]; [reflexivity|].
  rewrite !fmap_cons. cbn [sum_list_with snd id]. rewrite <- IH. reflexivity.
Qed.

Lemma sum_groups (keys : list A) (groups : list (A * nat)) :
  groups ≡ₚ (fun k => (k, count_of k keys)) <$> first_seen keys ->
  sum_list groups.*2 = length keys.
Proof.
  intros Hp. rewrite Hp, sum_list_groups. apply sum_count_of.
  - apply NoDup_first_seen.
  - intros x Hx. apply elem_of_first_seen, Hx.
Qed.

Context (R : relation A) `{!RelDecision R}.

Lemma groupby_size_Permutation_groups (keys : list A) :
  groupby_size R keys ≡ₚ (fun k => (k, count_of k keys)) <$> first_seen keys.
Proof. unfold groupby_size. rewrite merge_sort_Permutation. reflexivity. Qed.

Lemma groupby_size_sum (keys : list A) :
  sum_list (groupby_size R keys).*2 = length keys.
Proof. apply sum_groups, groupby_size_Permutation_groups. Qed.

Lemma elem_of_groupby_size_rel (keys : list A) k n :
  (k, n) ∈ groupby_size R keys <-> k ∈ keys /\ n = count_of k keys.
Proof.
  rewrite groupby_size_Permutation_groups, list_elem_of_fmap. split.
  - intros (x & [= -> ->] & Hin). rewrite elem_of_first_seen in Hin. auto.
  - intros [Hin ->]. exists k. split; [reflexivity|].
    rewrite elem_of_first_seen. exact Hin.
Qed.

Lemma NoDup_groupby_size (keys : list A) : NoDup (groupby_size R keys).*1.
Proof.
  assert (E : (groupby_size R keys).*1 = merge_sort R (first_seen keys)).
  { unfold groupby_size. rewrite <- list_fmap_compose. apply list_fmap_id. }
  rewrite E, merge_sort_Permutation. apply NoDup_first_seen.
Qed.

End CountFacts.

Lemma sum_list_take (n : nat) (l : list nat) :
  sum_list (take n l) <= sum_list l.
Proof.
  rewrite <- (take_drop n l) at 2. rewrite sum_list_with_app. lia.
Qed.

Lemma strings_of_length (cells : list (option value)) :
  length (strings_of cells) <= length cells.
Proof.
  unfold strings_of. induction cells as [|c cells IH]; [reflexivity|].
  cbn [omap list_omap]. destruct (c ≫= as_str); simpl; lia.
Qed.

Lemma strings_of_texts (c : string) (l : list row) :
  (forall r : row, r ∈ l -> exists s, r !! c = Some (VStr s)) ->
  length (strings_of ((fun r : row => r !! c) <$> l)) = length l.
Proof.
  unfold strings_of. induction l as [|r l IH]; intros Htext; [reflexivity|].
  rewrite fmap_cons. cbn [omap list_omap].
  destruct (Htext r) as [s Hs]; [left|]. rewrite Hs. simpl.
  rewrite IH by (intros r' Hr'; apply Htext; right; exact Hr').
  reflexivity.
Qed.

(** X9.  The counts of the monthly trend add up to the rows that carry a
    month label, every count is positive, and on a frame where every row
    carries one, as in a unified frame, they add up to the total of
    incidents of the first metric. *)
Theorem trend_data_counts (df : DataFrame) :
  "Month_Year" ∈ columns df ->
  exists chart,
    trend_data df = Ok chart
    /\ Forall (fun e : string * nat => 0 < e.2) (shown chart)
    /\ sum_list (shown chart).*2 <= total_incidents df
    /\ ((forall r : row, r ∈ rows df ->
           exists s, r !! "Month_Year" = Some (VStr s)) ->
        sum_list (shown chart).*2 = total_incidents df).
Proof.
  intros Hc. destruct (trend_data_shown df Hc) as (chart & Hrun & Hshown & _).
  exists chart. split; [exact Hrun|]. rewrite Hshown, groupby_size_sum.
  split; [|split].
  - apply Forall_forall. intros [k n] Hin.
    apply elem_of_groupby_size in Hin as [Hin ->]. apply count_of_pos, Hin.
  - unfold total_incidents, len.
    etransitivity; [apply strings_of_length|]. rewrite length_fmap. reflexivity.
  - intros Htext. apply strings_of_texts, Htext.
Qed.

Lemma trend_data_counts_witness :
  "Month_Year" ∈ columns Sample.unified
  /\ exists chart, trend_data Sample.unified = Ok chart
       /\ sum_list (shown chart).*2 <= total_incidents Sample.unified.
Proof.
  split; [exact sample_has_month_year|].
  destruct (trend_data_counts Sample.unified sample_has_month_year)
    as (chart & Hrun & _ & Hsum & _).
  exists chart. split; [exact Hrun | exact Hsum].
Defined.

(** ** The vehicle ranking *)

Section RankingHead.
Variable sort_values : list (string * nat) -> list (string * nat).
Hypothesis sort_values_ok : sorts_descending sort_values.

Lemma veh_counts_shown (df : DataFrame) :
  "Involved" ∈ columns df ->
  exists chart,
    veh_counts sort_values df = Ok chart
    /\ shown chart
       = take 10 (value_counts sort_values
                    (strings_of ((fun r : row => r !! "Involved") <$> rows df))).
Proof.
  intros Hc. unfold veh_counts. destruct (empty df) eqn:He; simpl.
  - exists None.
    assert (Hrows : rows df = []).
    { unfold empty in He. destruct (rows df); [reflexivity|].
      destruct (columns df); [inversion Hc | discriminate]. }
    rewrite Hrows. split; [reflexivity|].
    assert (Hnil : value_counts sort_values
                     (strings_of ((fun r : row => r !! "Involved") <$> []))
                   = []).
    { apply Permutation_nil_r.
      rewrite (value_counts_Permutation sort_values sort_values_ok).
      reflexivity. }
    rewrite Hnil. reflexivity.
  - rewrite (column_Ok _ _ Hc). simpl. eexists. split; reflexivity.
Qed.

(** X10.  What the vehicle chart leaves out never outranks what it shows:
    an entry of the ranking that is not shown has a count that is at most
    the count of every entry shown.  The counts shown add up to at most
    the total of incidents, and to exactly that total when every row has
    an Involved text and there are at most ten distinct ones. *)
Theorem veh_counts_head (df : DataFrame) :
  "Involved" ∈ columns df ->
  let keys := strings_of ((fun r : row => r !! "Involved") <$> rows df) in
  let groups := (fun k => (k, count_of k keys)) <$> first_seen keys in
  exists chart,
    veh_counts sort_values df = Ok chart
    /\ (forall g a, g ∈ groups -> g ∉ shown chart -> a ∈ shown chart ->
          g.2 <= a.2)
    /\ sum_list (shown chart).*2 <= total_incidents df
    /\ ((forall r : row, r ∈ rows df ->
           exists s, r !! "Involved" = Some (VStr s)) ->
        length (first_seen keys) <= 10 ->
        sum_list (shown chart).*2 = total_incidents df).
Proof.
  intros Hc keys groups.
  destruct (veh_counts_shown df Hc) as (chart & Hrun & Hshown).
  fold keys in Hshown. exists chart. split; [exact Hrun|].
  assert (Hperm : value_counts sort_values keys ≡ₚ groups)
    by (apply value_counts_Permutation, sort_values_ok).
  assert (Hsum : sum_list (value_counts sort_values keys).*2 = length keys)
    by (apply sum_groups, Hperm).
  assert (Hlen : length keys <= total_incidents df).
  { unfold keys, total_incidents, len.
    etransitivity; [apply strings_of_length|]. rewrite length_fmap.
    reflexivity. }
  rewrite Hshown. split; [|split].
  - intros g a Hg Hout Ha. rewrite <- Hperm in Hg.
    assert (Hsorted : StronglySorted (fun a b : string * nat => b.2 <= a.2)
                        (value_counts sort_values keys))
      by (apply value_counts_sorted, sort_values_ok).
    rewrite <- (take_drop 10 (value_counts sort_values keys)) in Hg, Hsorted.
    apply elem_of_app in Hg as [Hg|Hg]; [exfalso; exact (Hout Hg)|].
    exact (StronglySorted_app_1_elem_of
             (fun a b : string * nat => b.2 <= a.2) _ _ a g Hsorted Ha Hg).
  - rewrite fmap_take. etransitivity; [apply sum_list_take|].
    rewrite Hsum. exact Hlen.
  - intros Htext Hfew. rewrite take_ge.
    + rewrite Hsum. apply strings_of_texts, Htext.
    + rewrite Hperm. unfold groups. rewrite length_fmap. exact Hfew.
Qed.

End RankingHead.

Lemma veh_counts_head_witness :
  sorts_descending Sample.sort_values
  /\ "Involved" ∈ columns Sample.unified
  /\ exists chart, veh_counts Sample.sort_values Sample.unified = Ok chart
       /\ sum_list (shown chart).*2 <= total_incidents Sample.unified.
Proof.
  split; [exact sample_sort_values_ok|]. split; [exact sample_has_involved|].
  destruct (veh_counts_head Sample.sort_values sample_sort_values_ok
              Sample.unified sample_has_involved)
    as (chart & Hrun & _ & Hsum & _).
  exists chart. split; [exact Hrun | exact Hsum].
Defined.

(** ** The day and hour matrix *)

Lemma day_name_in_week d : day_name d ∈ days_order.
Proof.
  unfold day_name.
  assert (H : weekday d < 7)
    by (unfold weekday; cbv zeta; apply Nat.mod_upper_bound; discriminate).
  destruct (weekday d) as [|[|[|[|[|[|[|n]]]]]]];
    try (apply elem_of_labels; reflexivity).
  lia.
Qed.

Lemma day_hour_of_with_day_name (r : row) :
  day_hour_of
    (set_cell "Day_Name" ((fun d => VStr (day_name d)) <$> date_of r) r)
  = match date_of r, r !! "Hour" ≫= as_num with
    | Some d, Some h => Some (day_name d, h)
    | _, _ => None
    end.
Proof.
  unfold day_hour_of. rewrite lookup_set_cell, lookup_set_cell_ne by discriminate.
  destruct (date_of r); reflexivity.
Qed.

Lemma heatmap_keys (df : DataFrame) :
  omap day_hour_of (rows (with_day_name df))
  = omap (fun r : row =>
            match date_of r, r !! "Hour" ≫= as_num with
            | Some d, Some h => Some (day_name d, h)
            | _, _ => None
            end) (rows df).
Proof.
  unfold with_day_name, assign. cbn [rows].
  induction (rows df) as [|r l IH]; [reflexivity|].
  rewrite fmap_cons. cbn [omap list_omap].
  rewrite day_hour_of_with_day_name, IH. reflexivity.
Qed.

Lemma empty_with_day_name (df : DataFrame) :
  empty df = false -> empty (with_day_name df) = false.
Proof.
  rewrite !empty_false. unfold with_day_name, assign. cbn [rows columns].
  intros [Hr Hc]. split.
  - destruct (rows df); [contradiction | discriminate].
  - destruct (has_column "Day_Name" df); [exact Hc|].
    destruct (columns df); discriminate.
Qed.

Lemma heatmap_data_run (df : DataFrame) :
  "Date" ∈ columns df -> "Hour" ∈ columns df -> empty df = false ->
  heatmap_data df
  = Ok (Some (groupby_size day_hour_le
                (omap day_hour_of (rows (with_day_name df)))),
        with_day_name df).
Proof.
  intros Hd Hh He. unfold heatmap_data. rewrite He. cbn [negb].
  rewrite (column_Ok _ _ Hd). cbn [mbind outcome_bind].
  rewrite (column_Ok "Hour" (with_day_name df))
    by (apply elem_of_columns_assign; left; exact Hh).
  reflexivity.
Qed.

Lemma omap_length_le {A B} (f : A -> option B) (l : list A) :
  length (omap f l) <= length l.
Proof.
  induction l as [|x l IH]; [reflexivity|].
  cbn [omap list_omap]. destruct (f x); simpl; lia.
Qed.

(** X11.  On a frame with rows the day and hour matrix has one cell for
    each pair of a day name and an hour that occurs in a row, with the
    number of the rows of that pair; the day names are those of the day
    axis of the chart, each count is positive, and the counts add up to
    the number of rows that have a date and an hour.  The step leaves the
    frame with a Day_Name column, the name of the day of each row's date,
    and changes no other cell. *)
Theorem heatmap_data_cells (df : DataFrame) :
  "Date" ∈ columns df -> "Hour" ∈ columns df -> rows df <> [] ->
  let key := fun r : row =>
    match date_of r, r !! "Hour" ≫= as_num with
    | Some d, Some h => Some (day_name d, h)
    | _, _ => None
    end in
  let keys := omap key (rows df) in
  exists heat df',
    heatmap_data df = Ok (Some heat, df')
    /\ (forall d h n, (d, h, n) ∈ heat <->
          (d, h) ∈ keys /\ n = count_of (d, h) keys)
    /\ NoDup heat.*1
    /\ Forall (fun e : string * nat * nat => e.1.1 ∈ days_order /\ 0 < e.2) heat
    /\ sum_list heat.*2 = length keys
    /\ length keys <= total_incidents df
    /\ (forall c, c ∈ columns df' <-> c ∈ columns df \/ c = "Day_Name")
    /\ Forall2 (fun r r' : row =>
                  r' !! "Day_Name" = (fun d => VStr (day_name d)) <$> date_of r
                  /\ forall c, c <> "Day_Name" -> r' !! c = r !! c)
         (rows df) (rows df').
Proof.
  intros Hd Hh Hrows key keys.
  assert (He : empty df = false).
  { apply empty_false. split; [exact Hrows|]. intros Hnil.
    rewrite Hnil in Hd. inversion Hd. }
  rewrite (heatmap_data_run df Hd Hh He), heatmap_keys. fold key. fold keys.
  eexists. eexists. split; [reflexivity|].
  split; [|split; [|split; [|split; [|split; [|split]]]]].
  - intros d h n. apply elem_of_groupby_size_rel.
  - apply NoDup_groupby_size.
  - apply Forall_forall. intros [[d h] n] Hin.
    apply elem_of_groupby_size_rel in Hin as [Hin ->]. cbn [fst snd]. split.
    + unfold keys in Hin. apply list_elem_of_omap in Hin as (r & _ & Hk).
      unfold key in Hk. destruct (date_of r) as [d0|]; [|discriminate].
      destruct (r !! "Hour" ≫= as_num); [|discriminate].
      injection Hk as <- _. apply day_name_in_week.
    + apply count_of_pos, Hin.
  - apply groupby_size_sum.
  - apply omap_length_le.
  - intros c. apply elem_of_columns_assign.
  - unfold with_day_name, assign. cbn [rows].
    apply Forall2_fmap_r, Forall_Forall2_diag, Forall_forall. intros r _.
    split; [apply lookup_set_cell|]. intros c Hc.
    apply lookup_set_cell_ne. congruence.
Qed.

Lemma sample_rows : rows Sample.unified <> [].
Proof.
  intros H. apply (f_equal length) in H. vm_compute in H. discriminate.
Defined.

Lemma sample_has_hour : "Hour" ∈ columns Sample.unified.
Proof. apply elem_of_labels. vm_compute. reflexivity. Defined.

Lemma heatmap_data_cells_witness :
  "Date" ∈ columns Sample.unified /\ "Hour" ∈ columns Sample.unified
  /\ rows Sample.unified <> []
  /\ exists heat df',
       heatmap_data Sample.unified = Ok (Some heat, df')
       /\ NoDup heat.*1.
Proof.
  split; [exact sample_has_date|]. split; [exact sample_has_hour|].
  split; [exact sample_rows|].
  destruct (heatmap_data_cells Sample.unified sample_has_date sample_has_hour
              sample_rows) as (heat & df' & Hrun & _ & Hnd & _).
  exists heat, df'. split; [exact Hrun | exact Hnd].
Defined.

(** ** The page over a unified frame *)

Lemma top_city_unified (df : DataFrame) :
  frame_ok df -> "City" ∈ columns df -> empty df = false ->
  exists c, top_city df = Ok c
    /\ exists r : row, r ∈ rows df /\ r !! "City" = Some (VStr c).
Proof.
  intros Hok Hc He. unfold top_city. rewrite He. cbn [negb].
  unfold column_mode_0. rewrite (column_Ok _ _ Hc). cbn [mbind outcome_bind].
  assert (Htext : forall r : row, r ∈ rows df ->
                    exists s, r !! "City" = Some (VStr s))
    by (intros r; apply (frame_ok_city _ _ Hok Hc)).
  destruct (mode_0_Ok String.le
              (strings_of ((fun r : row => r !! "City") <$> rows df)))
    as [c Hm].
  - intros Hnil. apply (f_equal length) in Hnil.
    rewrite strings_of_texts in Hnil by exact Htext.
    apply empty_false in He as [Hr _].
    destruct (rows df); [contradiction | discriminate].
  - exists c. split; [exact Hm|].
    apply (mode_0_least String.le) in Hm as [Hin _].
    unfold strings_of in Hin. apply list_elem_of_omap in Hin as (cell & Hcell & Hs).
    apply list_elem_of_fmap in Hcell as (r & -> & Hr).
    exists r. split; [exact Hr|]. destruct (Htext r Hr) as [s' Hs'].
    rewrite Hs' in Hs |- *. injection Hs as <-. reflexivity.
Qed.

Lemma top_incident_run (df : DataFrame) :
  empty df = false ->
  top_incident df
  = if has_column "Type" df
    then mode_0 String.le (strings_of ((fun r : row => r !! "Type") <$> rows df))
    else Ok "N/A".
Proof.
  intros He. unfold top_incident. rewrite He. cbn [negb andb].
  destruct (has_column "Type" df) eqn:E; [|reflexivity].
  unfold column_mode_0, column. rewrite E. reflexivity.
Qed.

Lemma peak_hour_val_run (df : DataFrame) :
  "Hour" ∈ columns df -> empty df = false ->
  peak_hour_val df
  = (h ← mode_0 le (numbers_of ((fun r : row => r !! "Hour") <$> rows df));
     mret (Some h)).
Proof.
  intros Hc He. unfold peak_hour_val. rewrite He. cbn [negb].
  rewrite (column_Ok _ _ Hc). reflexivity.
Qed.

Lemma elem_of_hours (l : list row) h :
  h ∈ numbers_of ((fun r : row => r !! "Hour") <$> l) ->
  exists r : row, r ∈ l /\ r !! "Hour" ≫= as_num = Some h.
Proof.
  unfold numbers_of. intros Hin.
  apply list_elem_of_omap in Hin as (cell & Hcell & Hh).
  apply list_elem_of_fmap in Hcell as (r & -> & Hr). eauto.
Qed.

Lemma frame_ok_hour df (r : row) v :
  frame_ok df -> r ∈ rows df -> r !! "Hour" = Some v ->
  exists h, v = VNum h /\ h < 24.
Proof.
  intros [_ Hrows] Hr Hv.
  destruct (Hrows r Hr) as (_ & _ & _ & Ht & Hh & _). rewrite Hh in Hv.
  destruct Ht as [Ht|(c & Ht & Hc)]; rewrite Ht in Hv; [discriminate|].
  injection Hv as <-. exists (Clock.hour c). split; [reflexivity|].
  destruct Hc as [Hc _]. exact Hc.
Qed.

Lemma mean_cells c (l : list row) :
  mean ((fun r : row => r !! c) <$> l)
  = if forallb (fun r : row => from_option is_number true (r !! c)) l
    then Ok tt else Raise TypeError.
Proof.
  assert (E : forallb is_number (omap id ((fun r : row => r !! c) <$> l))
            = forallb (fun r : row => from_option is_number true (r !! c)) l).
  { induction l as [|r l IH]; [reflexivity|].
    rewrite fmap_cons. cbn [omap list_omap forallb].
    destruct (r !! c) as [v|]; cbn [id from_option forallb]; rewrite IH;
      reflexivity. }
  unfold mean. rewrite E. reflexivity.
Qed.

Lemma numeric_coordinates_split (df : DataFrame) :
  numeric_coordinates df
  = forallb (fun r : row => from_option is_number true (r !! "Latitude"))
      (rows df)
    && forallb (fun r : row => from_option is_number true (r !! "Longitude"))
         (rows df).
Proof.
  unfold numeric_coordinates. induction (rows df) as [|r l IH]; [reflexivity|].
  cbn [forallb]. rewrite IH.
  destruct (from_option is_number true (r !! "Latitude")),
    (from_option is_number true (r !! "Longitude")),
    (forallb (fun r : row => from_option is_number true (r !! "Latitude")) l);
    reflexivity.
Qed.

(** The map step on a frame with rows: the points, or [TypeError] from the
    mean of a coordinate column that holds a cell that is no number. *)
Lemma hotspots_run (df : DataFrame) :
  "Latitude" ∈ columns df -> "Longitude" ∈ columns df -> empty df = false ->
  hotspots df
  = if numeric_coordinates df
    then Ok (Some (zip ((fun r : row => r !! "Latitude") <$> rows df)
                     ((fun r : row => r !! "Longitude") <$> rows df)))
    else Raise TypeError.
Proof.
  intros Hla Hlo He. unfold hotspots. rewrite He. cbn [negb].
  rewrite numeric_coordinates_split.
  rewrite (column_Ok _ _ Hla). cbn [mbind outcome_bind]. rewrite mean_cells.
  destruct (forallb (fun r : row => from_option is_number true (r !! "Latitude"))
              (rows df));
    cbn [mbind outcome_bind andb]; [|reflexivity].
  rewrite (column_Ok _ _ Hlo). cbn [mbind outcome_bind]. rewrite mean_cells.
  destruct (forallb (fun r : row => from_option is_number true (r !! "Longitude"))
              (rows df));
    reflexivity.
Qed.

Lemma trend_data_run (df : DataFrame) :
  "Month_Year" ∈ columns df -> empty df = false ->
  trend_data df
  = Ok (Some (groupby_size String.le
                (strings_of ((fun r : row => r !! "Month_Year") <$> rows df)))).
Proof.
  intros Hc He. unfold trend_data. rewrite He. cbn [negb].
  rewrite (column_Ok _ _ Hc). reflexivity.
Qed.

Lemma veh_counts_run sort_values (df : DataFrame) :
  "Involved" ∈ columns df -> empty df = false ->
  veh_counts sort_values df
  = Ok (Some (take 10 (value_counts sort_values
                (strings_of ((fun r : row => r !! "Involved") <$> rows df))))).
Proof.
  intros Hc He. unfold veh_counts. rewrite He. cbn [negb].
  rewrite (column_Ok _ _ Hc). reflexivity.
Qed.

Lemma hotspots_points (df : DataFrame) :
  frame_ok df -> numeric_coordinates df = true ->
  let points := zip ((fun r : row => r !! "Latitude") <$> rows df)
                  ((fun r : row => r !! "Longitude") <$> rows df) in
  length points = length (rows df)
  /\ Forall (fun p : option value * option value =>
               from_option is_number false p.1 = true
               /\ from_option is_number false p.2 = true) points.
Proof.
  intros [_ Hrows]. unfold numeric_coordinates. cbv zeta.
  induction (rows df) as [|r l IH]; intros Hnum;
    [split; [reflexivity | constructor]|].
  cbn [forallb] in Hnum. apply andb_true_iff in Hnum as [Hr Hnum].
  apply andb_true_iff in Hr as [Hnlat Hnlon].
  destruct IH as [IHl IHf];
    [intros r' Hr'; apply Hrows; right; exact Hr' | exact Hnum |].
  rewrite !fmap_cons. cbn [zip zip_with length].
  split; [rewrite IHl; reflexivity|].
  constructor; [|exact IHf].
  destruct (Hrows r) as (_ & [vlat Hlat] & [vlon Hlon] & _); [left|].
  cbn [fst snd]. rewrite Hlat in Hnlat |- *. rewrite Hlon in Hnlon |- *.
  auto.
Qed.

Lemma mode_0_cases {A} `{EqDecision A} (R : relation A) `{!RelDecision R}
    (values : list A) :
  mode_0 R values = Raise (KeyError "0") \/ exists x, mode_0 R values = Ok x.
Proof. unfold mode_0. destruct (mode R values); eauto. Qed.

(** The metrics of a unified frame with rows: they fail exactly where the
    mode of the hours or of the incident types is taken over no value. *)
Lemma top_metrics_unified (df : DataFrame) :
  frame_ok df -> "City" ∈ columns df -> empty df = false ->
  let hours := numbers_of ((fun r : row => r !! "Hour") <$> rows df) in
  let types := strings_of ((fun r : row => r !! "Type") <$> rows df) in
  (hours = [] \/ "Type" ∈ columns df /\ types = [] ->
   top_metrics df = Raise (KeyError "0"))
  /\ (hours <> [] -> ("Type" ∈ columns df -> types <> []) ->
      exists c t h,
        top_metrics df
        = Ok (mkmetrics (len df) c t (decimal h +:+ ":00"))
        /\ (exists r : row, r ∈ rows df /\ r !! "City" = Some (VStr c))
        /\ (exists r : row, r ∈ rows df /\ r !! "Hour" = Some (VNum h))
        /\ h < 24
        /\ (if has_column "Type" df then t ∈ types else t = "N/A")).
Proof.
  intros Hok Hc He hours types.
  destruct (top_city_unified df Hok Hc He) as (c & Hcity & Hrow).
  assert (Hh : "Hour" ∈ columns df)
    by (apply (frame_ok_column _ _ Hok), elem_of_labels; reflexivity).
  unfold top_metrics. rewrite Hcity, (top_incident_run df He),
    (peak_hour_val_run df Hh He).
  fold hours. fold types. cbn [mbind outcome_bind].
  split.
  - intros [Hnil|[Ht Hnil]].
    + rewrite Hnil.
      destruct (has_column "Type" df); [|reflexivity].
      destruct (mode_0_cases String.le types) as [Ht|[t Ht]]; rewrite Ht;
        reflexivity.
    + apply has_column_true in Ht. rewrite Ht, Hnil. reflexivity.
  - intros Hhours Htypes.
    destruct (mode_0_Ok le hours Hhours) as [h Hm].
    assert (Hin : h ∈ hours) by (apply (mode_0_least le) in Hm; tauto).
    apply elem_of_hours in Hin as (r & Hr & Hcell).
    assert (Hcell' : r !! "Hour" = Some (VNum h) /\ h < 24).
    { destruct (r !! "Hour") as [v|] eqn:Ev; [|discriminate].
      destruct (frame_ok_hour _ _ _ Hok Hr Ev) as (h' & -> & Hlt).
      injection Hcell as <-. auto. }
    destruct Hcell' as [Hcell' Hlt].
    destruct (has_column "Type" df) eqn:Et.
    + destruct (mode_0_Ok String.le types) as [t Ht];
        [apply Htypes, has_column_true, Et|].
      exists c, t, h. rewrite Ht, Hm. cbn [mbind outcome_bind].
      split; [reflexivity|]. split; [exact Hrow|]. split; [eauto|].
      split; [exact Hlt|]. apply (mode_0_least String.le) in Ht. tauto.
    + exists c, "N/A", h. rewrite Hm. cbn [mbind outcome_bind].
      split; [reflexivity|]. split; [exact Hrow|]. split; [eauto|].
      split; [exact Hlt | reflexivity].
Qed.

(** X12.  The page over a unified frame with a City and an Involved
    column whose Type cells are texts, for any date range and any selection
    of cities.  The selection is a frame.  Without rows in it the page is
    the one of the sentinel metrics with no chart.  With rows in it, the
    metrics come first: they raise [KeyError], from position 0 of an empty
    mode, unless some selected row has an hour and, where there is a Type
    column, some selected row has an incident type.  The map comes next:
    the mean of a coordinate raises [TypeError] unless the coordinates of
    the selected rows are numbers.  Otherwise the page is computed: the
    total is the number of selected rows, the most dangerous city is one
    of the selected cities, the peak hour is an hour of the day, the map
    has one point of two numbers for each selected row, all four charts
    are drawn, and the table at the bottom is the selection with the
    Day_Name column that the matrix step adds. *)
Theorem dashboard_outcome
    (sort_values : list (string * nat) -> list (string * nat))
    (df : DataFrame) (date_range : list date)
    (min_date max_date : date) (selected_cities : list string) :
  frame_ok df -> "City" ∈ columns df -> "Involved" ∈ columns df ->
  text_column "Type" df ->
  let run :=
    dashboard sort_values df date_range min_date max_date selected_cities in
  exists filtered,
    filtered_df df (select_dates date_range min_date max_date).1
      (select_dates date_range min_date max_date).2 selected_cities
    = Ok filtered
    /\ let hours :=
         numbers_of ((fun r : row => r !! "Hour") <$> rows filtered) in
       let types :=
         strings_of ((fun r : row => r !! "Type") <$> rows filtered) in
       (rows filtered = [] ->
          run = Ok (mkpage (mkmetrics 0 "N/A" "N/A" "N/A")
                      None None None None filtered))
       /\ (rows filtered <> [] ->
           hours = [] \/ "Type" ∈ columns df /\ types = [] ->
           run = Raise (KeyError "0"))
       /\ (rows filtered <> [] -> hours <> [] ->
           ("Type" ∈ columns df -> types <> []) ->
           numeric_coordinates filtered = false ->
           run = Raise TypeError)
       /\ (rows filtered <> [] -> hours <> [] ->
           ("Type" ∈ columns df -> types <> []) ->
           numeric_coordinates filtered = true ->
           exists p,
             run = Ok p
             /\ m_total_incidents (p_metrics p) = length (rows filtered)
             /\ m_top_city (p_metrics p) ∈ selected_cities
             /\ (exists h, h < 24
                   /\ m_peak_hour_str (p_metrics p) = decimal h +:+ ":00")
             /\ ("Type" ∉ columns df -> m_top_incident (p_metrics p) = "N/A")
             /\ (exists points,
                   p_hotspots p = Some points
                   /\ length points = length (rows filtered)
                   /\ Forall (fun q : option value * option value =>
                                from_option is_number false q.1 = true
                                /\ from_option is_number false q.2 = true)
                        points)
             /\ is_Some (p_trend_data p) /\ is_Some (p_heatmap_data p)
             /\ is_Some (p_veh_counts p)
             /\ p_raw_table p = with_day_name filtered).
Proof.
  intros Hok Hcity Hinv _ run. unfold run, dashboard.
  destruct (select_dates date_range min_date max_date) as [start_date end_date].
  cbn [fst snd].
  assert (Hcol : forall c,
            c ∈ ["Date"; "Time"; "Latitude"; "Longitude"; "Hour"; "Month_Year"] ->
            c ∈ columns df) by (intros c; apply (frame_ok_column _ _ Hok)).
  assert (Hd : "Date" ∈ columns df) by (apply Hcol, elem_of_labels; reflexivity).
  assert (Hfilter := filtered_df_Ok df start_date end_date selected_cities Hd Hcity).
  assert (Hokf := filtered_frame_ok _ _ _ _ _ Hok Hfilter).
  rewrite Hfilter.
  set (filtered := {| columns := columns df;
                      rows := filter (fun r => mask start_date end_date
                                                 selected_cities r = true)
                                (rows df) |}) in *.
  assert (Hsel : forall r : row, r ∈ rows filtered ->
            forall c, r !! "City" = Some (VStr c) -> c ∈ selected_cities).
  { intros r Hr c Hc. unfold filtered in Hr. cbn [rows] in Hr.
    apply list_elem_of_filter in Hr as [Hm _].
    apply mask_true in Hm as [_ (c' & Hc' & Hin)]. congruence. }
  assert (Hne : rows filtered <> [] -> empty filtered = false).
  { intros Hrows. apply empty_false. split; [exact Hrows|]. intros Hnil.
    change (columns filtered) with (columns df) in Hnil.
    rewrite Hnil in Hd. inversion Hd. }
  exists filtered. split; [reflexivity|]. cbn [mbind outcome_bind].
  split; [|split; [|split]].
  - intros Hrows.
    assert (He : empty filtered = true) by (unfold empty; rewrite Hrows; reflexivity).
    rewrite (top_metrics_empty _ He). cbn [mbind outcome_bind].
    unfold hotspots, trend_data, heatmap_data, veh_counts. rewrite He.
    cbn [negb mbind outcome_bind mret outcome_ret].
    rewrite He. cbn [negb mbind outcome_bind mret outcome_ret].
    unfold len. rewrite Hrows. reflexivity.
  - intros Hrows Hfail. pose proof (Hne Hrows) as He.
    destruct (top_metrics_unified filtered Hokf Hcity He) as [Hraise _].
    rewrite (Hraise Hfail). reflexivity.
  - intros Hrows Hhours Htypes Hnum. pose proof (Hne Hrows) as He.
    destruct (top_metrics_unified filtered Hokf Hcity He) as [_ Hrun].
    destruct (Hrun Hhours Htypes) as (c & t & h & Hm & _).
    rewrite Hm. cbn [mbind outcome_bind].
    rewrite (hotspots_run filtered)
      by (try exact He; apply Hcol, elem_of_labels; reflexivity).
    rewrite Hnum. reflexivity.
  - intros Hrows Hhours Htypes Hnum. pose proof (Hne Hrows) as He.
    destruct (top_metrics_unified filtered Hokf Hcity He) as [_ Hrun].
    destruct (Hrun Hhours Htypes)
      as (c & t & h & Hm & (r & Hr & Hc) & _ & Hlt & Ht).
    rewrite Hm. cbn [mbind outcome_bind].
    rewrite (hotspots_run filtered)
      by (try exact He; apply Hcol, elem_of_labels; reflexivity).
    rewrite Hnum. cbn [mbind outcome_bind].
    rewrite (trend_data_run filtered)
      by (try exact He; apply Hcol, elem_of_labels; reflexivity).
    cbn [mbind outcome_bind].
    rewrite (heatmap_data_run filtered)
      by (try exact He; apply Hcol, elem_of_labels; reflexivity).
    cbn [mbind outcome_bind].
    rewrite (veh_counts_run sort_values (with_day_name filtered))
      by (try (apply empty_with_day_name; exact He);
          apply elem_of_columns_assign; left; exact Hinv).
    cbn [mbind outcome_bind mret outcome_ret].
    eexists. split; [reflexivity|].
    cbn [p_metrics p_hotspots p_trend_data p_heatmap_data p_veh_counts
         p_raw_table m_total_incidents m_top_city m_top_incident
         m_peak_hour_str].
    split; [reflexivity|]. split; [eapply Hsel; eassumption|].
    split; [exists h; auto|]. split.
    + intros Hno. destruct (has_column "Type" filtered) eqn:E; [|exact Ht].
      apply has_column_true in E. contradiction.
    + split.
      * eexists. split; [reflexivity|].
        apply (hotspots_points filtered Hokf Hnum).
      * repeat split; eexists; reflexivity.
Qed.

Lemma sample_type_texts : text_column "Type" Sample.unified.
Proof.
  apply (bool_decide_eq_true_1 (text_column "Type" Sample.unified)).
  vm_compute. reflexivity.
Qed.

Lemma dashboard_outcome_witness :
  frame_ok Sample.unified /\ "City" ∈ columns Sample.unified
  /\ "Involved" ∈ columns Sample.unified
  /\ text_column "Type" Sample.unified
  /\ exists filtered,
       filtered_df Sample.unified
         (select_dates [] (mkdate 2023 1 2) (mkdate 2023 2 10)).1
         (select_dates [] (mkdate 2023 1 2) (mkdate 2023 2 10)).2
         ["Makati"; "Pasig"] = Ok filtered.
Proof.
  split; [exact sample_frame_ok|]. split; [exact sample_has_city|].
  split; [exact sample_has_involved|]. split; [exact sample_type_texts|].
  destruct (dashboard_outcome Sample.sort_values Sample.unified []
              (mkdate 2023 1 2) (mkdate 2023 2 10) ["Makati"; "Pasig"]
              sample_frame_ok sample_has_city sample_has_involved
              sample_type_texts)
    as (filtered & Hf & _).
  exists filtered. exact Hf.
Defined.

(** The page over the sample frame is computed.  Over the frame loaded
    from the folder with a latitude that is no number, the mean of the
    latitudes raises. *)
Example sample_page_computed :
  exists p,
    dashboard Sample.sort_values Sample.unified [] (mkdate 2023 1 1)
      (mkdate 2023 12 31) ["Makati"; "Pasig"] = Ok p
    /\ p_metrics p = mkmetrics 3 "Pasig" "Collision" "9:00"
    /\ shown (p_veh_counts p) = [("Car", 1); ("Bus", 1); ("Unknown", 1)].
Proof.
  eexists. split; [vm_compute; reflexivity|]. split; reflexivity.
Qed.

Example sample_page_text_latitude :
  exists df,
    Sample.load Sample.download_text_latitude = ([], Ok df)
    /\ len df = 2
    /\ numeric_coordinates df = false
    /\ dashboard Sample.sort_values df [] (mkdate 2023 1 1)
         (mkdate 2023 12 31) ["Makati"; "Pasig"]
       = Raise TypeError.
Proof.
  eexists. split; [vm_compute; reflexivity|].
  split; [reflexivity|]. split; vm_compute; reflexivity.
Qed.

(** ** The rows that the cleaning keeps *)

Lemma Forall2_filter_both {A B} (Q : A -> B -> Prop) (M : A -> Prop)
    (N : B -> Prop) `{forall a, Decision (M a)} `{forall b, Decision (N b)}
    (k : list A) (l : list B) :
  Forall2 Q k l -> (forall a b, Q a b -> (M a <-> N b)) ->
  Forall2 Q (filter M k) (filter N l).
Proof.
  intros HF Hiff. induction HF as [|a b k l Hab HF IH]; [constructor|].
  rewrite !filter_cons. specialize (Hiff a b Hab).
  destruct (decide (M a)), (decide (N b)); try tauto.
  constructor; assumption.
Qed.

Lemma Forall2_fmap_agree {A B C} (f : A -> C) (g : B -> C)
    (k : list A) (l : list B) :
  Forall2 (fun a b => g b = f a) k l -> g <$> l = f <$> k.
Proof.
  induction 1 as [|a b k l Hab HF IH]; [reflexivity|].
  rewrite !fmap_cons, Hab, IH. reflexivity.
Qed.

Lemma passes_set_cell (touched : list string) c v (r0 r : row) :
  (forall c', c' ∉ touched -> r !! c' = r0 !! c') ->
  forall c', c' ∉ c :: touched -> set_cell c v r !! c' = r0 !! c'.
Proof.
  intros Hpass c' Hc'. apply not_elem_of_cons in Hc' as [Hne Hc'].
  rewrite lookup_set_cell_ne by congruence. apply Hpass, Hc'.
Qed.

Lemma passes_more (touched : list string) c (r0 r : row) :
  (forall c', c' ∉ touched -> r !! c' = r0 !! c') ->
  forall c', c' ∉ c :: touched -> r !! c' = r0 !! c'.
Proof.
  intros Hpass c' Hc'. apply not_elem_of_cons in Hc' as [_ Hc'].
  apply Hpass, Hc'.
Qed.

Lemma not_elem_of_labels (c : string) (l : list string) :
  bool_decide (c ∉ l) = true -> c ∉ l.
Proof. apply bool_decide_eq_true. Qed.

Lemma notna_one c (r : row) : notna [c] r <-> is_Some (r !! c).
Proof.
  unfold notna. rewrite Forall_cons, Forall_nil. tauto.
Qed.

Lemma notna_two c1 c2 (r : row) :
  notna [c1; c2] r <-> is_Some (r !! c1) /\ is_Some (r !! c2).
Proof.
  unfold notna. rewrite !Forall_cons, Forall_nil. tauto.
Qed.

Section CleanTrace.
Variable str_title : string -> string.
Variable to_datetime : list (option value) -> option value -> option Timestamp.

Lemma fix_city_rows df :
  Forall2 (fun r0 r : row => forall c, c ∉ ["City"] -> r !! c = r0 !! c)
    (rows df) (rows (fix_city str_title df)).
Proof.
  unfold fix_city. destruct (has_column "City" df).
  - unfold assign. cbn [rows].
    apply Forall2_fmap_r, Forall_Forall2_diag, Forall_forall.
    intros r _ c Hc. cbv beta.
    apply (passes_set_cell [] "City"); [intros; reflexivity | exact Hc].
  - apply Forall_Forall2_diag, Forall_forall. intros r _ c _. reflexivity.
Qed.

(** A step that rebuilds one column other than Date leaves the date and
    the cells of the columns not yet rebuilt as they are. *)
Lemma assign_trace (D : row -> option value) (touched : list string) c f
    (k : list row) df :
  c <> "Date" ->
  Forall2 (fun r0 r : row =>
             r !! "Date" = D r0
             /\ forall c', c' ∉ touched -> r !! c' = r0 !! c')
    k (rows df) ->
  Forall2 (fun r0 r : row =>
             r !! "Date" = D r0
             /\ forall c', c' ∉ c :: touched -> r !! c' = r0 !! c')
    k (rows (assign c f df)).
Proof.
  intros Hne HF. unfold assign. cbn [rows]. apply Forall2_fmap_r.
  eapply Forall2_impl; [exact HF|]. intros r0 r [Hd Hpass]. split.
  - rewrite lookup_set_cell_ne by exact Hne. exact Hd.
  - apply passes_set_cell, Hpass.
Qed.

Lemma fix_involved_trace (D : row -> option value) (touched : list string)
    (k : list row) df :
  Forall2 (fun r0 r : row =>
             r !! "Date" = D r0
             /\ forall c', c' ∉ touched -> r !! c' = r0 !! c')
    k (rows df) ->
  Forall2 (fun r0 r : row =>
             r !! "Date" = D r0
             /\ forall c', c' ∉ "Involved" :: touched -> r !! c' = r0 !! c')
    k (rows (fix_involved df)).
Proof.
  intros HF. unfold fix_involved. destruct (has_column "Involved" df).
  - apply assign_trace; [discriminate | exact HF].
  - eapply Forall2_impl; [exact HF|]. intros r0 r [Hd Hpass].
    split; [exact Hd | apply passes_more, Hpass].
Qed.

(** The rows of the cleaned frame, one for one and in order, against the
    rows of the combined frame that are kept. *)
Lemma clean_rows_trace df out :
  clean str_title to_datetime df = Ok out ->
  exists df0,
    strip_columns df = Ok df0
    /\ let dates := (fun r : row => r !! "Date") <$> rows df0 in
       Forall2 (fun r0 r : row =>
                  r !! "Date" = VStamp <$> to_datetime dates (r0 !! "Date")
                  /\ forall c,
                       c ∉ ["Month_Year"; "Involved"; "Hour"; "Time"; "Date";
                            "City"] ->
                       r !! c = r0 !! c)
         (filter (fun r0 : row =>
                    is_Some (r0 !! "Latitude") /\ is_Some (r0 !! "Longitude"))
            (filter (fun r0 : row =>
                       is_Some (to_datetime dates (r0 !! "Date")))
               (rows df0)))
         (rows out).
Proof.
  unfold clean. intros H.
  destruct (strip_columns df) as [df0| |] eqn:H0; try discriminate.
  cbn [mbind outcome_bind] in H.
  destruct (fix_date to_datetime (fix_city str_title df0)) as [df2| |] eqn:H2;
    try discriminate.
  cbn [mbind outcome_bind] in H.
  destruct (fix_time df2) as [df3| |] eqn:H3; try discriminate.
  cbn [mbind outcome_bind] in H.
  destruct (ensure_coordinates (fix_involved df3)) as [df5| |] eqn:H5;
    try discriminate.
  cbn [mbind outcome_bind mret outcome_ret] in H. injection H as <-.
  exists df0. split; [reflexivity|]. cbv zeta.
  set (dates := (fun r : row => r !! "Date") <$> rows df0).
  pose proof (fix_city_rows df0) as F1.
  (* the Date step *)
  unfold fix_date in H2.
  destruct (column "Date" (fix_city str_title df0)) as [dates'| |] eqn:E;
    try discriminate.
  apply column_Ok_inv in E as [_ Hdates]. cbn [mbind outcome_bind] in H2.
  assert (Hsame : dates' = dates).
  { rewrite Hdates. unfold dates. apply Forall2_fmap_agree.
    eapply Forall2_impl; [exact F1|]. intros r0 r Hpass.
    apply Hpass, not_elem_of_labels. reflexivity. }
  rewrite Hsame in H2. clear Hsame Hdates dates'.
  apply dropna_Ok_inv in H2 as [_ H2]. apply (f_equal rows) in H2.
  cbn [rows] in H2.
  assert (F2 : Forall2 (fun r0 r : row =>
      r !! "Date" = VStamp <$> to_datetime dates (r0 !! "Date")
      /\ forall c, c ∉ ["Date"; "City"] -> r !! c = r0 !! c)
    (filter (fun r0 : row => is_Some (to_datetime dates (r0 !! "Date")))
       (rows df0))
    (rows df2)).
  { rewrite H2. apply Forall2_filter_both.
    - unfold assign. cbn [rows]. apply Forall2_fmap_r.
      eapply Forall2_impl; [exact F1|]. intros r0 r Hpass. split.
      + rewrite lookup_set_cell, (Hpass "Date")
          by (apply not_elem_of_labels; reflexivity).
        reflexivity.
      + apply passes_set_cell, Hpass.
    - intros r0 r [Hd _]. rewrite notna_one, Hd, fmap_is_Some. reflexivity. }
  (* the Time and Hour steps *)
  unfold fix_time in H3.
  destruct (column "Time" df2) as [?| |]; try discriminate.
  cbn [mbind outcome_bind mret outcome_ret] in H3. injection H3 as <-.
  apply (assign_trace _ _ "Time"
           (fun r : row => VTime <$> time_of_cell (r !! "Time"))) in F2;
    [|discriminate].
  apply (assign_trace _ _ "Hour"
           (fun r : row => VNum <$> hour_of_cell (r !! "Time"))) in F2;
    [|discriminate].
  (* the Involved step and the coordinates *)
  apply fix_involved_trace in F2.
  apply dropna_Ok_inv in H5 as [_ ->].
  apply assign_trace; [discriminate|]. cbn [rows].
  apply Forall2_filter_both; [exact F2|].
  intros r0 r [_ Hpass].
  rewrite notna_two, !Hpass by (apply not_elem_of_labels; reflexivity).
  reflexivity.
Qed.

(** X13.  The unified table has one row for each row of the combined
    frame whose date parses and whose latitude and longitude are present,
    in the order of the combined frame, and no other row.  The date of
    the row is the parsed date, and every cell outside the six columns
    that the cleaning rebuilds is the source cell. *)
Theorem load_keeps_rows (path : string) (listing : list dir_entry)
    (warnings : list string) (df : DataFrame) :
  load_and_clean_data str_title to_datetime (inr (path, listing))
  = (warnings, Ok df) ->
  exists df0,
    strip_columns (concat (read_files (all_csv_files path listing)).2) = Ok df0
    /\ let dates := (fun r : row => r !! "Date") <$> rows df0 in
       let kept :=
         filter (fun r0 : row =>
                   is_Some (to_datetime dates (r0 !! "Date"))
                   /\ is_Some (r0 !! "Latitude") /\ is_Some (r0 !! "Longitude"))
           (rows df0) in
       Forall2 (fun r0 r : row =>
                  r !! "Date" = VStamp <$> to_datetime dates (r0 !! "Date")
                  /\ forall c,
                       c ∉ ["Month_Year"; "Involved"; "Hour"; "Time"; "Date";
                            "City"] ->
                       r !! c = r0 !! c)
         kept (rows df)
       /\ len df = length kept
       /\ len df <= len df0.
Proof.
  intros Hload. apply load_Ok_inv in Hload.
  apply clean_rows_trace in Hload as (df0 & Hs & HF).
  exists df0. split; [exact Hs|]. cbv zeta in HF |- *.
  rewrite list_filter_filter in HF.
  rewrite (filter_ext_elem _
             (fun r0 : row =>
                (is_Some (r0 !! "Latitude") /\ is_Some (r0 !! "Longitude"))
                /\ is_Some (to_datetime ((fun r : row => r !! "Date") <$> rows df0)
                              (r0 !! "Date"))))
    by (intros; tauto).
  split; [exact HF|].
  apply Forall2_length in HF. unfold len. split; [symmetry; exact HF|].
  rewrite <- HF. apply length_filter.
Qed.

End CleanTrace.

Lemma load_keeps_rows_witness :
  Sample.load Sample.download
  = (["Could not read file /data/2024.csv: no columns to parse from file"],
     Ok Sample.unified)
  /\ exists df0, len Sample.unified <= len df0.
Proof.
  split; [exact sample_load|].
  destruct (load_keeps_rows Sample.title Sample.mdy "/data" _ _ _ sample_load)
    as (df0 & _ & _ & _ & Hlen).
  exists df0. exact Hlen.
Defined.

Example sample_keeps_three_rows : len Sample.unified = 3.
Proof. vm_compute. reflexivity. Qed.

(** ** The labels of the unified frame *)

Lemma assign_columns c f df :
  columns (assign c f df)
  = columns df ++ filter (fun c' => c' ∉ columns df) [c].
Proof.
  unfold assign, has_column. cbn [columns].
  rewrite filter_cons, filter_nil.
  destruct (decide (c ∈ columns df)) as [Hin|Hout].
  - rewrite bool_decide_eq_true_2 by exact Hin.
    rewrite decide_False by (intros Hn; exact (Hn Hin)).
    rewrite app_nil_r. reflexivity.
  - rewrite bool_decide_eq_false_2 by exact Hout.
    rewrite decide_True by exact Hout. reflexivity.
Qed.

Lemma assign_columns_same c f df :
  c ∈ columns df -> columns (assign c f df) = columns df.
Proof.
  intros Hin. unfold assign. cbn [columns].
  apply has_column_true in Hin. rewrite Hin. reflexivity.
Qed.

Section Labels.
Variable str_title : string -> string.
Variable to_datetime : list (option value) -> option value -> option Timestamp.

Lemma fix_city_columns df : columns (fix_city str_title df) = columns df.
Proof.
  unfold fix_city. destruct (has_column "City" df) eqn:E; [|reflexivity].
  apply assign_columns_same, has_column_true, E.
Qed.

Lemma fix_involved_columns df : columns (fix_involved df) = columns df.
Proof.
  unfold fix_involved. destruct (has_column "Involved" df) eqn:E; [|reflexivity].
  apply assign_columns_same, has_column_true, E.
Qed.

Lemma clean_columns df out :
  clean str_title to_datetime df = Ok out ->
  exists df0,
    strip_columns df = Ok df0
    /\ columns out
       = columns df0
         ++ filter (fun c => c ∉ columns df0) ["Hour"]
         ++ filter (fun c => (c ∉ columns df0) /\ c <> "Hour") ["Month_Year"].
Proof.
  unfold clean. intros H.
  destruct (strip_columns df) as [df0| |] eqn:H0; try discriminate.
  cbn [mbind outcome_bind] in H.
  destruct (fix_date to_datetime (fix_city str_title df0)) as [df2| |] eqn:H2;
    try discriminate.
  cbn [mbind outcome_bind] in H.
  destruct (fix_time df2) as [df3| |] eqn:H3; try discriminate.
  cbn [mbind outcome_bind] in H.
  destruct (ensure_coordinates (fix_involved df3)) as [df5| |] eqn:H5;
    try discriminate.
  cbn [mbind outcome_bind mret outcome_ret] in H. injection H as <-.
  exists df0. split; [reflexivity|].
  apply fix_date_spec in H2 as (_ & C2 & _).
  rewrite fix_city_columns in C2.
  unfold fix_time in H3.
  destruct (column "Time" df2) as [?| |] eqn:Et; try discriminate.
  apply column_Ok_inv in Et as [Ht _].
  cbn [mbind outcome_bind mret outcome_ret] in H3. injection H3 as <-.
  apply dropna_Ok_inv in H5 as [_ ->].
  unfold add_month_year. rewrite assign_columns. cbn [columns].
  rewrite fix_involved_columns, assign_columns.
  rewrite (assign_columns_same "Time") by exact Ht.
  rewrite C2, <- app_assoc. f_equal. f_equal.
  rewrite !filter_cons, !filter_nil.
  destruct (decide ("Month_Year" ∉ columns df0
                    ++ (if decide ("Hour" ∉ columns df0) then ["Hour"] else [])))
    as [Hout|Hin].
  - rewrite decide_True; [reflexivity|]. split; [|discriminate].
    intros Hc. apply Hout, elem_of_app. left. exact Hc.
  - rewrite decide_False; [reflexivity|]. intros [Hout _]. apply Hin.
    intros Hc. apply elem_of_app in Hc as [Hc|Hc]; [exact (Hout Hc)|].
    destruct (decide ("Hour" ∉ columns df0)); [|inversion Hc].
    apply list_elem_of_singleton in Hc. discriminate.
Qed.

(** X14.  The labels of the unified table are the trimmed labels of the
    combined frame in their order, followed by Hour and by Month_Year
    where the source has no column of that name; where the trimmed labels
    of the combined frame are distinct, so are the labels of the table. *)
Theorem load_columns (path : string) (listing : list dir_entry)
    (warnings : list string) (df : DataFrame) :
  load_and_clean_data str_title to_datetime (inr (path, listing))
  = (warnings, Ok df) ->
  let source :=
    strip <$> columns (concat (read_files (all_csv_files path listing)).2) in
  columns df
  = source ++ filter (fun c => c ∉ source) ["Hour"; "Month_Year"]
  /\ (NoDup source -> NoDup (columns df)).
Proof.
  intros Hload source. apply load_Ok_inv in Hload.
  apply clean_columns in Hload as (df0 & Hs & Hcols).
  apply strip_columns_labels in Hs as [Hl _]. fold source in Hl.
  rewrite Hl in Hcols.
  assert (E : filter (fun c => c ∉ source) ["Hour"; "Month_Year"]
            = filter (fun c => c ∉ source) ["Hour"]
              ++ filter (fun c => (c ∉ source) /\ c <> "Hour") ["Month_Year"]).
  { rewrite !filter_cons, !filter_nil.
    destruct (decide ("Hour" ∉ source)), (decide ("Month_Year" ∉ source)).
    - rewrite decide_True by (split; [assumption | discriminate]). reflexivity.
    - rewrite decide_False by tauto. reflexivity.
    - rewrite decide_True by (split; [assumption | discriminate]). reflexivity.
    - rewrite decide_False by tauto. reflexivity. }
  rewrite E. split; [exact Hcols|]. intros Hnd. rewrite Hcols.
  apply NoDup_app. split; [exact Hnd|]. split.
  - intros c Hc Hin. apply elem_of_app in Hin as [Hin|Hin];
      apply list_elem_of_filter in Hin; tauto.
  - apply NoDup_app. split; [apply NoDup_filter, NoDup_singleton|].
    split; [|apply NoDup_filter, NoDup_singleton].
    intros c Hc Hin. apply list_elem_of_filter in Hc as [_ Hc].
    apply list_elem_of_filter in Hin as [[_ Hne] Hin].
    apply list_elem_of_singleton in Hc, Hin. congruence.
Qed.

End Labels.

Lemma load_columns_witness :
  Sample.load Sample.download
  = (["Could not read file /data/2024.csv: no columns to parse from file"],
     Ok Sample.unified)
  /\ columns Sample.unified = Sample.header ++ ["Hour"; "Month_Year"].
Proof.
  split; [exact sample_load|].
  rewrite (proj1 (load_columns Sample.title Sample.mdy "/data" _ _ _
                    sample_load)).
  vm_compute. reflexivity.
Defined.

(** ** The page without its optional columns *)

Lemma has_column_false c df : c ∉ columns df -> has_column c df = false.
Proof.
  intros Hc. apply not_true_iff_false. rewrite has_column_true. exact Hc.
Qed.

Lemma dashboard_without_city sort_values (df : DataFrame)
    (date_range : list date) (min_date max_date : date)
    (selected_cities : list string) :
  "Date" ∈ columns df -> "City" ∉ columns df ->
  dashboard sort_values df date_range min_date max_date selected_cities
  = Raise (KeyError "City").
Proof.
  intros Hd Hc. unfold dashboard.
  destruct (select_dates date_range min_date max_date) as [start_date end_date].
  unfold filtered_df. rewrite (column_Ok _ _ Hd). cbn [mbind outcome_bind].
  unfold column. rewrite (has_column_false _ _ Hc). reflexivity.
Qed.

(** X15.  The load does not ask for a City or an Involved column, but the
    page does.  Over a unified frame without a City column the city
    options and the page raise [KeyError] for every date range and every
    selection.  Over one with a City column and without an Involved column
    the page is computed while the selection has no rows; once the
    selection has rows and its metrics are computed, the page raises
    [TypeError] at the map where a coordinate of a selected row is no
    number, and otherwise [KeyError] at the vehicle chart. *)
Theorem page_needs_city_and_involved
    (sort_values : list (string * nat) -> list (string * nat))
    (df : DataFrame) (date_range : list date)
    (min_date max_date : date) (selected_cities : list string) :
  frame_ok df ->
  let run :=
    dashboard sort_values df date_range min_date max_date selected_cities in
  ("City" ∉ columns df ->
     cities df = Raise (KeyError "City") /\ run = Raise (KeyError "City"))
  /\ ("City" ∈ columns df -> "Involved" ∉ columns df ->
      exists filtered,
        filtered_df df (select_dates date_range min_date max_date).1
          (select_dates date_range min_date max_date).2 selected_cities
        = Ok filtered
        /\ (rows filtered = [] ->
              run = Ok (mkpage (mkmetrics 0 "N/A" "N/A" "N/A")
                          None None None None filtered))
        /\ (rows filtered <> [] ->
            (exists m, top_metrics filtered = Ok m) ->
            run = if numeric_coordinates filtered
                  then Raise (KeyError "Involved")
                  else Raise TypeError)).
Proof.
  intros Hok run.
  assert (Hcol : forall c,
            c ∈ ["Date"; "Time"; "Latitude"; "Longitude"; "Hour"; "Month_Year"] ->
            c ∈ columns df) by (intros c; apply (frame_ok_column _ _ Hok)).
  assert (Hd : "Date" ∈ columns df) by (apply Hcol, elem_of_labels; reflexivity).
  split.
  - intros Hc. split; [|apply dashboard_without_city; assumption].
    unfold cities, column. rewrite (has_column_false _ _ Hc). reflexivity.
  - intros Hcity Hinv. unfold run, dashboard.
    destruct (select_dates date_range min_date max_date)
      as [start_date end_date].
    cbn [fst snd].
    assert (Hfilter :=
      filtered_df_Ok df start_date end_date selected_cities Hd Hcity).
    rewrite Hfilter.
    set (filtered := {| columns := columns df;
                        rows := filter (fun r => mask start_date end_date
                                                   selected_cities r = true)
                                  (rows df) |}) in *.
    exists filtered. split; [reflexivity|]. cbn [mbind outcome_bind]. split.
    + intros Hrows.
      assert (He : empty filtered = true)
        by (unfold empty; rewrite Hrows; reflexivity).
      rewrite (top_metrics_empty _ He). cbn [mbind outcome_bind].
      unfold hotspots, trend_data, heatmap_data, veh_counts. rewrite He.
      cbn [negb mbind outcome_bind mret outcome_ret].
      rewrite He. cbn [negb mbind outcome_bind mret outcome_ret].
      unfold len. rewrite Hrows. reflexivity.
    + intros Hrows [m Hm].
      assert (He : empty filtered = false).
      { apply empty_false. split; [exact Hrows|]. intros Hnil.
        change (columns filtered) with (columns df) in Hnil.
        rewrite Hnil in Hd. inversion Hd. }
      rewrite Hm. cbn [mbind outcome_bind].
      rewrite (hotspots_run filtered)
        by (try exact He; apply Hcol, elem_of_labels; reflexivity).
      destruct (numeric_coordinates filtered); [|reflexivity].
      cbn [mbind outcome_bind].
      rewrite (trend_data_run filtered)
        by (try exact He; apply Hcol, elem_of_labels; reflexivity).
      cbn [mbind outcome_bind].
      rewrite (heatmap_data_run filtered)
        by (try exact He; apply Hcol, elem_of_labels; reflexivity).
      cbn [mbind outcome_bind].
      unfold veh_counts. rewrite (empty_with_day_name _ He). cbn [negb].
      unfold column. rewrite has_column_false; [reflexivity|].
      unfold with_day_name. rewrite elem_of_columns_assign.
      intros [Hin|Heq]; [exact (Hinv Hin) | discriminate].
Qed.

Lemma page_needs_city_and_involved_witness :
  exists df,
    Sample.load Sample.download_without_city = ([], Ok df)
    /\ frame_ok df
    /\ cities df = Raise (KeyError "City").
Proof.
  eexists. split; [vm_compute; reflexivity|].
  match goal with
  | |- frame_ok ?d /\ _ =>
      assert (Hok : frame_ok d)
        by (apply (loaded_frame_ok Sample.title Sample.mdy "/data"
                     [Ingest.mkentry "2023.csv" (inr (Sample.csv
                        ["Date"; "Time"; "Latitude"; "Longitude"]
                        [["01/02/2023"; "2:15 PM"; "14.5"; "121.0"]]))] []);
            vm_compute; reflexivity)
  end.
  split; [exact Hok|].
  apply (page_needs_city_and_involved Sample.sort_values _ []
           (mkdate 2023 1 1) (mkdate 2023 1 1) [] Hok).
  apply not_elem_of_labels. vm_compute. reflexivity.
Defined.
